(** * Compliance Risk & Audit Engine: a shallow embedding

    The development follows the four Python modules of the repository:
    [risk_scoring.py], [audit_logger.py], [compliance_dashboard.py] and
    [performance_monitor.py].  Python values are modelled as follows.

    - [str] is [string]; a character stands for a code point below 256, so
      that [lower] and [strip] are the Latin-1 restriction of Python's.
    - [int] is [Z]; [float] is the rational [Q] it denotes exactly (finite
      floats only), so comparisons and decimal formatting are exact; sums,
      products and quotients of floats are taken in [Q], and [round] rounds
      to the nearest decimal, ties to even.  Where double-precision
      rounding can change a result that is read as a whole, the computation
      is also evaluated on binary64 numbers: the percentile index, and the
      compliance score with its status.
    - an exception that escapes a function is a [Raise] result.
    - [datetime.now()] is an explicit argument [now] of every function that
      reads the clock.
    - a file system is a finite map from paths to file contents; [json] and
      the document index are parameters of the functions that call them. *)

From Stdlib Require Import ZArith QArith Qround Qpower Qabs.
From Stdlib Require Import String Ascii List Lia Lqa.
From Stdlib Require Import Floats Sorting.Sorted Sorting.Permutation.
From Stdlib Require Import DecimalString.
From stdpp Require Import base option list strings gmap.

Local Open Scope Z_scope.

(** ** Python builtins used by the sources *)

Module Py.

(** [str(n)] for an [int]. *)
Definition str_of_int (n : Z) : string :=
  NilZero.string_of_int (Z.to_int n).

(** One decimal digit as a character. *)
Definition digit (n : Z) : ascii := ascii_of_N (48 + Z.to_N n).

(** Zero-padded fields of [strftime]-like renderings. *)
Definition pad2 (n : Z) : string :=
  String (digit (n / 10)) (String (digit (n mod 10)) EmptyString).

Definition pad4 (n : Z) : string :=
  pad2 (n / 100) +:+ pad2 (n mod 100).

Definition pad6 (n : Z) : string :=
  pad2 (n / 10000) +:+ pad4 (n mod 10000).

(** [c.lower()] on code points below 256: A-Z and the Latin-1 capitals
    (0xC0-0xDE except the multiplication sign 0xD7) move up by 32. *)
Definition lower_char (c : ascii) : ascii :=
  let n := N_of_ascii c in
  if ((65 <=? n) && (n <=? 90))%N
     || ((192 <=? n) && (n <=? 222) && negb (n =? 215))%N
  then ascii_of_N (n + 32) else c.

Fixpoint lower (s : string) : string :=
  match s with
  | EmptyString => EmptyString
  | String c s' => String (lower_char c) (lower s')
  end.

(** [s.startswith(p)]. *)
Fixpoint startswith (p s : string) : bool :=
  match p, s with
  | EmptyString, _ => true
  | String c p', String d s' => Ascii.eqb c d && startswith p' s'
  | String _ _, EmptyString => false
  end.

(** [k in s] for two strings: [k] occurs as a contiguous substring. *)
Fixpoint contains (k s : string) : bool :=
  startswith k s ||
  match s with
  | EmptyString => false
  | String _ s' => contains k s'
  end.

(** [sep.join(l)]. *)
Fixpoint join (sep : string) (l : list string) : string :=
  match l with
  | [] => EmptyString
  | [x] => x
  | x :: l' => x +:+ sep +:+ join sep l'
  end.

(** [x in l] for a list of strings. *)
Definition in_list (x : string) (l : list string) : bool :=
  existsb (String.eqb x) l.

(** [s[:n]] for [n >= 0]. *)
Fixpoint take_str (n : nat) (s : string) : string :=
  match n, s with
  | S n', String c s' => String c (take_str n' s')
  | _, _ => EmptyString
  end.

(** [x < y] and [x >= y] on the rationals. *)
Definition Qltb (x y : Q) : bool :=
  match Qcompare x y with Lt => true | _ => false end.
Definition Qgeb (x y : Q) : bool := Qle_bool y x.

(** Rounding to the nearest integer, ties to the even one: the rounding of
    [round] and of the [f] format. *)
Definition round_half_even (q : Q) : Z :=
  let f := Qfloor q in
  match Qcompare (q - inject_Z f) (1 # 2) with
  | Lt => f
  | Gt => f + 1
  | Eq => if Z.even f then f else f + 1
  end.

(** [round(x, n)] for [n >= 0]. *)
Definition round (x : Q) (ndigits : nat) : Q :=
  let p := Z.pow 10 (Z.of_nat ndigits) in
  inject_Z (round_half_even (x * inject_Z p)) / inject_Z p.

(** The [,] option of the format mini-language on a digit string. *)
Fixpoint group_thousands (s : string) : string :=
  match s with
  | EmptyString => EmptyString
  | String c s' =>
      String c
        (if (0 <? String.length s')%nat && (String.length s' mod 3 =? 0)%nat
         then String "," (group_thousands s')
         else group_thousands s')
  end.

(** [f"{x:,.2f}"]. *)
Definition format_comma_2f (x : Q) : string :=
  let cents := Z.abs (round_half_even (x * 100)) in
  (if Qlt_le_dec x 0 then "-" else "") +:+
  group_thousands (str_of_int (cents / 100)) +:+ "." +:+ pad2 (cents mod 100).

(** Exceptions that escape the modelled functions, and results. *)
Inductive exn := AttributeError | TypeError | ZeroDivisionError | IndexError.

Inductive result (A : Type) :=
| Ok (a : A)
| Raise (e : exn).
Arguments Ok {A} a.
Arguments Raise {A} e.

Definition bind {A B} (r : result A) (k : A -> result B) : result B :=
  match r with
  | Ok a => k a
  | Raise e => Raise e
  end.

(** Line feed and carriage return. *)
Definition LF : ascii := "010"%char.
Definition CR : ascii := "013"%char.
Definition newline : string := String LF EmptyString.

(** [c.isspace()] on code points below 256. *)
Definition is_space (c : ascii) : bool :=
  let n := N_of_ascii c in
  ((9 <=? n) && (n <=? 13) || (28 <=? n) && (n <=? 32)
   || (n =? 133) || (n =? 160))%N.

Fixpoint lstrip (s : string) : string :=
  match s with
  | EmptyString => EmptyString
  | String c s' => if is_space c then lstrip s' else s
  end.

Fixpoint rstrip (s : string) : string :=
  match s with
  | EmptyString => EmptyString
  | String c s' =>
      match rstrip s' with
      | EmptyString => if is_space c then EmptyString else String c EmptyString
      | r => String c r
      end
  end.

(** [s.strip()]. *)
Definition strip (s : string) : string := lstrip (rstrip s).

(** Reading in text mode translates the line endings CR LF and CR to LF. *)
Fixpoint universal_newlines (s : string) : string :=
  match s with
  | EmptyString => EmptyString
  | String c s' =>
      if Ascii.eqb c CR then
        match s' with
        | String d s'' =>
            if Ascii.eqb d LF then String LF (universal_newlines s'')
            else String LF (universal_newlines s')
        | EmptyString => String LF EmptyString
        end
      else String c (universal_newlines s')
  end.

(** The lines of a text, each with its line feed, the last one possibly
    without. *)
Fixpoint lines (s : string) : list string :=
  match s with
  | EmptyString => []
  | String c s' =>
      if Ascii.eqb c LF then String c EmptyString :: lines s'
      else match lines s' with
           | [] => [String c EmptyString]
           | l :: ls => String c l :: ls
           end
  end.

(** A text without line feed and carriage return. *)
Fixpoint no_linebreak (s : string) : bool :=
  match s with
  | EmptyString => true
  | String c s' =>
      negb (Ascii.eqb c LF) && negb (Ascii.eqb c CR) && no_linebreak s'
  end.

(** [for line in f] on a file opened with [open(path, 'r')]. *)
Definition readlines (content : string) : list string :=
  lines (universal_newlines content).

(** [l[start:]] for any integer [start]. *)
Definition slice_from {A} (start : Z) (l : list A) : list A :=
  let n := Z.of_nat (length l) in
  let i := if start <? 0 then Z.max (n + start) 0 else Z.min start n in
  drop (Z.to_nat i) l.

(** [s.encode()]: UTF-8 of code points below 256, as bytes in [0,256). *)
Fixpoint encode (s : string) : list Z :=
  match s with
  | EmptyString => []
  | String c s' =>
      let n := Z.of_N (N_of_ascii c) in
      if n <? 128 then n :: encode s'
      else Z.lor 192 (Z.shiftr n 6) :: Z.lor 128 (Z.land n 63) :: encode s'
  end.

(** [l[i]] for any integer [i]: negative indices count from the end. *)
Definition getitem {A} (l : list A) (i : Z) : result A :=
  let n := Z.of_nat (length l) in
  let j := if i <? 0 then n + i else i in
  if (0 <=? j) && (j <? n) then
    match nth_error l (Z.to_nat j) with
    | Some x => Ok x
    | None => Raise IndexError
    end
  else Raise IndexError.

(** [int(x)]: truncation towards zero. *)
Definition int_of_Q (x : Q) : Z :=
  if Qlt_le_dec x 0 then Qceiling x else Qfloor x.

(** [sorted(l)] on numbers: a stable insertion sort. *)
Fixpoint insert_sorted (x : Q) (l : list Q) : list Q :=
  match l with
  | [] => [x]
  | y :: l' => if Qle_bool x y then x :: l else y :: insert_sorted x l'
  end.

Fixpoint sorted (l : list Q) : list Q :=
  match l with
  | [] => []
  | x :: l' => insert_sorted x (sorted l')
  end.

(** Binary64 numbers, for the expressions whose rounding matters:
    [float(n)] for an integer of at most 53 bits, and [int(x)]. *)
Definition float_of_int (n : Z) : float := PrimFloat.of_uint63 (Uint63.of_Z n).

Definition int_of_float (x : float) : Z :=
  match Prim2SF x with
  | S754_finite s m e =>
      let v := if 0 <=? e then Z.pos m * 2 ^ e else Z.pos m / 2 ^ (- e) in
      if s then - v else v
  | _ => 0
  end.

(** The integers [start], [start + 1], ..., [start + n - 1]. *)
Fixpoint range (n : nat) (start : Z) : list Z :=
  match n with
  | O => []
  | S n' => start :: range n' (start + 1)
  end.

(** A naive [datetime]. *)
Record datetime := {
  year : Z; month : Z; day : Z;
  hour : Z; minute : Z; second : Z; microsecond : Z
}.

Definition valid_datetime (d : datetime) : Prop :=
  1 <= year d <= 9999 /\ 1 <= month d <= 12 /\ 1 <= day d <= 31 /\
  0 <= hour d < 24 /\ 0 <= minute d < 60 /\ 0 <= second d < 60 /\
  0 <= microsecond d < 1000000.

Definition render_datetime (sep : string) (d : datetime) : string :=
  pad4 (year d) +:+ "-" +:+ pad2 (month d) +:+ "-" +:+ pad2 (day d) +:+ sep +:+
  pad2 (hour d) +:+ ":" +:+ pad2 (minute d) +:+ ":" +:+ pad2 (second d) +:+
  (if microsecond d =? 0 then "" else "." +:+ pad6 (microsecond d)).

(** [d.isoformat()] and [str(d)]. *)
Definition isoformat (d : datetime) : string := render_datetime "T" d.
Definition str_of_datetime (d : datetime) : string := render_datetime " " d.

(** [d.strftime('%Y%m%d_%H%M%S')]. *)
Definition strftime_compact (d : datetime) : string :=
  pad4 (year d) +:+ pad2 (month d) +:+ pad2 (day d) +:+ "_" +:+
  pad2 (hour d) +:+ pad2 (minute d) +:+ pad2 (second d).

(** [x // y] and [x % y] on floats, for a positive divisor. *)
Definition floordiv (x y : Q) : Q := inject_Z (Qfloor (x / y)).
Definition modulo (x y : Q) : Q := (x - y * inject_Z (Qfloor (x / y)))%Q.

(** *** Double precision

    A binary64 number is the rational that it denotes.  [binade x] is the
    exponent [e] with [2^e <= |x| < 2^(e+1)]; around [x] the doubles are
    [spacing x] apart, which is [2^(e-52)] and never less than [2^-1074].
    [fl x] is the double nearest to [x], the one with the even significand
    when two are equally near: the result of every arithmetic operation on
    doubles is [fl] of the exact result.  Results beyond the largest double
    are outside the model. *)
Definition binade (x : Q) : Z :=
  let e := Z.log2 (Z.abs (Qnum x)) - Z.log2 (Z.pos (Qden x)) in
  if Qle_bool (2 ^ e) (Qabs x) then e else e - 1.

Definition spacing (x : Q) : Q := 2 ^ Z.max (binade x - 52) (-1074).

Definition fl (x : Q) : Q :=
  inject_Z (round_half_even (x / spacing x)) * spacing x.

(** [round(x, n)] for a float [x] and [n >= 0]: the double nearest to the
    decimal rounding of [x]. *)
Definition float_round (x : Q) (ndigits : nat) : Q := fl (round x ndigits).

(** A number: an [int], or a [float]. *)
Inductive numeric :=
| Int (n : Z)
| Float (x : Q).

Definition value (v : numeric) : Q :=
  match v with
  | Int n => inject_Z n
  | Float x => x
  end.

(** [round(v, n)] for [n >= 0]: an [int] is returned as it is. *)
Definition round_numeric (v : numeric) (ndigits : nat) : Q :=
  match v with
  | Int n => inject_Z n
  | Float x => float_round x ndigits
  end.

(** [s / n] for a number [s] and an [int] [n]. *)
Definition truediv (s : numeric) (n : Z) : Q :=
  match s with
  | Int k => fl (inject_Z k / inject_Z n)
  | Float x => fl (x / fl (inject_Z n))
  end.

(** The two ways in which [sum] adds floats: one addition per item before
    Python 3.12, Neumaier's compensated summation since. *)
Inductive summation := Naive | Compensated.

(** One round of the float loop of [sum]; the state is the running total
    and the compensation. *)
Definition sum_float_step (how : summation) (st : Q * Q) (item : numeric)
    : Q * Q :=
  match item with
  | Float x =>
      let t := fl (st.1 + x) in
      match how with
      | Naive => (t, st.2)
      | Compensated =>
          if Qle_bool (Qabs x) (Qabs st.1)
          then (t, fl (st.2 + fl (fl (st.1 - t) + x)))
          else (t, fl (st.2 + fl (fl (x - t) + st.1)))
      end
  | Int n => (fl (st.1 + fl (inject_Z n)), st.2)
  end.

(** [sum(l)]: integers are added exactly up to the first float; from there
    on the total is a float.  Integers beyond the range of a machine word,
    which [sum] adds by another path, are outside the model. *)
Fixpoint sum_from (how : summation) (acc : Z) (l : list numeric) : numeric :=
  match l with
  | [] => Int acc
  | Int n :: l' => sum_from how (acc + n) l'
  | Float x :: l' =>
      let st :=
        fold_left (sum_float_step how) l' (fl (fl (inject_Z acc) + x), 0%Q) in
      Float (if Qeq_bool st.2 0 then st.1 else fl (st.1 + st.2))
  end.

Definition sum (how : summation) (l : list numeric) : numeric :=
  sum_from how 0 l.

(** The rational that a binary64 number of the kernel denotes. *)
Definition Q_of_float (x : float) : Q :=
  match Prim2SF x with
  | S754_finite s m e =>
      (if s then -1 else 1) * inject_Z (Z.pos m) * 2 ^ e
  | _ => 0
  end.

(** The operands of the comparison with the kernel's binary64 arithmetic:
    the doubles [n / 10] and [m / 7]. *)
Definition tenth (n : Z) : float :=
  PrimFloat.div (float_of_int n) (float_of_int 10).
Definition seventh (m : Z) : float :=
  PrimFloat.div (float_of_int m) (float_of_int 7).

(** [fl] of the exact result is the result of the kernel, for the four
    operations on one pair of operands. *)
Definition operations_agree (n m : Z) : bool :=
  let x := tenth n in
  let y := seventh m in
  let a := Q_of_float x in
  let b := Q_of_float y in
  Qeq_bool (fl (inject_Z n / 10)) a
  && Qeq_bool (fl (inject_Z m / 7)) b
  && Qeq_bool (fl (a + b)) (Q_of_float (PrimFloat.add x y))
  && Qeq_bool (fl (a - b)) (Q_of_float (PrimFloat.sub x y))
  && Qeq_bool (fl (a * b)) (Q_of_float (PrimFloat.mul x y))
  && Qeq_bool (fl (a / b)) (Q_of_float (PrimFloat.div x y)).
End Py.

(** ** hashlib.md5 (RFC 1321) on byte lists; words are integers modulo 2^32 *)

Module MD5.

Definition wrap32 (x : Z) : Z := x mod 4294967296.
Definition add32 (x y : Z) : Z := wrap32 (x + y).
Definition not32 (x : Z) : Z := Z.lxor x 4294967295.
Definition rotl32 (x c : Z) : Z :=
  Z.lor (wrap32 (Z.shiftl x c)) (Z.shiftr x (32 - c)).

Definition K : list Z :=
  [3614090360; 3905402710; 606105819; 3250441966;
   4118548399; 1200080426; 2821735955; 4249261313;
   1770035416; 2336552879; 4294925233; 2304563134;
   1804603682; 4254626195; 2792965006; 1236535329;
   4129170786; 3225465664; 643717713; 3921069994;
   3593408605; 38016083; 3634488961; 3889429448;
   568446438; 3275163606; 4107603335; 1163531501;
   2850285829; 4243563512; 1735328473; 2368359562;
   4294588738; 2272392833; 1839030562; 4259657740;
   2763975236; 1272893353; 4139469664; 3200236656;
   681279174; 3936430074; 3572445317; 76029189;
   3654602809; 3873151461; 530742520; 3299628645;
   4096336452; 1126891415; 2878612391; 4237533241;
   1700485571; 2399980690; 4293915773; 2240044497;
   1873313359; 4264355552; 2734768916; 1309151649;
   4149444226; 3174756917; 718787259; 3951481745].

Definition shifts : list Z :=
  [7; 12; 17; 22; 7; 12; 17; 22; 7; 12; 17; 22; 7; 12; 17; 22;
   5; 9; 14; 20; 5; 9; 14; 20; 5; 9; 14; 20; 5; 9; 14; 20;
   4; 11; 16; 23; 4; 11; 16; 23; 4; 11; 16; 23; 4; 11; 16; 23;
   6; 10; 15; 21; 6; 10; 15; 21; 6; 10; 15; 21; 6; 10; 15; 21].

Definition state : Type := Z * Z * Z * Z.

Definition init : state := (1732584193, 4023233417, 2562383102, 271733878).

(** One of the 64 operations on the working variables. *)
Definition step (M : list Z) (st : state) (i : nat) : state :=
  let '(A, B, C, D) := st in
  let iz := Z.of_nat i in
  let '(F, g) :=
    if iz <? 16 then (Z.lor (Z.land B C) (Z.land (not32 B) D), iz)
    else if iz <? 32 then
      (Z.lor (Z.land D B) (Z.land (not32 D) C), (5 * iz + 1) mod 16)
    else if iz <? 48 then (Z.lxor (Z.lxor B C) D, (3 * iz + 5) mod 16)
    else (Z.lxor C (Z.lor B (not32 D)), (7 * iz) mod 16) in
  let F := add32 (add32 (add32 F A) (nth i K 0)) (nth (Z.to_nat g) M 0) in
  (D, add32 B (rotl32 F (nth i shifts 0)), B, C).

(** The sixteen little-endian words of a block of 64 bytes. *)
Fixpoint words (bytes : list Z) : list Z :=
  match bytes with
  | b0 :: b1 :: b2 :: b3 :: rest =>
      (b0 + 256 * b1 + 65536 * b2 + 16777216 * b3) :: words rest
  | _ => []
  end.

Definition process_block (st : state) (block : list Z) : state :=
  let '(a0, b0, c0, d0) := st in
  let '(A, B, C, D) := fold_left (step (words block)) (seq 0 64) st in
  (add32 a0 A, add32 b0 B, add32 c0 C, add32 d0 D).

(** The eight little-endian bytes of the bit length. *)
Definition length_bytes (bits : Z) : list Z :=
  map (fun i => (Z.shiftr bits (8 * Z.of_nat i)) mod 256) (seq 0 8).

Definition pad (msg : list Z) : list Z :=
  let n := Z.of_nat (length msg) in
  let zeros := Z.to_nat ((55 - n) mod 64) in
  msg ++ [128] ++ repeat 0 zeros ++ length_bytes ((8 * n) mod 18446744073709551616).

Fixpoint process (nblocks : nat) (st : state) (bytes : list Z) : state :=
  match nblocks with
  | O => st
  | S n => process n (process_block st (take 64 bytes)) (drop 64 bytes)
  end.

Definition hex_digit (n : Z) : ascii :=
  if n <? 10 then ascii_of_N (48 + Z.to_N n) else ascii_of_N (87 + Z.to_N n).

Definition hex_byte (b : Z) : string :=
  String (hex_digit (b / 16)) (String (hex_digit (b mod 16)) EmptyString).

Definition hex_word (w : Z) : string :=
  hex_byte (w mod 256) +:+ hex_byte ((w / 256) mod 256) +:+
  hex_byte ((w / 65536) mod 256) +:+ hex_byte ((w / 16777216) mod 256).

(** [hashlib.md5(msg).hexdigest()]. *)
Definition hexdigest (msg : list Z) : string :=
  let padded := pad msg in
  let '(a, b, c, d) := process (length padded / 64) init padded in
  hex_word a +:+ hex_word b +:+ hex_word c +:+ hex_word d.

End MD5.

(** ** risk_scoring.py *)

Module RiskScoring.

Definition HIGH_RISK_COUNTRIES : list string :=
  ["Afghanistan"; "Iran"; "North Korea"; "Syria"; "Yemen";
   "Myanmar"; "Cuba"; "Sudan"; "Venezuela"].

Definition HIGH_RISK_KEYWORDS : list string :=
  ["sanction"; "terrorist"; "terrorism"; "fraud"; "laundering";
   "money laundering"; "shell company"; "offshore"; "pep";
   "politically exposed"; "blacklist"; "watchlist"].

Definition MEDIUM_RISK_KEYWORDS : list string :=
  ["cash"; "cryptocurrency"; "bitcoin"; "anonymous"; "bearer";
   "structuring"; "smurfing"; "layering"; "placement"].

(** The [transaction_data] dictionary: every key may be absent. *)
Record transaction_data := {
  td_amount : option Q;
  td_currency : option string;
  td_country : option string;
  td_count_24h : option Z;
  td_customer_type : option string;
  td_is_cash : option bool
}.

(** The dictionary returned by [calculate_transaction_risk]. *)
Record transaction_risk := {
  risk_score : Z;
  risk_level : string;
  flags : list string;
  recommended_action : string;
  timestamp : string
}.

(** The two accumulators of the scorers, [risk_score] and [flags], are
    threaded as a pair; [flag p text] is the statement pair
    [risk_score += p; flags.append(text)]. *)
Definition scorer_state : Type := Z * list string.

Definition flag (points : Z) (text : string) (st : scorer_state)
    : scorer_state :=
  (st.1 + points, st.2 ++ [text]).

Definition calculate_transaction_risk
    (now : Py.datetime) (transaction_data : transaction_data)
    : transaction_risk :=
  let st : scorer_state := (0, []) in
  (* Amount-based risk *)
  let amount := default (0 : Q) (td_amount transaction_data) in
  let st :=
    if Py.Qgeb amount 50000 then
      flag 35 ("High-value transaction: $" +:+ Py.format_comma_2f amount) st
    else if Py.Qgeb amount 10000 then
      flag 20 ("Medium-value transaction: $" +:+ Py.format_comma_2f amount) st
    else st in
  (* Velocity risk *)
  let count_24h := default 0 (td_count_24h transaction_data) in
  let st :=
    if 20 <? count_24h then
      flag 30 ("Very high velocity: " +:+ Py.str_of_int count_24h
               +:+ " transactions/24h") st
    else if 10 <? count_24h then
      flag 15 ("High velocity: " +:+ Py.str_of_int count_24h
               +:+ " transactions/24h") st
    else st in
  (* Geographic risk *)
  let country := default "" (td_country transaction_data) in
  let st :=
    if Py.in_list country HIGH_RISK_COUNTRIES then
      flag 25 ("High-risk jurisdiction: " +:+ country) st
    else st in
  (* Cash transaction risk *)
  let st :=
    if default false (td_is_cash transaction_data) then
      flag 15 "Cash transaction" st
    else st in
  (* Customer type risk *)
  let st :=
    if bool_decide (td_customer_type transaction_data = Some "corporate") then
      if Py.Qltb amount 1000 then
        flag 10 "Unusual small corporate transaction" st
      else st
    else st in
  (* Cap at 100 *)
  let risk_score := Z.min st.1 100 in
  (* Determine risk level *)
  let level_action : string * string :=
    if 70 <=? risk_score then ("HIGH", "Enhanced Due Diligence Required")
    else if 40 <=? risk_score then ("MEDIUM", "Standard Due Diligence Required")
    else ("LOW", "Normal Processing") in
  {| risk_score := risk_score;
     risk_level := level_action.1;
     flags := st.2;
     recommended_action := level_action.2;
     timestamp := Py.isoformat now |}.

(** The dictionary returned by [analyze_query_risk]. *)
Record query_risk := {
  qr_risk_score : Z;
  qr_risk_level : string;
  qr_flags : list string;
  keywords_found : list string;
  requires_alert : bool
}.

(** One iteration of the two keyword loops, which differ in the weight;
    the state is [(risk_score, keywords_found)]. *)
Definition keyword_step (weight : Z) (query_lower : string)
    (st : scorer_state) (keyword : string) : scorer_state :=
  if Py.contains keyword query_lower
  then (st.1 + weight, st.2 ++ [keyword])
  else st.

Definition analyze_query_risk (query : string) : query_risk :=
  let query_lower := Py.lower query in
  let st : scorer_state := (0, []) in
  let flags : list string := [] in
  (* Check for high-risk keywords *)
  let st := fold_left (keyword_step 15 query_lower) HIGH_RISK_KEYWORDS st in
  (* Check for medium-risk keywords *)
  let st := fold_left (keyword_step 8 query_lower) MEDIUM_RISK_KEYWORDS st in
  let keywords_found := st.2 in
  let flags :=
    match keywords_found with
    | [] => flags
    | _ :: _ =>
        flags ++ ["Risk keywords detected: " +:+ Py.join ", " keywords_found]
    end in
  (* Cap at 100 *)
  let risk_score := Z.min st.1 100 in
  (* Determine risk level *)
  let level_alert : string * bool :=
    if 50 <=? risk_score then ("HIGH", true)
    else if 25 <=? risk_score then ("MEDIUM", false)
    else ("LOW", false) in
  {| qr_risk_score := risk_score;
     qr_risk_level := level_alert.1;
     qr_flags := flags;
     keywords_found := keywords_found;
     requires_alert := level_alert.2 |}.

(** *** The rules as the specification words them *)

Section SpecRules.
Variable td : transaction_data.

Definition spec_amount : Q := default (0 : Q) (td_amount td).
Definition spec_count : Z := default 0 (td_count_24h td).
Definition spec_country : string := default "" (td_country td).

(** +35 if amount >= 50,000 else +20 if amount >= 10,000. *)
Definition spec_amount_points : Z :=
  if Qlt_le_dec spec_amount 50000
  then (if Qlt_le_dec spec_amount 10000 then 0 else 20)
  else 35.

(** +30 if count_24h > 20 else +15 if count_24h > 10. *)
Definition spec_velocity_points : Z :=
  if decide (20 < spec_count) then 30
  else if decide (10 < spec_count) then 15 else 0.

(** +25 if the country is in the fixed high-risk country set. *)
Definition spec_country_points : Z :=
  if decide (spec_country ∈ HIGH_RISK_COUNTRIES) then 25 else 0.

(** +15 if is_cash is true. *)
Definition spec_cash_points : Z :=
  if decide (td_is_cash td = Some true) then 15 else 0.

(** +10 if customer_type is 'corporate' and amount < 1,000. *)
Definition spec_corporate_points : Z :=
  if decide (td_customer_type td = Some "corporate")
  then (if Qlt_le_dec spec_amount 1000 then 10 else 0)
  else 0.

Definition spec_transaction_score : Z :=
  Z.min (spec_amount_points + spec_velocity_points + spec_country_points
         + spec_cash_points + spec_corporate_points) 100.

(** The flags, one optional flag per rule, in the order of the rules. *)
Definition spec_amount_flag : list string :=
  if Qlt_le_dec spec_amount 50000
  then (if Qlt_le_dec spec_amount 10000 then []
        else ["Medium-value transaction: $" +:+ Py.format_comma_2f spec_amount])
  else ["High-value transaction: $" +:+ Py.format_comma_2f spec_amount].

Definition spec_velocity_flag : list string :=
  if decide (20 < spec_count)
  then ["Very high velocity: " +:+ Py.str_of_int spec_count +:+ " transactions/24h"]
  else if decide (10 < spec_count)
  then ["High velocity: " +:+ Py.str_of_int spec_count +:+ " transactions/24h"]
  else [].

Definition spec_country_flag : list string :=
  if decide (spec_country ∈ HIGH_RISK_COUNTRIES)
  then ["High-risk jurisdiction: " +:+ spec_country] else [].

Definition spec_cash_flag : list string :=
  if decide (td_is_cash td = Some true) then ["Cash transaction"] else [].

Definition spec_corporate_flag : list string :=
  if decide (td_customer_type td = Some "corporate")
  then (if Qlt_le_dec spec_amount 1000
        then ["Unusual small corporate transaction"] else [])
  else [].
End SpecRules.

(** A character of a query reads as the character [k] of a keyword when it
    is [k] itself or, for a small letter [k], the capital of [k]. *)
Definition reads_as (c k : ascii) : Prop :=
  c = k \/
  ((97 <= N_of_ascii k)%N /\ (N_of_ascii k <= 122)%N /\
   (N_of_ascii c + 32)%N = N_of_ascii k).

(** A text spells a keyword, letter case ignored. *)
Fixpoint spells (text keyword : string) : Prop :=
  match text, keyword with
  | EmptyString, EmptyString => True
  | String c text', String k keyword' => reads_as c k /\ spells text' keyword'
  | _, _ => False
  end.

(** A keyword occurs in a query, letter case ignored. *)
Definition occurs_ignoring_case (keyword query : string) : Prop :=
  exists pre mid post, query = pre +:+ mid +:+ post /\ spells mid keyword.

(** The keywords of a tier that a query matches. *)
Definition spec_matched (tier : list string) (query : string) : list string :=
  List.filter (fun k => Py.contains k (Py.lower query)) tier.

Definition spec_query_score (query : string) : Z :=
  Z.min (15 * Z.of_nat (length (spec_matched HIGH_RISK_KEYWORDS query))
         + 8 * Z.of_nat (length (spec_matched MEDIUM_RISK_KEYWORDS query)))
        100.

(** The keywords of a tier among the keywords found. *)
Definition found_in (tier found : list string) : list string :=
  List.filter (fun k => Py.in_list k tier) found.

(** Small letters and the space: the characters of the keyword lists. *)
Definition small_or_space (k : ascii) : bool :=
  let n := N_of_ascii k in
  ((97 <=? n) && (n <=? 122) || (n =? 32))%N.

Fixpoint all_small (s : string) : bool :=
  match s with
  | EmptyString => true
  | String k s' => small_or_space k && all_small s'
  end.

(** The two inputs of the specification's scenarios. *)
Definition example_transaction : transaction_data :=
  {| td_amount := Some (55000 : Q);
     td_currency := None;
     td_country := Some "Iran";
     td_count_24h := Some 15;
     td_customer_type := Some "individual";
     td_is_cash := Some true |}.

Definition example_query : string :=
  "What are the requirements for terrorist financing detection?".

(** A query in capitals, and one that repeats a keyword. *)
Definition example_upper_case_query : string :=
  "SANCTION lists, TERRORIST financing and FRAUD".

Definition example_repeated_query : string :=
  "Fraud, fraud and more FRAUD".
End RiskScoring.

(** ** audit_logger.py *)

Module AuditLogger.

(** The values that [json] reads and writes. *)
#[local] Unset Elimination Schemes.
Inductive json :=
| JNull
| JBool (b : bool)
| JInt (n : Z)
| JFloat (x : Q)
| JStr (s : string)
| JList (l : list json)
| JDict (d : list (string * json)).
#[local] Set Elimination Schemes.

Definition dict : Type := list (string * json).

(** [d.get(key)] on a dictionary. *)
Fixpoint dict_get (d : dict) (key : string) : option json :=
  match d with
  | [] => None
  | (k, v) :: d' => if String.eqb k key then Some v else dict_get d' key
  end.

(** [entry.get(key)] on any value: only dictionaries have [get]. *)
Definition get (entry : json) (key : string) : Py.result (option json) :=
  match entry with
  | JDict d => Py.Ok (dict_get d key)
  | _ => Py.Raise Py.AttributeError
  end.

(** [v == u] for the result [v] of a [get] and a string [u]. *)
Definition eq_str (v : option json) (u : string) : bool :=
  match v with
  | Some (JStr s) => String.eqb s u
  | _ => false
  end.

(** [x or {}] for an optional dictionary. *)
Definition or_empty (metadata : option dict) : json :=
  JDict (default [] metadata).

Definition opt_str (o : option string) : json :=
  match o with
  | Some s => JStr s
  | None => JNull
  end.

(** [os.path.join(a, b)] on POSIX. *)
Definition path_join (a b : string) : string :=
  if Py.startswith "/" b then b
  else if String.eqb a "" || Py.startswith "/" (String.rev a) then a +:+ b
  else a +:+ "/" +:+ b.

(** The files of the running system: path to content. *)
Abbreviation file_system := (gmap string string).

(** The attributes set by [__init__]. *)
Record logger := {
  log_dir : string;
  query_log_file : string;
  access_log_file : string;
  alert_log_file : string;
  document_log_file : string
}.

Definition init (log_dir : string) : logger :=
  {| log_dir := log_dir;
     query_log_file := path_join log_dir "query_log.jsonl";
     access_log_file := path_join log_dir "access_log.jsonl";
     alert_log_file := path_join log_dir "alert_log.jsonl";
     document_log_file := path_join log_dir "document_log.jsonl" |}.

(** [_generate_id] applied to string arguments, at clock reading [now]. *)
Definition _generate_id (now : Py.datetime) (args : list string) : string :=
  let content := String.concat "" args +:+ Py.str_of_datetime now in
  Py.take_str 12 (MD5.hexdigest (Py.encode content)).

(** The text that [_generate_id] hashes. *)
Definition hashed_content (now : Py.datetime) (args : list string) : string :=
  String.concat "" args +:+ Py.str_of_datetime now.

(** The characters of [hexdigest]. *)
Definition is_hex_char (c : ascii) : bool :=
  let n := N_of_ascii c in
  ((48 <=? n) && (n <=? 57) || (97 <=? n) && (n <=? 102))%N.

Fixpoint all_hex (s : string) : bool :=
  match s with
  | EmptyString => true
  | String c s' => is_hex_char c && all_hex s'
  end.

Section Json.
(** [json.dumps], [json.loads] (where [None] stands for
    [JSONDecodeError]) and [json.dumps(_, indent=2)]. *)
Variable dumps : json -> string.
Variable loads : string -> option json.
Variable dumps_indent : json -> string.

(** Opening in mode ['a'] creates a missing file. *)
Definition _write_log (fs : file_system) (log_file : string) (entry : json)
    : file_system :=
  <[log_file := default "" (fs !! log_file) +:+ dumps entry +:+ Py.newline]> fs.

(** The body of the reading loop for one line. *)
Definition read_line (user_id : option string)
    (acc : Py.result (list json)) (line : string) : Py.result (list json) :=
  Py.bind acc (fun entries =>
    match loads (Py.strip line) with
    | Some entry =>
        match user_id with
        | None => Py.Ok (entries ++ [entry])
        | Some u =>
            Py.bind (get entry "user_id") (fun v =>
              if eq_str v u
              then Py.Ok (entries ++ [entry])
              else Py.Ok entries)
        end
    | None => Py.Ok entries
    end).

Definition _read_log (fs : file_system) (log_file : string)
    (user_id : option string) (limit : Z) : Py.result (list json) :=
  match fs !! log_file with
  | None => Py.Ok []
  | Some content =>
      Py.bind
        (fold_left (read_line user_id) (Py.readlines content) (Py.Ok []))
        (fun entries => Py.Ok (Py.slice_from (- limit) entries))
  end.

Definition _count_lines (fs : file_system) (log_file : string) : Z :=
  match fs !! log_file with
  | None => 0
  | Some content => Z.of_nat (length (Py.readlines content))
  end.

(** The [log_entry] dictionary of [log_query]. *)
Definition query_log_entry (query_id : string) (now : Py.datetime)
    (user_id query answer : string) (sources : list dict) (confidence : Q)
    (risk_score : Z) (metadata : option dict) : json :=
  JDict
    [("query_id", JStr query_id);
     ("timestamp", JStr (Py.isoformat now));
     ("user_id", JStr user_id);
     ("query", JStr query);
     ("answer_preview",
       JStr (if (200 <? String.length answer)%nat
             then Py.take_str 200 answer +:+ "..." else answer));
     ("answer_length", JInt (Z.of_nat (String.length answer)));
     ("sources_used",
       JList (map (fun s => default (JStr "Unknown") (dict_get s "filename"))
                  sources));
     ("source_count", JInt (Z.of_nat (length sources)));
     ("confidence_score", JFloat confidence);
     ("risk_score", JInt risk_score);
     ("metadata", or_empty metadata)].

(** [log_query]: the clock is read for the identifier ([now_id]) and then
    for the timestamp ([now_ts]). *)
Definition log_query (self : logger) (fs : file_system)
    (now_id now_ts : Py.datetime)
    (user_id query answer : string) (sources : list dict) (confidence : Q)
    (risk_score : Z) (metadata : option dict) : file_system * string :=
  let query_id := _generate_id now_id [query; user_id] in
  let log_entry :=
    query_log_entry query_id now_ts user_id query answer sources confidence
      risk_score metadata in
  (_write_log fs (query_log_file self) log_entry, query_id).

Definition log_access (self : logger) (fs : file_system) (now : Py.datetime)
    (user_id action resource status : string) (metadata : option dict)
    : file_system :=
  let log_entry :=
    JDict [("timestamp", JStr (Py.isoformat now));
           ("user_id", JStr user_id);
           ("action", JStr action);
           ("resource", JStr resource);
           ("status", JStr status);
           ("metadata", or_empty metadata)] in
  _write_log fs (access_log_file self) log_entry.

Definition log_alert (self : logger) (fs : file_system)
    (now_id now_ts : Py.datetime)
    (alert_type severity message : string) (query_id user_id : option string)
    (metadata : option dict) : file_system * string :=
  let alert_id := _generate_id now_id [message; alert_type] in
  let log_entry :=
    JDict [("alert_id", JStr alert_id);
           ("timestamp", JStr (Py.isoformat now_ts));
           ("alert_type", JStr alert_type);
           ("severity", JStr severity);
           ("message", JStr message);
           ("query_id", opt_str query_id);
           ("user_id", opt_str user_id);
           ("metadata", or_empty metadata)] in
  (_write_log fs (alert_log_file self) log_entry, alert_id).

Definition log_document_upload (self : logger) (fs : file_system)
    (now : Py.datetime) (user_id filename : string) (file_size : Z)
    (file_type : string) (chunks_created : Z) (status : string)
    : file_system :=
  let log_entry :=
    JDict [("timestamp", JStr (Py.isoformat now));
           ("user_id", JStr user_id);
           ("filename", JStr filename);
           ("file_size", JInt file_size);
           ("file_type", JStr file_type);
           ("chunks_created", JInt chunks_created);
           ("status", JStr status)] in
  _write_log fs (document_log_file self) log_entry.

Definition get_query_history (self : logger) (fs : file_system)
    (user_id : option string) (limit : Z) : Py.result (list json) :=
  _read_log fs (query_log_file self) user_id limit.

(** [[a for a in alerts if a.get(key) == value]]. *)
Fixpoint filter_eq (key value : string) (entries : list json)
    : Py.result (list json) :=
  match entries with
  | [] => Py.Ok []
  | a :: entries' =>
      Py.bind (get a key) (fun v =>
      Py.bind (filter_eq key value entries') (fun rest =>
        Py.Ok (if eq_str v value then a :: rest else rest)))
  end.

Definition get_alerts (self : logger) (fs : file_system)
    (severity : option string) (limit : Z) : Py.result (list json) :=
  Py.bind (_read_log fs (alert_log_file self) None limit) (fun alerts =>
    match severity with
    | Some s => if String.eqb s "" then Py.Ok alerts
                else filter_eq "severity" s alerts
    | None => Py.Ok alerts
    end).

(** The dictionary returned by [get_statistics]. *)
Record statistics := {
  total_queries : Z;
  total_access_logs : Z;
  total_alerts : Z;
  total_documents_processed : Z;
  recent_high_severity_alerts : Z;
  last_updated : string
}.

Definition get_statistics (self : logger) (fs : file_system)
    (now : Py.datetime) : Py.result statistics :=
  let query_count := _count_lines fs (query_log_file self) in
  let access_count := _count_lines fs (access_log_file self) in
  let alert_count := _count_lines fs (alert_log_file self) in
  let document_count := _count_lines fs (document_log_file self) in
  Py.bind (get_alerts self fs None 10) (fun recent_alerts =>
  Py.bind (filter_eq "severity" "HIGH" recent_alerts)
    (fun high_severity_alerts =>
      Py.Ok {| total_queries := query_count;
               total_access_logs := access_count;
               total_alerts := alert_count;
               total_documents_processed := document_count;
               recent_high_severity_alerts :=
                 Z.of_nat (length high_severity_alerts);
               last_updated := Py.isoformat now |})).

(** The four partitions. *)
Inductive kind := Query | Access | Alert | Document.

#[export] Instance kind_eq_dec : EqDecision kind.
Proof. solve_decision. Defined.

Definition partition (self : logger) (k : kind) : string :=
  match k with
  | Query => query_log_file self
  | Access => access_log_file self
  | Alert => alert_log_file self
  | Document => document_log_file self
  end.

(** The document built by [export_audit_trail]; [_read_log] is called
    with its default arguments [user_id=None] and [limit=100]. *)
Definition export_data (self : logger) (fs : file_system)
    (now : Py.datetime) (start_date end_date : option string)
    : Py.result json :=
  Py.bind (_read_log fs (query_log_file self) None 100) (fun queries =>
  Py.bind (_read_log fs (access_log_file self) None 100) (fun access_logs =>
  Py.bind (_read_log fs (alert_log_file self) None 100) (fun alerts =>
  Py.bind (_read_log fs (document_log_file self) None 100) (fun documents =>
    Py.Ok (JDict
      [("export_timestamp", JStr (Py.isoformat now));
       ("date_range",
         JDict [("start", opt_str start_date); ("end", opt_str end_date)]);
       ("queries", JList queries);
       ("access_logs", JList access_logs);
       ("alerts", JList alerts);
       ("documents", JList documents)]))))).

(** [export_audit_trail]: the clock is read for the default file name
    ([now_name]) and then for the export timestamp ([now_ts]); mode ['w']
    replaces the output file. *)
Definition export_audit_trail (self : logger) (fs : file_system)
    (now_name now_ts : Py.datetime)
    (start_date end_date output_file : option string)
    : Py.result (file_system * string) :=
  let output_file :=
    match output_file with
    | Some f => if String.eqb f "" then None else Some f
    | None => None
    end in
  let output_file :=
    match output_file with
    | Some f => f
    | None =>
        path_join (log_dir self)
          ("audit_export_" +:+ Py.strftime_compact now_name +:+ ".json")
    end in
  Py.bind (export_data self fs now_ts start_date end_date) (fun data =>
    Py.Ok (<[output_file := dumps_indent data]> fs, output_file)).

(** *** Vocabulary of the round-trip property *)

(** A record that [json] writes on one line and reads back. *)
Definition well_formed (entry : json) : Prop :=
  loads (dumps entry) = Some entry /\
  Py.strip (dumps entry) = dumps entry /\
  Py.no_linebreak (dumps entry) = true.

(** A line of text that is not JSON. *)
Definition malformed (line : string) : Prop :=
  Py.no_linebreak line = true /\ loads (Py.strip line) = None.

(** What gets appended to a partition: a record, through [_write_log],
    or a line of text put there by other means. *)
Inductive item :=
| Written (entry : json)
| Injected (line : string).

Definition valid_item (it : item) : Prop :=
  match it with
  | Written entry => well_formed entry
  | Injected line => malformed line
  end.

Definition append_item (self : logger) (fs : file_system)
    (op : kind * item) : file_system :=
  let log_file := partition self op.1 in
  match op.2 with
  | Written entry => _write_log fs log_file entry
  | Injected line =>
      <[log_file := default "" (fs !! log_file) +:+ line +:+ Py.newline]> fs
  end.

(** The items appended to partition [k], in the order of the appends. *)
Definition items_of (k : kind) (ops : list (kind * item)) : list item :=
  map snd (List.filter (fun op => bool_decide (op.1 = k)) ops).

(** The records among some items. *)
Fixpoint records (its : list item) : list json :=
  match its with
  | [] => []
  | Written entry :: its' => entry :: records its'
  | Injected _ :: its' => records its'
  end.

(** The records written to partition [k], in the order of the writes. *)
Definition written_to (k : kind) (ops : list (kind * item)) : list json :=
  records (items_of k ops).

(** Writing records to the query partition, as a sequence of appends. *)
Definition query_writes (entries : list json) : list (kind * item) :=
  map (fun e => (Query, Written e)) entries.

(** The text that some items add to a file. *)
Fixpoint text_of (its : list item) : string :=
  match its with
  | [] => ""
  | Written entry :: its' => dumps entry +:+ Py.newline +:+ text_of its'
  | Injected line :: its' => line +:+ Py.newline +:+ text_of its'
  end.

End Json.

(** *** Vocabulary of the filtered reads *)

(** A record that is a JSON object, and one whose entry [key] is the
    string [value]. *)
Definition is_object (entry : json) : bool :=
  match entry with JDict _ => true | _ => false end.

Definition field_is (key value : string) (entry : json) : bool :=
  match entry with
  | JDict d => eq_str (dict_get d key) value
  | _ => false
  end.

(** *** A fragment of the [json] codec

    Objects with the single key [user_id] and a plain string value, as the
    compact one-line text that [json.dumps] gives them, and the empty
    object. *)
Module MiniJson.

Definition quote : string := String "034"%char EmptyString.

Definition prefix : string := "{" +:+ quote +:+ "user_id" +:+ quote +:+ ": " +:+ quote.
Definition suffix : string := quote +:+ "}".

(** Characters that a JSON string holds unescaped. *)
Definition plain_char (c : ascii) : bool :=
  let n := N_of_ascii c in
  ((32 <=? n) && (n <? 127) && negb (n =? 34) && negb (n =? 92))%N.

Fixpoint plain (s : string) : bool :=
  match s with
  | EmptyString => true
  | String c s' => plain_char c && plain s'
  end.

Definition dumps (entry : json) : string :=
  match entry with
  | JDict [(k, JStr v)] =>
      if String.eqb k "user_id" && plain v then prefix +:+ v +:+ suffix
      else "null"
  | JDict [] => "{}"
  | _ => "null"
  end.

Fixpoint drop_str (n : nat) (s : string) : string :=
  match n, s with
  | S n', String _ s' => drop_str n' s'
  | _, _ => s
  end.

Definition loads (text : string) : option json :=
  if String.eqb text "{}" then Some (JDict [])
  else if String.eqb text "null" then Some JNull
  else if Py.startswith prefix text then
    let rest := drop_str (String.length prefix) text in
    let n := (String.length rest - String.length suffix)%nat in
    let v := Py.take_str n rest in
    if String.eqb (drop_str n rest) suffix && plain v
    then Some (JDict [("user_id", JStr v)]) else None
  else None.

Definition record_of (user_id : string) : json :=
  JDict [("user_id", JStr user_id)].

End MiniJson.

(** *** A second fragment of the [json] codec

    Objects with the single key [severity] and a plain string value, and
    [null]. *)
Module SeverityJson.

Definition prefix : string :=
  "{" +:+ MiniJson.quote +:+ "severity" +:+ MiniJson.quote +:+ ": "
  +:+ MiniJson.quote.

Definition dumps (entry : json) : string :=
  match entry with
  | JDict [(k, JStr v)] =>
      if String.eqb k "severity" && MiniJson.plain v
      then prefix +:+ v +:+ MiniJson.suffix
      else "null"
  | _ => "null"
  end.

Definition loads (text : string) : option json :=
  if String.eqb text "null" then Some JNull
  else if Py.startswith prefix text then
    let rest := MiniJson.drop_str (String.length prefix) text in
    let n := (String.length rest - String.length MiniJson.suffix)%nat in
    let v := Py.take_str n rest in
    if String.eqb (MiniJson.drop_str n rest) MiniJson.suffix && MiniJson.plain v
    then Some (JDict [("severity", JStr v)]) else None
  else None.

Definition alert_of (severity : string) : json :=
  JDict [("severity", JStr severity)].

End SeverityJson.

(** *** The text of a record

    [json.dumps] with its default separators, on values whose strings hold
    plain characters and whose floats are a whole number of tenths. *)
Module RecordJson.

Definition quoted (s : string) : string :=
  MiniJson.quote +:+ s +:+ MiniJson.quote.

(** A float that is a whole number of tenths, as [repr] writes it. *)
Definition tenths (x : Q) : string :=
  let t := Py.round_half_even (x * 10) in
  (if t <? 0 then "-" else "") +:+ Py.str_of_int (Z.abs t / 10) +:+ "."
  +:+ String (Py.digit (Z.abs t mod 10)) EmptyString.

Fixpoint dumps (v : json) : string :=
  match v with
  | JNull => "null"
  | JBool b => if b then "true" else "false"
  | JInt n => Py.str_of_int n
  | JFloat x => tenths x
  | JStr s => quoted s
  | JList l => "[" +:+ Py.join ", " (map dumps l) +:+ "]"
  | JDict d =>
      "{" +:+ Py.join ", " (map (fun kv => quoted kv.1 +:+ ": " +:+ dumps kv.2) d)
      +:+ "}"
  end.

(** One member of an object. *)
Definition member (key text : string) : string := quoted key +:+ ": " +:+ text.

End RecordJson.

End AuditLogger.

(** ** compliance_dashboard.py *)

Module ComplianceDashboard.
Import AuditLogger.

(** What the dashboard asks of its [audit_logger]: the results of
    [get_statistics()] and of [get_query_history(limit=...)]. *)
Record audit_api := {
  api_get_statistics : Py.result statistics;
  api_get_query_history : Z -> Py.result (list json)
}.

(** The audit logger of [audit_logger.py] behind that interface. *)
Definition logger_api (loads : string -> option json) (self : logger)
    (fs : gmap string string) (now : Py.datetime) : audit_api :=
  {| api_get_statistics := get_statistics loads self fs now;
     api_get_query_history := get_query_history loads self fs None |}.

(** The attributes of the dashboard: the result of [collection.get()], as
    the [source] entry of each metadata (absent for a metadata without it),
    or the exception it raises; and the optional audit logger. *)
Record dashboard := {
  collection_get : Py.result (list (option string));
  audit_logger : option audit_api
}.

(** A dictionary from names to counts, in insertion order. *)
Definition counts : Type := list (string * Z).

(** [d[key] += n], for a key that is inserted when missing. *)
Fixpoint add_count (key : string) (n : Z) (d : counts) : counts :=
  match d with
  | [] => [(key, n)]
  | (k, c) :: d' =>
      if String.eqb k key then (k, c + n) :: d' else (k, c) :: add_count key n d'
  end.

Definition values (d : counts) : list Z := map snd d.
Definition keys (d : counts) : list string := map fst d.

Definition sum_Z (l : list Z) : Z := fold_left Z.add l 0.

(** The dictionary returned by [get_document_coverage]; the entries that
    only some of its three return statements set are optional. *)
Record coverage_report := {
  cov_error : option Py.exn;
  total_documents : Z;
  total_chunks : option Z;
  coverage_by_regulation : counts;
  coverage_percentage : option counts;
  document_list : option (list string);
  cov_last_updated : string
}.

(** The category of a source file name. *)
Definition regulation_of (source : string) : string :=
  let source_lower := Py.lower source in
  if Py.contains "rbi" source_lower then "RBI"
  else if Py.contains "sebi" source_lower then "SEBI"
  else if Py.contains "fatf" source_lower then "FATF"
  else if Py.contains "gdpr" source_lower then "GDPR"
  else "Other".

Definition get_document_coverage (self : dashboard) (now : Py.datetime)
    : coverage_report :=
  match collection_get self with
  | Py.Raise e =>
      {| cov_error := Some e; total_documents := 0; total_chunks := None;
         coverage_by_regulation := []; coverage_percentage := None;
         document_list := None; cov_last_updated := Py.isoformat now |}
  | Py.Ok [] =>
      {| cov_error := None; total_documents := 0; total_chunks := None;
         coverage_by_regulation := []; coverage_percentage := None;
         document_list := None; cov_last_updated := Py.isoformat now |}
  | Py.Ok metadatas =>
      (* Count documents by source *)
      let sources : counts :=
        fold_left (fun sources metadata =>
                     add_count (default "Unknown" metadata) 1 sources)
          metadatas [] in
      (* Categorize by regulation *)
      let coverage : counts :=
        [("RBI", 0); ("SEBI", 0); ("FATF", 0); ("GDPR", 0); ("Other", 0)] in
      let coverage :=
        fold_left (fun coverage '(source, count) =>
                     add_count (regulation_of source) count coverage)
          sources coverage in
      let total_chunks := sum_Z (values coverage) in
      (* Calculate percentages *)
      let coverage_percent : counts :=
        map (fun '(reg, count) =>
               (reg, if 0 <? count then Z.min count 100 else 0))
          coverage in
      {| cov_error := None;
         total_documents := Z.of_nat (length sources);
         total_chunks := Some total_chunks;
         coverage_by_regulation := coverage;
         coverage_percentage := Some coverage_percent;
         document_list := Some (keys sources);
         cov_last_updated := Py.isoformat now |}
  end.

(** A value used as a number by [sum]. *)
Definition number (v : json) : Py.result Q :=
  match v with
  | JInt n => Py.Ok (inject_Z n)
  | JFloat x => Py.Ok x
  | JBool b => Py.Ok (if b then 1 else 0)%Q
  | _ => Py.Raise Py.TypeError
  end.

(** [[q.get(key, 0) for q in queries]]. *)
Fixpoint get_all (key : string) (queries : list json)
    : Py.result (list json) :=
  match queries with
  | [] => Py.Ok []
  | q :: queries' =>
      Py.bind (get q key) (fun v =>
      Py.bind (get_all key queries') (fun rest =>
        Py.Ok (default (JInt 0) v :: rest)))
  end.

(** [sum(l)] for a list of values, and the values as numbers. *)
Fixpoint numbers (l : list json) : Py.result (list Q) :=
  match l with
  | [] => Py.Ok []
  | v :: l' =>
      Py.bind (number v) (fun x =>
      Py.bind (numbers l') (fun rest => Py.Ok (x :: rest)))
  end.

Definition sum_Q (l : list Q) : Q := fold_left Qplus l 0%Q.

(** The dictionary returned by [get_query_statistics]: the error entry, the
    statistics of the audit logger, and the entries that [stats.update]
    adds when there are recent queries.  The averages are floats. *)
Record query_statistics := {
  qs_error : option string;
  qs_statistics : option statistics;
  avg_confidence_score : option Q;
  avg_risk_score : option Q;
  high_risk_queries : option Z;
  recent_query_count : option Z
}.

(** [get_query_statistics], the floats in exact arithmetic;
    [Binary64.get_query_statistics] below rounds them as the doubles do. *)
Definition get_query_statistics (self : dashboard)
    : Py.result query_statistics :=
  match audit_logger self with
  | None =>
      Py.Ok {| qs_error := Some "Audit logger not configured";
               qs_statistics := None; avg_confidence_score := None;
               avg_risk_score := None; high_risk_queries := None;
               recent_query_count := None |}
  | Some audit_logger =>
      Py.bind (api_get_statistics audit_logger) (fun stats =>
      (* Get recent queries for analysis *)
      Py.bind (api_get_query_history audit_logger 100) (fun recent_queries =>
        match recent_queries with
        | [] =>
            Py.Ok {| qs_error := None; qs_statistics := Some stats;
                     avg_confidence_score := None; avg_risk_score := None;
                     high_risk_queries := None; recent_query_count := None |}
        | _ :: _ =>
            let n := inject_Z (Z.of_nat (length recent_queries)) in
            (* Calculate average confidence *)
            Py.bind (get_all "confidence_score" recent_queries)
              (fun confidences =>
            Py.bind (numbers confidences) (fun confidences =>
            let avg_confidence := (sum_Q confidences / n)%Q in
            (* Calculate average risk *)
            Py.bind (get_all "risk_score" recent_queries) (fun risks =>
            Py.bind (numbers risks) (fun risks =>
            let avg_risk := (sum_Q risks / n)%Q in
            (* Count high-risk queries *)
            let high_risk_count :=
              Z.of_nat (length (List.filter (fun r => Py.Qgeb r 70) risks)) in
            Py.Ok {| qs_error := None; qs_statistics := Some stats;
                     avg_confidence_score := Some (Py.round avg_confidence 2);
                     avg_risk_score := Some (Py.round avg_risk 2);
                     high_risk_queries := Some high_risk_count;
                     recent_query_count :=
                       Some (Z.of_nat (length recent_queries)) |}))))
        end))
  end.

(** The dictionary returned by [get_compliance_score], its [components]
    entry flattened. *)
Record compliance_score := {
  overall_score : Q;
  status : string;
  status_color : string;
  document_coverage : Q;
  query_confidence : Q;
  risk_management : Q;
  timestamp : string
}.

(** [l[i] if len(l) > i else 0]. *)
Definition component (score_components : list Q) (i : nat) : Q :=
  nth i score_components 0%Q.

(** The body of [get_compliance_score] from its third statement on, for
    the two reports that the first two statements obtain; the floats in
    exact arithmetic, [Binary64.score_reports] below in double precision. *)
Definition score_reports (coverage : coverage_report)
    (query_stats : query_statistics) (now : Py.datetime) : compliance_score :=
  let score_components : list Q := [] in
  (* Document coverage (40% weight) *)
  let score_components :=
    match coverage_percentage coverage with
    | Some ((_ :: _) as percentages) =>
        let avg_coverage :=
          (inject_Z (sum_Z (values percentages))
           / inject_Z (Z.of_nat (length percentages)))%Q in
        score_components ++ [(avg_coverage * 0.4)%Q]
    | _ => score_components
    end in
  (* Query confidence (30% weight) *)
  let score_components :=
    match avg_confidence_score query_stats with
    | Some avg_confidence_score =>
        score_components ++ [(avg_confidence_score * 100 * 0.3)%Q]
    | None => score_components
    end in
  (* Low risk queries (30% weight) *)
  let score_components :=
    match avg_risk_score query_stats with
    | Some avg_risk_score =>
        let risk_compliance := ((100 - avg_risk_score) * 0.3)%Q in
        score_components ++ [risk_compliance]
    | None => score_components
    end in
  let overall_score := sum_Q score_components in
  (* Determine status *)
  let status_color : string * string :=
    if Py.Qgeb overall_score 80 then ("EXCELLENT", "green")
    else if Py.Qgeb overall_score 60 then ("GOOD", "yellow")
    else if Py.Qgeb overall_score 40 then ("FAIR", "orange")
    else ("NEEDS IMPROVEMENT", "red") in
  {| overall_score := Py.round overall_score 1;
     status := status_color.1;
     status_color := status_color.2;
     document_coverage := Py.round (component score_components 0) 1;
     query_confidence := Py.round (component score_components 1) 1;
     risk_management := Py.round (component score_components 2) 1;
     timestamp := Py.isoformat now |}.

(** [get_compliance_score]: the clock is read by [get_document_coverage]
    ([now_coverage]) and for the timestamp ([now]). *)
Definition get_compliance_score (self : dashboard)
    (now_coverage now : Py.datetime) : Py.result compliance_score :=
  let coverage := get_document_coverage self now_coverage in
  Py.bind (get_query_statistics self) (fun query_stats =>
    Py.Ok (score_reports coverage query_stats now)).

(** *** The score as the specification words it *)

(** The average coverage percentage across the categories, when there are
    coverage percentages. *)
Definition spec_coverage_average (coverage : coverage_report) : option Q :=
  match coverage_percentage coverage with
  | Some ((_ :: _) as percentages) =>
      Some (inject_Z (sum_Z (values percentages))
            / inject_Z (Z.of_nat (length percentages)))%Q
  | _ => None
  end.

(** A weighted component, zero when its input is unavailable. *)
Definition spec_weighted (weight : Q) (input : option Q) : Q :=
  match input with
  | Some x => (weight * x)%Q
  | None => 0%Q
  end.

(** 0.4 x coverage average + 0.3 x (confidence average x 100)
    + 0.3 x (100 - risk average), unavailable components omitted. *)
Definition spec_overall (coverage : coverage_report)
    (query_stats : query_statistics) : Q :=
  (spec_weighted 0.4 (spec_coverage_average coverage)
   + spec_weighted 0.3
       (option_map (fun c => c * 100) (avg_confidence_score query_stats))
   + spec_weighted 0.3
       (option_map (fun r => 100 - r) (avg_risk_score query_stats)))%Q.

(** *** Inputs of the scenarios *)

Definition clock0 : Py.datetime :=
  {| Py.year := 2024; Py.month := 1; Py.day := 1; Py.hour := 12;
     Py.minute := 0; Py.second := 0; Py.microsecond := 0 |}.

(** A query record with the two entries that the dashboard reads. *)
Definition scored_query (confidence : Q) (risk : Z) : json :=
  JDict [("confidence_score", JFloat confidence); ("risk_score", JInt risk)].

(** An audit logger whose history holds the given queries. *)
Definition history_api (queries : list json) : audit_api :=
  {| api_get_statistics :=
       Py.Ok {| total_queries := Z.of_nat (length queries);
                total_access_logs := 0; total_alerts := 0;
                total_documents_processed := 0;
                recent_high_severity_alerts := 0;
                last_updated := Py.isoformat clock0 |};
     api_get_query_history := fun limit =>
       Py.Ok (Py.slice_from (- limit) queries) |}.

(** A collection with [n] chunks of each of five documents, one per
    category. *)
Definition five_documents (n : nat) : list (option string) :=
  replicate n (Some "rbi_kyc_master.pdf") ++ replicate n (Some "sebi_circular.pdf")
  ++ replicate n (Some "fatf_recommendations.pdf")
  ++ replicate n (Some "gdpr_text.pdf") ++ replicate n (Some "handbook.pdf").

(** *** Vocabulary of the coverage and statistics properties *)

(** [d[key]] for a present key, 0 for a missing one. *)
Fixpoint count_of (key : string) (d : counts) : Z :=
  match d with
  | [] => 0
  | (k, c) :: d' => if String.eqb k key then c else count_of key d'
  end.

(** The source name under which a chunk is counted. *)
Definition source_of (metadata : option string) : string :=
  default "Unknown" metadata.

(** The counts of the sources that satisfy [P], added up. *)
Fixpoint weight (P : string -> bool) (d : counts) : Z :=
  match d with
  | [] => 0
  | (k, c) :: d' => (if P k then c else 0) + weight P d'
  end.

Definition regulations : list string := ["RBI"; "SEBI"; "FATF"; "GDPR"; "Other"].

(** [q.get(key, 0)] on a record that is an object. *)
Definition value_of (key : string) (q : json) : json :=
  match q with
  | JDict d => default (JInt 0) (dict_get d key)
  | _ => JInt 0
  end.

(** A query record whose confidence lies in [0,1] and whose risk score
    lies in [0,100]. *)
Definition scored_in_range (q : json) : Prop :=
  exists c k : Q,
    is_object q = true /\
    number (value_of "confidence_score" q) = Py.Ok c /\
    (0 <= c)%Q /\ (c <= 1)%Q /\
    number (value_of "risk_score" q) = Py.Ok k /\
    (0 <= k)%Q /\ (k <= 100)%Q.

(** *** The status bands and the rounding tolerance *)



(** *** The score in double precision

    [get_query_statistics] and [get_compliance_score] once more, every
    operation on floats rounded to the nearest double, for either way in
    which [sum] adds floats. *)
Module Binary64.

(** A value used as a number by [sum]; a JSON number with a fraction is
    the double nearest to it. *)
Definition number (v : json) : Py.result Py.numeric :=
  match v with
  | JInt n => Py.Ok (Py.Int n)
  | JFloat x => Py.Ok (Py.Float (Py.fl x))
  | JBool b => Py.Ok (Py.Int (if b then 1 else 0))
  | _ => Py.Raise Py.TypeError
  end.

Fixpoint numbers (l : list json) : Py.result (list Py.numeric) :=
  match l with
  | [] => Py.Ok []
  | v :: l' =>
      Py.bind (number v) (fun x =>
      Py.bind (numbers l') (fun rest => Py.Ok (x :: rest)))
  end.

Definition get_query_statistics (how : Py.summation) (self : dashboard)
    : Py.result query_statistics :=
  match audit_logger self with
  | None =>
      Py.Ok {| qs_error := Some "Audit logger not configured";
               qs_statistics := None; avg_confidence_score := None;
               avg_risk_score := None; high_risk_queries := None;
               recent_query_count := None |}
  | Some audit_logger =>
      Py.bind (api_get_statistics audit_logger) (fun stats =>
      (* Get recent queries for analysis *)
      Py.bind (api_get_query_history audit_logger 100) (fun recent_queries =>
        match recent_queries with
        | [] =>
            Py.Ok {| qs_error := None; qs_statistics := Some stats;
                     avg_confidence_score := None; avg_risk_score := None;
                     high_risk_queries := None; recent_query_count := None |}
        | _ :: _ =>
            let n := Z.of_nat (length recent_queries) in
            (* Calculate average confidence *)
            Py.bind (get_all "confidence_score" recent_queries)
              (fun confidences =>
            Py.bind (numbers confidences) (fun confidences =>
            let avg_confidence := Py.truediv (Py.sum how confidences) n in
            (* Calculate average risk *)
            Py.bind (get_all "risk_score" recent_queries) (fun risks =>
            Py.bind (numbers risks) (fun risks =>
            let avg_risk := Py.truediv (Py.sum how risks) n in
            (* Count high-risk queries *)
            let high_risk_count :=
              Z.of_nat (length (List.filter
                                  (fun r => Py.Qgeb (Py.value r) 70) risks)) in
            Py.Ok {| qs_error := None; qs_statistics := Some stats;
                     avg_confidence_score :=
                       Some (Py.float_round avg_confidence 2);
                     avg_risk_score := Some (Py.float_round avg_risk 2);
                     high_risk_queries := Some high_risk_count;
                     recent_query_count :=
                       Some (Z.of_nat (length recent_queries)) |}))))
        end))
  end.

(** [round(l[i] if len(l) > i else 0, 1)]. *)
Definition component (score_components : list Q) (i : nat) : Q :=
  match nth_error score_components i with
  | Some x => Py.float_round x 1
  | None => 0
  end.

Definition score_reports (how : Py.summation) (coverage : coverage_report)
    (query_stats : query_statistics) (now : Py.datetime) : compliance_score :=
  let score_components : list Q := [] in
  (* Document coverage (40% weight) *)
  let score_components :=
    match coverage_percentage coverage with
    | Some ((_ :: _) as percentages) =>
        let avg_coverage :=
          Py.truediv (Py.Int (sum_Z (values percentages)))
            (Z.of_nat (length percentages)) in
        score_components ++ [Py.fl (avg_coverage * Py.fl 0.4)]
    | _ => score_components
    end in
  (* Query confidence (30% weight) *)
  let score_components :=
    match avg_confidence_score query_stats with
    | Some avg_confidence_score =>
        score_components
        ++ [Py.fl (Py.fl (avg_confidence_score * 100) * Py.fl 0.3)]
    | None => score_components
    end in
  (* Low risk queries (30% weight) *)
  let score_components :=
    match avg_risk_score query_stats with
    | Some avg_risk_score =>
        let risk_compliance :=
          Py.fl (Py.fl (100 - avg_risk_score) * Py.fl 0.3) in
        score_components ++ [risk_compliance]
    | None => score_components
    end in
  let overall_score := Py.sum how (map Py.Float score_components) in
  (* Determine status *)
  let status_color : string * string :=
    if Py.Qgeb (Py.value overall_score) 80 then ("EXCELLENT", "green")
    else if Py.Qgeb (Py.value overall_score) 60 then ("GOOD", "yellow")
    else if Py.Qgeb (Py.value overall_score) 40 then ("FAIR", "orange")
    else ("NEEDS IMPROVEMENT", "red") in
  {| overall_score := Py.round_numeric overall_score 1;
     status := status_color.1;
     status_color := status_color.2;
     document_coverage := component score_components 0;
     query_confidence := component score_components 1;
     risk_management := component score_components 2;
     timestamp := Py.isoformat now |}.

Definition get_compliance_score (how : Py.summation) (self : dashboard)
    (now_coverage now : Py.datetime) : Py.result compliance_score :=
  let coverage := get_document_coverage self now_coverage in
  Py.bind (get_query_statistics how self) (fun query_stats =>
    Py.Ok (score_reports how coverage query_stats now)).

End Binary64.

(** *** Inputs of the scenarios in double precision *)



End ComplianceDashboard.

(** ** performance_monitor.py *)

Module PerformanceMonitor.

(** The attributes of the monitor; a window is a [deque] with its
    [maxlen], oldest sample first. *)
Record monitor := {
  history_size : nat;
  query_times : list Q;
  embedding_times : list Q;
  search_times : list Q;
  llm_times : list Q;
  total_queries : Z;
  cache_hits : Z;
  cache_misses : Z;
  start_time : Py.datetime
}.

Definition init (history_size : nat) (now : Py.datetime) : monitor :=
  {| history_size := history_size;
     query_times := []; embedding_times := []; search_times := [];
     llm_times := [];
     total_queries := 0; cache_hits := 0; cache_misses := 0;
     start_time := now |}.

(** [d.append(x)] on a [deque(maxlen=maxlen)]. *)
Definition deque_append (maxlen : nat) (d : list Q) (x : Q) : list Q :=
  let d' := d ++ [x] in
  drop (length d' - maxlen) d'.

Definition record_query_time (self : monitor) (duration : Q) : monitor :=
  {| history_size := history_size self;
     query_times := deque_append (history_size self) (query_times self) duration;
     embedding_times := embedding_times self;
     search_times := search_times self;
     llm_times := llm_times self;
     total_queries := total_queries self + 1;
     cache_hits := cache_hits self;
     cache_misses := cache_misses self;
     start_time := start_time self |}.

Definition record_cache_hit (self : monitor) : monitor :=
  {| history_size := history_size self;
     query_times := query_times self;
     embedding_times := embedding_times self;
     search_times := search_times self;
     llm_times := llm_times self;
     total_queries := total_queries self;
     cache_hits := cache_hits self + 1;
     cache_misses := cache_misses self;
     start_time := start_time self |}.

Definition record_cache_miss (self : monitor) : monitor :=
  {| history_size := history_size self;
     query_times := query_times self;
     embedding_times := embedding_times self;
     search_times := search_times self;
     llm_times := llm_times self;
     total_queries := total_queries self;
     cache_hits := cache_hits self;
     cache_misses := cache_misses self + 1;
     start_time := start_time self |}.

(** [_percentile(data, percentile)]. *)
Definition _percentile (data : list Q) (percentile : Z) : Py.result Q :=
  match data with
  | [] => Py.Ok 0%Q
  | _ :: _ =>
      let sorted_data := Py.sorted data in
      let len := Z.of_nat (length sorted_data) in
      let index := Py.int_of_Q (inject_Z percentile / 100 * inject_Z len) in
      Py.getitem sorted_data (Z.min index (len - 1))
  end.

(** The index expression [int((percentile / 100) * n)] as binary64
    arithmetic evaluates it. *)
Definition float_index (percentile n : Z) : Z :=
  Py.int_of_float
    (PrimFloat.mul
       (PrimFloat.div (Py.float_of_int percentile) (Py.float_of_int 100))
       (Py.float_of_int n)).

Definition sum_Q (l : list Q) : Q := fold_left Qplus l 0%Q.

(** [statistics.mean] and [statistics.median] of a non-empty window. *)
Definition mean (data : list Q) : Q :=
  (sum_Q data / inject_Z (Z.of_nat (length data)))%Q.

Definition median (data : list Q) : Q :=
  let s := Py.sorted data in
  let n := length s in
  if Nat.even n
  then ((nth (n / 2 - 1) s 0 + nth (n / 2) s 0) / 2)%Q
  else nth (n / 2) s 0%Q.

(** [min] and [max] of a non-empty window. *)
Definition minimum (data : list Q) : Q :=
  match data with
  | [] => 0%Q
  | x :: data' => fold_left (fun m y => if Py.Qltb y m then y else m) data' x
  end.

Definition maximum (data : list Q) : Q :=
  match data with
  | [] => 0%Q
  | x :: data' => fold_left (fun m y => if Py.Qltb m y then y else m) data' x
  end.

(** The statistics block of the query times, and the one of the other
    three windows. *)
Record query_timing := {
  qt_avg : Q; qt_median : Q; qt_min : Q; qt_max : Q; p95 : Q; p99 : Q
}.

Record timing := { avg : Q; median_time : Q }.

Definition timing_of (data : list Q) : option timing :=
  match data with
  | [] => None
  | _ :: _ =>
      Some {| avg := Py.round (mean data) 3;
              median_time := Py.round (median data) 3 |}
  end.

(** The dictionary returned by [get_metrics] (without the formatted
    uptime). *)
Record metrics := {
  uptime_seconds : Q;
  m_total_queries : Z;
  queries_per_minute : Q;
  cache_hit_rate : Q;
  timestamp : string;
  query_time : option query_timing;
  embedding_time : option timing;
  search_time : option timing;
  llm_time : option timing
}.

(** [get_metrics], for the seconds [uptime] elapsed since [start_time] and
    the clock reading [now] of the timestamp. *)
Definition get_metrics (self : monitor) (uptime : Q) (now : Py.datetime)
    : Py.result metrics :=
  let queries_per_minute :=
    if Py.Qltb 0 uptime
    then Py.round (inject_Z (total_queries self) / uptime * 60) 2 else 0%Q in
  let cache_hit_rate :=
    if 0 <? cache_hits self + cache_misses self
    then Py.round (inject_Z (cache_hits self)
                   / inject_Z (cache_hits self + cache_misses self) * 100) 2
    else 0%Q in
  (* Query time statistics *)
  Py.bind
    (match query_times self with
     | [] => Py.Ok None
     | _ :: _ =>
         Py.bind (_percentile (query_times self) 95) (fun v95 =>
         Py.bind (_percentile (query_times self) 99) (fun v99 =>
           Py.Ok (Some
             {| qt_avg := Py.round (mean (query_times self)) 3;
                qt_median := Py.round (median (query_times self)) 3;
                qt_min := Py.round (minimum (query_times self)) 3;
                qt_max := Py.round (maximum (query_times self)) 3;
                p95 := Py.round v95 3;
                p99 := Py.round v99 3 |})))
     end)
    (fun query_time =>
       Py.Ok {| uptime_seconds := Py.round uptime 2;
                m_total_queries := total_queries self;
                queries_per_minute := queries_per_minute;
                cache_hit_rate := cache_hit_rate;
                timestamp := Py.isoformat now;
                query_time := query_time;
                embedding_time := timing_of (embedding_times self);
                search_time := timing_of (search_times self);
                llm_time := timing_of (llm_times self) |}).

(** *** The percentile as the specification words it *)

(** min(floor(percentile / 100 x count), count - 1). *)
Definition spec_rank (percentile count : Z) : Z :=
  Z.min (percentile * count / 100) (count - 1).

(** The window 1, 2, ..., 100 of the specification, recorded by a monitor
    of the default capacity. *)
Definition example_window : list Q := map inject_Z (Py.range 100 1).

Definition example_monitor : monitor :=
  fold_left record_query_time example_window
    (init 1000 {| Py.year := 2024; Py.month := 1; Py.day := 1;
                  Py.hour := 12; Py.minute := 0; Py.second := 0;
                  Py.microsecond := 0 |}).

(** *** The other recording methods, the uptime and the history of a monitor *)

(** The recorders of the other three windows: they leave the counters. *)
Definition record_embedding_time (self : monitor) (duration : Q) : monitor :=
  {| history_size := history_size self;
     query_times := query_times self;
     embedding_times :=
       deque_append (history_size self) (embedding_times self) duration;
     search_times := search_times self;
     llm_times := llm_times self;
     total_queries := total_queries self;
     cache_hits := cache_hits self;
     cache_misses := cache_misses self;
     start_time := start_time self |}.

Definition record_search_time (self : monitor) (duration : Q) : monitor :=
  {| history_size := history_size self;
     query_times := query_times self;
     embedding_times := embedding_times self;
     search_times :=
       deque_append (history_size self) (search_times self) duration;
     llm_times := llm_times self;
     total_queries := total_queries self;
     cache_hits := cache_hits self;
     cache_misses := cache_misses self;
     start_time := start_time self |}.

Definition record_llm_time (self : monitor) (duration : Q) : monitor :=
  {| history_size := history_size self;
     query_times := query_times self;
     embedding_times := embedding_times self;
     search_times := search_times self;
     llm_times := deque_append (history_size self) (llm_times self) duration;
     total_queries := total_queries self;
     cache_hits := cache_hits self;
     cache_misses := cache_misses self;
     start_time := start_time self |}.

(** [_format_uptime(seconds)]. *)
Definition _format_uptime (seconds : Q) : string :=
  let days := Py.int_of_Q (Py.floordiv seconds 86400) in
  let hours := Py.int_of_Q (Py.floordiv (Py.modulo seconds 86400) 3600) in
  let minutes := Py.int_of_Q (Py.floordiv (Py.modulo seconds 3600) 60) in
  let secs := Py.int_of_Q (Py.modulo seconds 60) in
  let parts : list string := [] in
  let parts :=
    if 0 <? days then parts ++ [Py.str_of_int days +:+ "d"] else parts in
  let parts :=
    if 0 <? hours then parts ++ [Py.str_of_int hours +:+ "h"] else parts in
  let parts :=
    if 0 <? minutes then parts ++ [Py.str_of_int minutes +:+ "m"] else parts in
  let parts := parts ++ [Py.str_of_int secs +:+ "s"] in
  Py.join " " parts.

(** [TimingContext]: the name of the metric and the start time that
    [__enter__] sets; its monitor is the one of the caller, which [__exit__]
    updates. *)
Record timing_context := { metric_name : string; tc_start_time : Q }.

Definition __enter__ (metric_name : string) (now : Q) : timing_context :=
  {| metric_name := metric_name; tc_start_time := now |}.

(** [__exit__] at the time [now]: a name that is none of the four records
    nothing. *)
Definition __exit__ (self : timing_context) (now : Q) (the_monitor : monitor)
    : monitor :=
  let duration := (now - tc_start_time self)%Q in
  if String.eqb (metric_name self) "query" then
    record_query_time the_monitor duration
  else if String.eqb (metric_name self) "embedding" then
    record_embedding_time the_monitor duration
  else if String.eqb (metric_name self) "search" then
    record_search_time the_monitor duration
  else if String.eqb (metric_name self) "llm" then
    record_llm_time the_monitor duration
  else the_monitor.

(** What happens to a monitor: the calls of its recording methods and the
    timed blocks, each with the times of its start and of its end. *)
Inductive event :=
| QueryTime (duration : Q)
| EmbeddingTime (duration : Q)
| SearchTime (duration : Q)
| LlmTime (duration : Q)
| CacheHit
| CacheMiss
| Timed (metric_name : string) (start stop : Q).

Definition apply_event (self : monitor) (e : event) : monitor :=
  match e with
  | QueryTime d => record_query_time self d
  | EmbeddingTime d => record_embedding_time self d
  | SearchTime d => record_search_time self d
  | LlmTime d => record_llm_time self d
  | CacheHit => record_cache_hit self
  | CacheMiss => record_cache_miss self
  | Timed name start stop => __exit__ (__enter__ name start) stop self
  end.

(** The duration that an event adds to the window of a metric. *)
Definition timed (name metric : string) (start stop : Q) : option Q :=
  if String.eqb name metric then Some (stop - start)%Q else None.

Definition query_duration (e : event) : option Q :=
  match e with
  | QueryTime d => Some d
  | Timed name start stop => timed name "query" start stop
  | _ => None
  end.
Definition embedding_duration (e : event) : option Q :=
  match e with
  | EmbeddingTime d => Some d
  | Timed name start stop => timed name "embedding" start stop
  | _ => None
  end.
Definition search_duration (e : event) : option Q :=
  match e with
  | SearchTime d => Some d
  | Timed name start stop => timed name "search" start stop
  | _ => None
  end.
Definition llm_duration (e : event) : option Q :=
  match e with
  | LlmTime d => Some d
  | Timed name start stop => timed name "llm" start stop
  | _ => None
  end.
Definition is_hit (e : event) : bool :=
  match e with CacheHit => true | _ => false end.
Definition is_miss (e : event) : bool :=
  match e with CacheMiss => true | _ => false end.

(** The last [n] elements of a list. *)
Definition last_n {A} (n : nat) (l : list A) : list A := drop (length l - n) l.

End PerformanceMonitor.

(** * Properties *)

(** ** Strings *)

Section StringFacts.

Lemma startswith_spec (p s : string) :
  Py.startswith p s = true <-> exists post, s = p +:+ post.
Proof.
  revert s. induction p as [|c p IH]; intros s; simpl.
  - split; [intros _; exists s; reflexivity | reflexivity].
  - destruct s as [|d s].
    + split; [discriminate | intros [post H]; discriminate].
    + rewrite andb_true_iff, Ascii.eqb_eq, IH. split.
      * intros [-> [post ->]]. exists post. reflexivity.
      * intros [post H]. inversion H. split; [reflexivity | now exists post].
Qed.

(** [Py.contains] decides the occurrence of a contiguous substring. *)
Lemma contains_spec (k s : string) :
  Py.contains k s = true <-> exists pre post, s = pre +:+ k +:+ post.
Proof.
  induction s as [|c s IH]; simpl.
  - rewrite orb_false_r, startswith_spec. split.
    + intros [post H]. exists EmptyString, post. exact H.
    + intros [pre [post H]]. destruct pre; [exists post; exact H | discriminate].
  - rewrite orb_true_iff, IH, startswith_spec. split.
    + intros [[post H] | [pre [post H]]].
      * exists EmptyString, post. exact H.
      * exists (String c pre), post. simpl. now rewrite H.
    + intros [pre [post H]]. destruct pre as [|d pre].
      * left. exists post. exact H.
      * right. exists pre, post. simpl in H. now inversion H.
Qed.

Lemma lower_append (s t : string) :
  Py.lower (s +:+ t) = Py.lower s +:+ Py.lower t.
Proof.
  induction s as [|c s IH]; [reflexivity|].
  change (Py.lower (String c s +:+ t))
    with (String (Py.lower_char c) (Py.lower (s +:+ t))).
  rewrite IH. reflexivity.
Qed.

End StringFacts.
(** ** risk_scoring.py *)

Section RiskScoringFacts.
Import RiskScoring.

Lemma Qgeb_dec (x y : Q) :
  Py.Qgeb x y = if Qlt_le_dec x y then false else true.
Proof.
  unfold Py.Qgeb. destruct (Qlt_le_dec x y) as [Hlt|Hle].
  - destruct (Qle_bool y x) eqn:E; [|reflexivity].
    apply Qle_bool_iff in E. exfalso. exact (Qlt_not_le _ _ Hlt E).
  - now apply Qle_bool_iff.
Qed.

Lemma Qltb_dec (x y : Q) :
  Py.Qltb x y = if Qlt_le_dec x y then true else false.
Proof.
  unfold Py.Qltb.
  destruct (Qlt_le_dec x y) as [Hlt|Hle], (Qcompare_spec x y) as [He|Hc|Hc];
    try reflexivity; exfalso.
  - rewrite He in Hlt. exact (Qlt_irrefl _ Hlt).
  - exact (Qlt_irrefl _ (Qlt_trans _ _ _ Hlt Hc)).
  - exact (Qlt_not_le _ _ Hc Hle).
Qed.

Lemma in_list_dec (x : string) (l : list string) :
  Py.in_list x l = if decide (x ∈ l) then true else false.
Proof.
  unfold Py.in_list. destruct (decide (x ∈ l)) as [H|H].
  - apply existsb_exists. exists x.
    split; [now apply list_elem_of_In | apply String.eqb_refl].
  - destruct (existsb (String.eqb x) l) eqn:E; [|reflexivity].
    apply existsb_exists in E. destruct E as [y [Hy Exy]].
    apply String.eqb_eq in Exy. subst y. now apply list_elem_of_In in Hy.
Qed.

Lemma is_cash_dec (o : option bool) :
  default false o = if decide (o = Some true) then true else false.
Proof. destruct o as [[|]|]; reflexivity. Qed.

Lemma Zltb_dec (x y : Z) : (x <? y) = if decide (x < y) then true else false.
Proof. destruct (Z.ltb_spec x y), (decide (x < y)); try reflexivity; lia. Qed.

Lemma customer_type_dec (o : option string) (s : string) :
  bool_decide (o = Some s) = if decide (o = Some s) then true else false.
Proof. destruct (decide (o = Some s)); [now apply bool_decide_eq_true | now apply bool_decide_eq_false]. Qed.

(** Each rule adds its points to the score and its flag to the list. *)
Lemma rule_if (c : bool) p f (st : scorer_state) :
  (if c then flag p f st else st)
  = (st.1 + (if c then p else 0), st.2 ++ (if c then [f] else [])).
Proof.
  destruct st, c; unfold flag; cbn [fst snd];
    rewrite ?Z.add_0_r, ?app_nil_r; reflexivity.
Qed.

Lemma rule_if_elif (c1 c2 : bool) p1 f1 p2 f2 (st : scorer_state) :
  (if c1 then flag p1 f1 st else if c2 then flag p2 f2 st else st)
  = (st.1 + (if c1 then p1 else if c2 then p2 else 0),
     st.2 ++ (if c1 then [f1] else if c2 then [f2] else [])).
Proof.
  destruct st, c1, c2; unfold flag; cbn [fst snd];
    rewrite ?Z.add_0_r, ?app_nil_r; reflexivity.
Qed.

Lemma rule_if_if (c d : bool) p f (st : scorer_state) :
  (if c then (if d then flag p f st else st) else st)
  = (st.1 + (if c then if d then p else 0 else 0),
     st.2 ++ (if c then if d then [f] else [] else [])).
Proof.
  destruct st, c, d; unfold flag; cbn [fst snd];
    rewrite ?Z.add_0_r, ?app_nil_r; reflexivity.
Qed.

Ltac decide_rule :=
  repeat match goal with
         | |- context [Qlt_le_dec ?a ?b] => destruct (Qlt_le_dec a b)
         end;
  repeat case_decide; try reflexivity; try lia.

(** Score and flags of [calculate_transaction_risk], read off the rules. *)
Lemma calculate_transaction_risk_rules now td :
  let r := calculate_transaction_risk now td in
  risk_score r = spec_transaction_score td /\
  flags r = spec_amount_flag td ++ spec_velocity_flag td ++ spec_country_flag td
            ++ spec_cash_flag td ++ spec_corporate_flag td.
Proof.
  unfold calculate_transaction_risk. cbv zeta. cbn [risk_score flags].
  rewrite rule_if_if, !rule_if_elif, !rule_if. cbn [fst snd].
  rewrite !Qgeb_dec, Qltb_dec, in_list_dec, is_cash_dec, !Zltb_dec,
    customer_type_dec.
  split.
  - unfold spec_transaction_score, spec_amount_points, spec_velocity_points,
      spec_country_points, spec_cash_points, spec_corporate_points,
      spec_amount, spec_count, spec_country.
    rewrite Z.add_0_l. repeat (f_equal; [|decide_rule]). decide_rule.
  - unfold spec_amount_flag, spec_velocity_flag, spec_country_flag,
      spec_cash_flag, spec_corporate_flag, spec_amount, spec_count,
      spec_country.
    rewrite app_nil_l, <- !app_assoc.
    repeat (f_equal; [decide_rule|]). decide_rule.
Qed.

(** The level of [calculate_transaction_risk] is a function of the score. *)
Lemma calculate_transaction_risk_level now td :
  let r := calculate_transaction_risk now td in
  (risk_level r = "HIGH" <-> 70 <= risk_score r) /\
  (risk_level r = "MEDIUM" <-> 40 <= risk_score r < 70) /\
  (risk_level r = "LOW" <-> risk_score r < 40).
Proof.
  unfold calculate_transaction_risk. cbv zeta. cbn [risk_level risk_score].
  match goal with |- context [70 <=? ?s] => generalize s end. intros s.
  destruct (Z.leb_spec 70 s), (Z.leb_spec 40 s); cbn [fst];
    (repeat split; try (intros; lia); try discriminate; try reflexivity).
Qed.

Lemma spec_transaction_score_range td : 0 <= spec_transaction_score td <= 100.
Proof.
  unfold spec_transaction_score, spec_amount_points, spec_velocity_points,
    spec_country_points, spec_cash_points, spec_corporate_points.
  repeat match goal with
         | |- context [Qlt_le_dec ?a ?b] => destruct (Qlt_le_dec a b)
         end; repeat case_decide; lia.
Qed.

(** The keyword loops collect, in order, the keywords that match. *)
Lemma fold_keyword_step (w : Z) (ql : string) (l : list string)
    (st : scorer_state) :
  fold_left (keyword_step w ql) l st
  = (st.1 + w * Z.of_nat (length (List.filter (fun k => Py.contains k ql) l)),
     st.2 ++ List.filter (fun k => Py.contains k ql) l).
Proof.
  revert st. induction l as [|k l IH]; intros [rs kf]; cbn [fold_left List.filter].
  - cbn [length fst snd Z.of_nat]. rewrite Z.mul_0_r, Z.add_0_r, app_nil_r.
    reflexivity.
  - rewrite IH. unfold keyword_step. destruct (Py.contains k ql); cbn [fst snd].
    + rewrite <- app_assoc. cbn [length app]. f_equal. lia.
    + reflexivity.
Qed.

Lemma analyze_query_risk_found query :
  keywords_found (analyze_query_risk query)
  = spec_matched HIGH_RISK_KEYWORDS query ++ spec_matched MEDIUM_RISK_KEYWORDS query.
Proof.
  unfold analyze_query_risk. cbv zeta. cbn [keywords_found].
  rewrite !fold_keyword_step. reflexivity.
Qed.

Lemma analyze_query_risk_score query :
  qr_risk_score (analyze_query_risk query) = spec_query_score query.
Proof.
  unfold analyze_query_risk. cbv zeta. cbn [qr_risk_score].
  rewrite !fold_keyword_step. reflexivity.
Qed.

Lemma analyze_query_risk_level query :
  let r := analyze_query_risk query in
  (requires_alert r = true <-> 50 <= qr_risk_score r) /\
  (qr_risk_level r = "HIGH" <-> 50 <= qr_risk_score r) /\
  (qr_risk_level r = "MEDIUM" <-> 25 <= qr_risk_score r < 50) /\
  (qr_risk_level r = "LOW" <-> qr_risk_score r < 25).
Proof.
  unfold analyze_query_risk. cbv zeta.
  cbn [requires_alert qr_risk_level qr_risk_score].
  match goal with |- context [50 <=? ?s] => generalize s end. intros s.
  destruct (Z.leb_spec 50 s), (Z.leb_spec 25 s); cbn [fst snd];
    (repeat split; try (intros; lia); try discriminate; try reflexivity).
Qed.

Lemma keywords_NoDup : NoDup (HIGH_RISK_KEYWORDS ++ MEDIUM_RISK_KEYWORDS).
Proof. apply (bool_decide_unpack _). vm_compute. exact I. Qed.

Lemma spec_matched_app tier1 tier2 query :
  spec_matched tier1 query ++ spec_matched tier2 query
  = spec_matched (tier1 ++ tier2) query.
Proof. unfold spec_matched. symmetry. apply List.filter_app. Qed.

Lemma spec_matched_elem k tier query :
  k ∈ spec_matched tier query <-> k ∈ tier /\ Py.contains k (Py.lower query) = true.
Proof.
  unfold spec_matched. rewrite !list_elem_of_In, List.filter_In. reflexivity.
Qed.
End RiskScoringFacts.

Import RiskScoring.

(** C1: the transaction score is the clamped sum of the five rule
    contributions, lies in [0,100], determines the level by the thresholds 70
    and 40, the flags come in rule order, and the scenario of the
    specification scores 90, HIGH. *)
Theorem C1_transaction_risk_rules :
  forall (now : Py.datetime) (td : transaction_data),
    let r := calculate_transaction_risk now td in
    risk_score r
    = Z.min (spec_amount_points td + spec_velocity_points td
             + spec_country_points td + spec_cash_points td
             + spec_corporate_points td) 100 /\
    0 <= risk_score r <= 100 /\
    (risk_level r = "HIGH" <-> 70 <= risk_score r) /\
    (risk_level r = "MEDIUM" <-> 40 <= risk_score r < 70) /\
    (risk_level r = "LOW" <-> risk_score r < 40) /\
    flags r = spec_amount_flag td ++ spec_velocity_flag td
              ++ spec_country_flag td ++ spec_cash_flag td
              ++ spec_corporate_flag td /\
    risk_score (calculate_transaction_risk now example_transaction) = 90 /\
    risk_level (calculate_transaction_risk now example_transaction) = "HIGH" /\
    flags (calculate_transaction_risk now example_transaction)
    = ["High-value transaction: $55,000.00";
       "High velocity: 15 transactions/24h";
       "High-risk jurisdiction: Iran";
       "Cash transaction"].
Proof.
  intros now td r.
  destruct (calculate_transaction_risk_rules now td) as [Hs Hf].
  destruct (calculate_transaction_risk_level now td) as (Hh & Hm & Hl).
  fold r in Hs, Hf, Hh, Hm, Hl.
  split; [exact Hs|].
  split; [rewrite Hs; apply spec_transaction_score_range|].
  split; [exact Hh|]. split; [exact Hm|]. split; [exact Hl|].
  split; [exact Hf|].
  repeat split; reflexivity.
Qed.

Section CaseFacts.

Lemma ascii_of_N_eq (n : N) (k : ascii) :
  (n < 256)%N -> (ascii_of_N n = k <-> n = N_of_ascii k).
Proof.
  intros Hn. split.
  - intros <-. symmetry. apply N_ascii_embedding. exact Hn.
  - intros ->. apply ascii_N_embedding.
Qed.

Lemma N_of_ascii_inj (c k : ascii) : N_of_ascii c = N_of_ascii k -> c = k.
Proof.
  intros H. rewrite <- (ascii_N_embedding c), <- (ascii_N_embedding k), H.
  reflexivity.
Qed.

(** Lower-casing a character gives a small letter or a space exactly when
    the character reads as it. *)
Lemma lower_char_reads_as (c k : ascii) :
  small_or_space k = true -> (Py.lower_char c = k <-> reads_as c k).
Proof.
  unfold small_or_space, Py.lower_char, reads_as. cbv zeta.
  pose proof (N_ascii_bounded c) as Hc.
  intros Hk.
  assert (Hk' : (97 <= N_of_ascii k /\ N_of_ascii k <= 122)%N
                \/ N_of_ascii k = 32%N).
  { destruct (N.leb_spec 97 (N_of_ascii k)), (N.leb_spec (N_of_ascii k) 122),
      (N.eqb_spec (N_of_ascii k) 32); cbn in Hk; try discriminate Hk; lia. }
  clear Hk.
  destruct (N.leb_spec 65 (N_of_ascii c)), (N.leb_spec (N_of_ascii c) 90),
    (N.leb_spec 192 (N_of_ascii c)), (N.leb_spec (N_of_ascii c) 222),
    (N.eqb_spec (N_of_ascii c) 215); cbn [andb orb negb];
    try (rewrite ascii_of_N_eq by lia);
    (split; [intros Hx; first [right; lia | left; exact Hx]
            | intros [Hx|Hx]; first [exact Hx | subst; lia | exfalso; lia]]).
Qed.

Lemma lower_spells (text keyword : string) :
  all_small keyword = true -> (Py.lower text = keyword <-> spells text keyword).
Proof.
  revert keyword. induction text as [|c text IH]; intros [|k keyword] Hk;
    cbn [Py.lower spells]; try (split; [discriminate|contradiction]);
    try tauto.
  cbn [all_small] in Hk. apply andb_true_iff in Hk. destruct Hk as [Hk Hs].
  rewrite <- (IH keyword Hs), <- (lower_char_reads_as c k Hk). split.
  - intros H. inversion H. subst. split; reflexivity.
  - intros [-> ->]. reflexivity.
Qed.

Lemma lower_split (query a b : string) :
  Py.lower query = a +:+ b ->
  exists q1 q2, query = q1 +:+ q2 /\ Py.lower q1 = a /\ Py.lower q2 = b.
Proof.
  revert query. induction a as [|x a IH]; intros query H.
  - exists EmptyString, query. repeat split; assumption.
  - destruct query as [|c query]; [discriminate H|].
    cbn [Py.lower String.append] in H. inversion H as [[Hc Hq]].
    destruct (IH query Hq) as (q1 & q2 & -> & H1 & H2).
    exists (String c q1), q2. cbn [Py.lower String.append].
    rewrite H1. repeat split; try reflexivity. exact H2.
Qed.

(** The substring test on the lower-cased query finds the occurrences of a
    keyword in the query in whatever letter case. *)
Lemma contains_lower_occurs (keyword query : string) :
  all_small keyword = true ->
  (Py.contains keyword (Py.lower query) = true
   <-> occurs_ignoring_case keyword query).
Proof.
  intros Hk. rewrite contains_spec. split.
  - intros (a & b & H).
    destruct (lower_split query a (keyword +:+ b) H) as (pre & rest & -> & _ & H').
    destruct (lower_split rest keyword b H') as (mid & post & -> & Hm & _).
    exists pre, mid, post. split; [reflexivity|].
    apply lower_spells; assumption.
  - intros (pre & mid & post & -> & Hs).
    exists (Py.lower pre), (Py.lower post).
    rewrite !lower_append. apply lower_spells in Hs; [|exact Hk].
    rewrite Hs. reflexivity.
Qed.

Lemma keywords_all_small :
  Forall (fun k => all_small k = true)
    (HIGH_RISK_KEYWORDS ++ MEDIUM_RISK_KEYWORDS).
Proof. repeat constructor. Qed.

Lemma in_list_spec (x : string) (l : list string) :
  Py.in_list x l = true <-> x ∈ l.
Proof.
  unfold Py.in_list. rewrite existsb_exists, list_elem_of_In. split.
  - intros (y & Hy & He). apply String.eqb_eq in He. subst. exact Hy.
  - intros H. exists x. split; [exact H|apply String.eqb_refl].
Qed.

Lemma filter_all {A} (f : A -> bool) (l : list A) :
  Forall (fun x => f x = true) l -> List.filter f l = l.
Proof.
  induction 1 as [|x l Hx _ IH]; cbn [List.filter]; [reflexivity|].
  rewrite Hx, IH. reflexivity.
Qed.

Lemma filter_none {A} (f : A -> bool) (l : list A) :
  Forall (fun x => f x = false) l -> List.filter f l = [].
Proof.
  induction 1 as [|x l Hx _ IH]; cbn [List.filter]; [reflexivity|].
  rewrite Hx, IH. reflexivity.
Qed.

(** The keywords found split into the matches of the two tiers. *)
Lemma found_in_tiers (query : string) :
  let found := keywords_found (analyze_query_risk query) in
  found_in HIGH_RISK_KEYWORDS found = spec_matched HIGH_RISK_KEYWORDS query /\
  found_in MEDIUM_RISK_KEYWORDS found = spec_matched MEDIUM_RISK_KEYWORDS query.
Proof.
  cbv zeta. rewrite analyze_query_risk_found. unfold found_in.
  rewrite !List.filter_app. unfold spec_matched.
  assert (Hsub : forall (P : string -> bool) (tier other : list string),
             Forall (fun k => Py.in_list k other = false) tier ->
             List.filter (fun k => Py.in_list k tier) (List.filter P tier)
             = List.filter P tier /\
             List.filter (fun k => Py.in_list k other) (List.filter P tier) = []).
  { intros P tier other Hd. split.
    - apply filter_all. rewrite Forall_forall. intros k Hk.
      apply list_elem_of_In, List.filter_In in Hk.
      apply in_list_spec, list_elem_of_In, Hk.
    - apply filter_none. rewrite Forall_forall. intros k Hk.
      apply list_elem_of_In, List.filter_In in Hk.
      rewrite Forall_forall in Hd. apply Hd, list_elem_of_In, Hk. }
  destruct (Hsub (fun k => Py.contains k (Py.lower query))
              HIGH_RISK_KEYWORDS MEDIUM_RISK_KEYWORDS) as [H1 H2];
    [repeat constructor|].
  destruct (Hsub (fun k => Py.contains k (Py.lower query))
              MEDIUM_RISK_KEYWORDS HIGH_RISK_KEYWORDS) as [H3 H4];
    [repeat constructor|].
  rewrite H1, H2, H3, H4, app_nil_r. split; reflexivity.
Qed.

End CaseFacts.

(** C2: the keywords found are the listed keywords that occur in the query
    in whatever letter case, each once; each one of the high tier adds 15
    and each one of the medium tier 8; the sum is clamped to 100; the alert
    and the level follow the thresholds 50 and 25; the scenario of the
    specification scores 15, a query in capitals scores like its small-letter
    form, and a repeated keyword counts once. *)
Theorem C2_query_risk_rules :
  forall query : string,
    let r := analyze_query_risk query in
    (forall k, k ∈ keywords_found r <->
               k ∈ HIGH_RISK_KEYWORDS ++ MEDIUM_RISK_KEYWORDS /\
               occurs_ignoring_case k query) /\
    NoDup (keywords_found r) /\
    qr_risk_score r
    = Z.min (15 * Z.of_nat (length (found_in HIGH_RISK_KEYWORDS (keywords_found r)))
             + 8 * Z.of_nat (length (found_in MEDIUM_RISK_KEYWORDS (keywords_found r))))
            100 /\
    (requires_alert r = true <-> 50 <= qr_risk_score r) /\
    (qr_risk_level r = "HIGH" <-> 50 <= qr_risk_score r) /\
    (qr_risk_level r = "MEDIUM" <-> 25 <= qr_risk_score r < 50) /\
    (qr_risk_level r = "LOW" <-> qr_risk_score r < 25) /\
    (qr_risk_score (analyze_query_risk example_query) = 15 /\
     qr_risk_level (analyze_query_risk example_query) = "LOW" /\
     requires_alert (analyze_query_risk example_query) = false /\
     keywords_found (analyze_query_risk example_query) = ["terrorist"]) /\
    (qr_risk_score (analyze_query_risk example_upper_case_query) = 45 /\
     qr_risk_level (analyze_query_risk example_upper_case_query) = "MEDIUM" /\
     requires_alert (analyze_query_risk example_upper_case_query) = false /\
     keywords_found (analyze_query_risk example_upper_case_query)
     = ["sanction"; "terrorist"; "fraud"]) /\
    (qr_risk_score (analyze_query_risk example_repeated_query) = 15 /\
     keywords_found (analyze_query_risk example_repeated_query) = ["fraud"]).
Proof.
  intros query r.
  assert (Hfound : keywords_found r
                   = spec_matched (HIGH_RISK_KEYWORDS ++ MEDIUM_RISK_KEYWORDS) query).
  { subst r. rewrite analyze_query_risk_found. apply spec_matched_app. }
  split; [|split; [|split]].
  - intros k. rewrite Hfound, spec_matched_elem.
    pose proof keywords_all_small as Hsmall. rewrite Forall_forall in Hsmall.
    split; intros [Hk Hc]; (split; [exact Hk|]);
      apply (contains_lower_occurs k query (Hsmall k Hk)); exact Hc.
  - rewrite Hfound. unfold spec_matched.
    apply NoDup_ListNoDup, List.NoDup_filter, NoDup_ListNoDup, keywords_NoDup.
  - destruct (found_in_tiers query) as [Hh Hm]. fold r in Hh, Hm.
    rewrite Hh, Hm. exact (analyze_query_risk_score query).
  - destruct (analyze_query_risk_level query) as (Ha & Hh & Hm & Hl).
    fold r in Ha, Hh, Hm, Hl.
    split; [exact Ha|]. split; [exact Hh|]. split; [exact Hm|].
    split; [exact Hl|].
    repeat split; reflexivity.
Qed.

(** C6, the claim as stated: the two outputs of the scenario's transaction
    differ when the clock has moved between the two calls. *)
Lemma C6_timestamp_counterexample :
  let t1 := {| Py.year := 2024; Py.month := 1; Py.day := 1; Py.hour := 12;
               Py.minute := 0; Py.second := 0; Py.microsecond := 1 |} in
  let t2 := {| Py.year := 2024; Py.month := 1; Py.day := 1; Py.hour := 12;
               Py.minute := 0; Py.second := 0; Py.microsecond := 2 |} in
  timestamp (calculate_transaction_risk t1 example_transaction)
  = "2024-01-01T12:00:00.000001" /\
  timestamp (calculate_transaction_risk t2 example_transaction)
  = "2024-01-01T12:00:00.000002" /\
  calculate_transaction_risk t1 example_transaction
  <> calculate_transaction_risk t2 example_transaction.
Proof.
  intros t1 t2. split; [reflexivity|]. split; [reflexivity|].
  intros H. apply (f_equal timestamp) in H. vm_compute in H. discriminate H.
Qed.

(** C6, amended: the score, the level, the flags and the recommended action
    are functions of the input alone; the timestamp is the clock reading of
    the call. *)
Theorem C6_transaction_risk_deterministic_fields :
  forall (now1 now2 : Py.datetime) (td : transaction_data),
    let r1 := calculate_transaction_risk now1 td in
    let r2 := calculate_transaction_risk now2 td in
    risk_score r1 = risk_score r2 /\
    risk_level r1 = risk_level r2 /\
    flags r1 = flags r2 /\
    recommended_action r1 = recommended_action r2 /\
    timestamp r1 = Py.isoformat now1 /\
    timestamp r2 = Py.isoformat now2.
Proof.
  intros now1 now2 td. repeat split; reflexivity.
Qed.

(** ** Text files *)

Section TextFacts.

Lemma append_cons c s t : String c s +:+ t = String c (s +:+ t).
Proof. reflexivity. Qed.

Lemma append_nil_l s : "" +:+ s = s.
Proof. reflexivity. Qed.

Lemma append_nil_r s : s +:+ "" = s.
Proof. induction s as [|c s IH]; [reflexivity|]. now rewrite append_cons, IH. Qed.

Lemma append_assoc s t u : (s +:+ t) +:+ u = s +:+ t +:+ u.
Proof.
  induction s as [|c s IH]; [reflexivity|]. now rewrite !append_cons, IH.
Qed.

Lemma length_append s t :
  String.length (s +:+ t) = (String.length s + String.length t)%nat.
Proof.
  induction s as [|c s IH]; [reflexivity|].
  rewrite append_cons. cbn [String.length]. now rewrite IH.
Qed.

Lemma rstrip_newline s : Py.rstrip (s +:+ Py.newline) = Py.rstrip s.
Proof.
  induction s as [|c s IH]; [reflexivity|].
  rewrite append_cons. cbn [Py.rstrip]. now rewrite IH.
Qed.

(** The line feed that ends a line is stripped with the rest. *)
Lemma strip_newline s : Py.strip (s +:+ Py.newline) = Py.strip s.
Proof. unfold Py.strip. now rewrite rstrip_newline. Qed.

Lemma no_linebreak_cons c s :
  Py.no_linebreak (String c s) = true ->
  Ascii.eqb c Py.LF = false /\ Ascii.eqb c Py.CR = false /\
  Py.no_linebreak s = true.
Proof.
  cbn [Py.no_linebreak]. rewrite !andb_true_iff, !negb_true_iff. tauto.
Qed.

Lemma universal_newlines_line s rest :
  Py.no_linebreak s = true ->
  Py.universal_newlines (s +:+ Py.newline +:+ rest)
  = s +:+ Py.newline +:+ Py.universal_newlines rest.
Proof.
  induction s as [|c s IH]; intros H.
  - reflexivity.
  - apply no_linebreak_cons in H. destruct H as (_ & Hcr & H).
    rewrite !append_cons. cbn [Py.universal_newlines]. rewrite Hcr.
    now rewrite IH.
Qed.

Lemma lines_line s rest :
  Py.no_linebreak s = true ->
  Py.lines (s +:+ Py.newline +:+ rest) = (s +:+ Py.newline) :: Py.lines rest.
Proof.
  induction s as [|c s IH]; intros H.
  - reflexivity.
  - apply no_linebreak_cons in H. destruct H as (Hlf & _ & H).
    rewrite !append_cons. cbn [Py.lines]. rewrite Hlf, (IH H). reflexivity.
Qed.

Lemma readlines_line s rest :
  Py.no_linebreak s = true ->
  Py.readlines (s +:+ Py.newline +:+ rest)
  = (s +:+ Py.newline) :: Py.readlines rest.
Proof.
  intros H. unfold Py.readlines.
  now rewrite universal_newlines_line, lines_line.
Qed.

(** A slice that asks for at least as many elements as there are. *)
Lemma slice_from_all {A} (l : list A) (limit : Z) :
  Z.of_nat (length l) <= limit -> Py.slice_from (- limit) l = l.
Proof.
  intros H. unfold Py.slice_from.
  destruct (Z.ltb_spec (- limit) 0).
  - replace (Z.to_nat _) with 0%nat by lia. reflexivity.
  - assert (length l = 0%nat) as Hl by lia.
    destruct l; [|discriminate]. now rewrite drop_nil.
Qed.

(** A positive limit keeps the last [limit] elements. *)
Lemma slice_from_last {A} (l : list A) (limit : Z) :
  0 < limit <= Z.of_nat (length l) ->
  Py.slice_from (- limit) l = drop (length l - Z.to_nat limit) l.
Proof.
  intros H. unfold Py.slice_from.
  destruct (Z.ltb_spec (- limit) 0); [|lia]. f_equal. lia.
Qed.

End TextFacts.

(** ** audit_logger.py *)

Section AuditLoggerFacts.
Import AuditLogger.

Variable dumps : json -> string.
Variable loads : string -> option json.

Lemma path_join_inj dir a b :
  Py.startswith "/" a = false -> Py.startswith "/" b = false ->
  path_join dir a = path_join dir b -> a = b.
Proof.
  unfold path_join. intros -> ->.
  destruct (_ || _); intros H.
  - exact (String.app_inj _ _ _ H).
  - apply String.app_inj in H. exact (String.app_inj _ _ _ H).
Qed.

(** The four partitions of a logger are four different files. *)
Lemma partition_inj dir k1 k2 :
  partition (init dir) k1 = partition (init dir) k2 -> k1 = k2.
Proof.
  destruct k1, k2; cbn [partition init query_log_file access_log_file
    alert_log_file document_log_file]; intros H;
    try reflexivity; apply path_join_inj in H; try reflexivity;
    discriminate H.
Qed.

(** A missing file reads as an empty one. *)
Lemma _read_log_content fs log_file user_id limit :
  _read_log loads fs log_file user_id limit
  = Py.bind
      (fold_left (read_line loads user_id)
         (Py.readlines (default "" (fs !! log_file))) (Py.Ok []))
      (fun entries => Py.Ok (Py.slice_from (- limit) entries)).
Proof.
  unfold _read_log. destruct (fs !! log_file); [reflexivity|].
  cbn. unfold Py.slice_from. now rewrite drop_nil.
Qed.

(** The reading loop keeps the records and skips the other lines. *)
Lemma read_items (its : list (item)) (acc : list json) :
  Forall (valid_item dumps loads) its ->
  fold_left (read_line loads None) (Py.readlines (text_of dumps its)) (Py.Ok acc)
  = Py.Ok (acc ++ records its).
Proof.
  intros H. revert acc. induction H as [|it its Hit _ IH]; intros acc.
  - cbn. now rewrite app_nil_r.
  - destruct it as [entry|line]; cbn [text_of records].
    + destruct Hit as (Hrt & Hstrip & Hnl).
      rewrite (readlines_line _ _ Hnl). cbn [fold_left].
      unfold read_line at 2. cbn [Py.bind].
      rewrite strip_newline, Hstrip, Hrt, IH, <- app_assoc. reflexivity.
    + destruct Hit as (Hnl & Hbad).
      rewrite (readlines_line _ _ Hnl). cbn [fold_left].
      unfold read_line at 2. cbn [Py.bind].
      rewrite strip_newline, Hbad, IH. reflexivity.
Qed.

(** Appends reach the partition of their kind and no other. *)
Lemma append_items_content dir (ops : list (kind * item)) fs k :
  default "" (fold_left (append_item dumps (init dir)) ops fs
              !! partition (init dir) k)
  = default "" (fs !! partition (init dir) k) +:+ text_of dumps (items_of k ops).
Proof.
  revert fs. induction ops as [|[k' it] ops IH]; intros fs.
  - cbn. now rewrite append_nil_r.
  - cbn [fold_left]. rewrite IH. unfold items_of. cbn [List.filter fst].
    destruct (decide (k' = k)) as [->|Hne].
    + rewrite bool_decide_eq_true_2 by reflexivity. cbn [map snd].
      unfold append_item. cbn [fst snd].
      destruct it as [entry|line]; unfold _write_log;
        rewrite lookup_insert_eq; cbn [default text_of];
        change (id ?x) with x; rewrite !append_assoc; reflexivity.
    + rewrite bool_decide_eq_false_2 by exact Hne.
      unfold append_item. cbn [fst snd].
      assert (partition (init dir) k' <> partition (init dir) k) as Hp.
      { intros Hp. apply Hne. exact (partition_inj _ _ _ Hp). }
      destruct it as [entry|line]; unfold _write_log;
        rewrite lookup_insert_ne by exact Hp; reflexivity.
Qed.

(** Reading a partition back gives a slice of the records written to it. *)
Lemma read_back_slice dir (fs : gmap string string)
    (ops : list (kind * item)) k limit :
  (forall k', default "" (fs !! partition (init dir) k') = "") ->
  Forall (fun op => valid_item dumps loads op.2) ops ->
  _read_log loads (fold_left (append_item dumps (init dir)) ops fs)
    (partition (init dir) k) None limit
  = Py.Ok (Py.slice_from (- limit) (written_to k ops)).
Proof.
  intros Hempty Hops.
  rewrite _read_log_content, append_items_content, Hempty, append_nil_l.
  rewrite read_items; [reflexivity|].
  unfold items_of. apply List.Forall_forall. intros it Hit.
  apply in_map_iff in Hit. destruct Hit as (op & <- & Hop).
  apply List.filter_In in Hop. destruct Hop as [Hop _].
  rewrite List.Forall_forall in Hops. apply Hops. exact Hop.
Qed.

End AuditLoggerFacts.

Import AuditLogger.

(** C3: whatever the kind, after well-formed records and malformed lines
    have been appended in any interleaving to initially empty partitions,
    reading a partition back with a limit of at least the number of its
    records returns exactly these records in the order of their appends; and
    reading a missing partition file returns the empty list. *)
Theorem C3_append_read_roundtrip :
  forall (dumps : json -> string) (loads : string -> option json)
         (dir : string) (fs : gmap string string)
         (ops : list (kind * item)) (k : kind) (limit : Z),
    (forall k', default "" (fs !! partition (init dir) k') = "") ->
    Forall (fun op => valid_item dumps loads op.2) ops ->
    Z.of_nat (length (written_to k ops)) <= limit ->
    _read_log loads (fold_left (append_item dumps (init dir)) ops fs)
      (partition (init dir) k) None limit
    = Py.Ok (written_to k ops) /\
    (forall (fs' : gmap string string) (log_file : string)
            (user_id : option string),
        fs' !! log_file = None ->
        _read_log loads fs' log_file user_id limit = Py.Ok []).
Proof.
  intros dumps loads dir fs ops k limit Hempty Hops Hlimit. split.
  - rewrite (read_back_slice dumps loads) by assumption.
    now rewrite slice_from_all.
  - intros fs' log_file user_id Hnone. unfold _read_log. now rewrite Hnone.
Qed.

(** The round trip on a query partition and an alert partition that receive
    three records and a corrupt line. *)
Lemma C3_append_read_roundtrip_witness :
  let ops :=
    [(Query, Written (MiniJson.record_of "user123"));
     (Alert, Written (MiniJson.record_of "user7"));
     (Query, Injected "{not json");
     (Query, Written (MiniJson.record_of "user456"))] in
  _read_log MiniJson.loads
    (fold_left (append_item MiniJson.dumps (init "./audit_logs")) ops ∅)
    (partition (init "./audit_logs") Query) None 2
  = Py.Ok [MiniJson.record_of "user123"; MiniJson.record_of "user456"].
Proof.
  intros ops.
  refine (proj1 (C3_append_read_roundtrip MiniJson.dumps MiniJson.loads
                   "./audit_logs" ∅ ops Query 2 _ _ _)).
  - intros k'. rewrite lookup_empty. reflexivity.
  - repeat constructor; vm_compute; reflexivity.
  - vm_compute. discriminate.
Defined.

Section ExportFacts.
Variable dumps : json -> string.
Variable loads : string -> option json.

Lemma fold_query_writes self entries fs :
  fold_left (append_item dumps self) (query_writes entries) fs
  = fold_left (fun fs e => _write_log dumps fs (query_log_file self) e)
      entries fs.
Proof.
  revert fs. induction entries as [|e es IH]; intros fs; [reflexivity|].
  cbn [query_writes map fold_left]. fold (query_writes es). now rewrite IH.
Qed.

Lemma written_to_query_writes k entries :
  written_to k (query_writes entries)
  = if bool_decide (Query = k) then entries else [].
Proof.
  unfold written_to, items_of.
  induction entries as [|e es IH]; cbn [query_writes map List.filter fst].
  - now destruct (bool_decide _).
  - fold (query_writes es). destruct (bool_decide (Query = k)) eqn:E.
    + cbn [map snd records]. now rewrite IH.
    + exact IH.
Qed.

Lemma valid_query_writes entries :
  Forall (well_formed dumps loads) entries ->
  Forall (fun op => valid_item dumps loads op.2) (query_writes entries).
Proof.
  intros H. induction H; constructor; assumption.
Qed.

(** [export_data] holds, for each partition, the slice that [_read_log]
    returns for its default limit of 100. *)
Lemma export_data_last_100 dir (fs : gmap string string) ops now
    start_date end_date :
  (forall k', default "" (fs !! partition (init dir) k') = "") ->
  Forall (fun op => valid_item dumps loads op.2) ops ->
  export_data loads (init dir)
    (fold_left (append_item dumps (init dir)) ops fs) now start_date end_date
  = Py.Ok (JDict
      [("export_timestamp", JStr (Py.isoformat now));
       ("date_range",
         JDict [("start", opt_str start_date); ("end", opt_str end_date)]);
       ("queries", JList (Py.slice_from (-100) (written_to Query ops)));
       ("access_logs", JList (Py.slice_from (-100) (written_to Access ops)));
       ("alerts", JList (Py.slice_from (-100) (written_to Alert ops)));
       ("documents", JList (Py.slice_from (-100) (written_to Document ops)))]).
Proof.
  intros Hempty Hops. unfold export_data.
  pose proof (fun k => read_back_slice dumps loads dir fs ops k 100 Hempty Hops)
    as Hread.
  change (query_log_file (init dir)) with (partition (init dir) Query).
  change (access_log_file (init dir)) with (partition (init dir) Access).
  change (alert_log_file (init dir)) with (partition (init dir) Alert).
  change (document_log_file (init dir)) with (partition (init dir) Document).
  rewrite (Hread Query), (Hread Access), (Hread Alert), (Hread Document).
  reflexivity.
Qed.

(** The dates reach the [date_range] entry of the export and nothing
    else. *)
Lemma export_data_dates self (fs : gmap string string) now s1 e1 s2 e2 :
  match export_data loads self fs now s1 e1,
        export_data loads self fs now s2 e2 with
  | Py.Ok (JDict d1), Py.Ok (JDict d2) =>
      forall key, key <> "date_range" -> dict_get d1 key = dict_get d2 key
  | Py.Raise x1, Py.Raise x2 => x1 = x2
  | _, _ => False
  end.
Proof.
  unfold export_data.
  destruct (_read_log loads fs (query_log_file self) None 100); [|reflexivity].
  destruct (_read_log loads fs (access_log_file self) None 100); [|reflexivity].
  destruct (_read_log loads fs (alert_log_file self) None 100); [|reflexivity].
  destruct (_read_log loads fs (document_log_file self) None 100); [|reflexivity].
  cbn [Py.bind]. intros key Hkey. cbn [dict_get].
  destruct (String.eqb_spec "export_timestamp" key); [reflexivity|].
  destruct (String.eqb_spec "date_range" key); [congruence|]. reflexivity.
Qed.
End ExportFacts.

(** C7, at a query partition of 101 records: the export holds the last 100
    of them and not the first one, whatever the dates. *)
Theorem C7_export_truncates_to_100 :
  forall (dumps : json -> string) (loads : string -> option json)
         (dumps_indent : json -> string) (dir : string)
         (now_name now_ts : Py.datetime)
         (start_date end_date output_file : option string)
         (first : json) (rest : list json),
    Forall (well_formed dumps loads) (first :: rest) ->
    length rest = 100%nat ->
    let fs : gmap string string :=
      fold_left (fun fs e => _write_log dumps fs (query_log_file (init dir)) e)
        (first :: rest) ∅ in
    _read_log loads fs (query_log_file (init dir)) None 101
    = Py.Ok (first :: rest) /\
    exists out,
      export_audit_trail loads dumps_indent (init dir) fs now_name now_ts
        start_date end_date output_file
      = Py.Ok
          (<[out := dumps_indent (JDict
              [("export_timestamp", JStr (Py.isoformat now_ts));
               ("date_range",
                 JDict [("start", opt_str start_date);
                        ("end", opt_str end_date)]);
               ("queries", JList rest);
               ("access_logs", JList []);
               ("alerts", JList []);
               ("documents", JList [])])]> fs,
           out).
Proof.
  intros dumps loads dumps_indent dir now_name now_ts start_date end_date
    output_file first rest Hwf Hlen fs.
  assert (Hempty : forall k', default "" ((∅ : gmap string string)
                                           !! partition (init dir) k') = "").
  { intros k'. now rewrite lookup_empty. }
  pose proof (valid_query_writes dumps loads _ Hwf) as Hops.
  subst fs. rewrite <- (fold_query_writes dumps).
  split.
  - change (query_log_file (init dir)) with (partition (init dir) Query).
    rewrite (read_back_slice dumps loads) by assumption.
    rewrite written_to_query_writes, bool_decide_eq_true_2 by reflexivity.
    rewrite slice_from_all; [reflexivity|]. cbn [length]. lia.
  - eexists. unfold export_audit_trail.
    rewrite (export_data_last_100 dumps loads) by assumption.
    rewrite !written_to_query_writes.
    rewrite bool_decide_eq_true_2 by reflexivity.
    rewrite !bool_decide_eq_false_2 by discriminate.
    cbn [Py.bind].
    change (-100) with (Z.opp 100).
    rewrite slice_from_last by (cbn [length]; lia).
    replace (length (first :: rest) - Z.to_nat 100)%nat with 1%nat
      by (cbn [length]; lia).
    cbn [drop]. reflexivity.
Qed.

(** The truncation on 101 records of the codec fragment. *)
Lemma C7_export_truncates_to_100_witness :
  let first := MiniJson.record_of "oldest" in
  let rest := replicate 100 (MiniJson.record_of "user123") in
  let fs : gmap string string :=
    fold_left (fun fs e =>
                 _write_log MiniJson.dumps fs
                   (query_log_file (init "./audit_logs")) e)
      (first :: rest) ∅ in
  _read_log MiniJson.loads fs (query_log_file (init "./audit_logs")) None 101
  = Py.Ok (first :: rest).
Proof.
  intros first rest.
  refine (proj1 (C7_export_truncates_to_100 MiniJson.dumps MiniJson.loads
                   MiniJson.dumps "./audit_logs"
                   {| Py.year := 2024; Py.month := 1; Py.day := 1;
                      Py.hour := 0; Py.minute := 0; Py.second := 0;
                      Py.microsecond := 0 |}
                   {| Py.year := 2024; Py.month := 1; Py.day := 1;
                      Py.hour := 0; Py.minute := 0; Py.second := 0;
                      Py.microsecond := 0 |}
                   None None None first rest _ _)).
  - apply Forall_cons. split; [vm_compute; auto|].
    apply Forall_replicate. vm_compute. auto.
  - apply length_replicate.
Defined.

Section PreviewFacts.

Lemma take_str_append (head tail : string) :
  Py.take_str (String.length head) (head +:+ tail) = head.
Proof.
  induction head as [|c head IH].
  - destruct tail; reflexivity.
  - rewrite append_cons. cbn [String.length Py.take_str]. rewrite IH.
    reflexivity.
Qed.

Lemma length_longer (head tail : string) :
  tail <> "" -> (String.length head < String.length (head +:+ tail))%nat.
Proof.
  intros H. rewrite length_append. destruct tail; [congruence|].
  cbn [String.length]. lia.
Qed.

(** The preview of an answer with more than 200 characters. *)
Lemma preview_of_long (head tail : string) :
  String.length head = 200%nat -> tail <> "" ->
  (if (200 <? String.length (head +:+ tail))%nat
   then Py.take_str 200 (head +:+ tail) +:+ "..." else head +:+ tail)
  = head +:+ "...".
Proof.
  intros Hhead Htail.
  pose proof (length_longer head tail Htail) as Hlong.
  pose proof (take_str_append head tail) as Htake.
  rewrite Hhead in Hlong, Htake.
  destruct (Nat.ltb_spec 200 (String.length (head +:+ tail))) as [H|H];
    [|lia].
  rewrite Htake. reflexivity.
Qed.

End PreviewFacts.

(** C10: the query record holds the length of the answer; an answer of at
    most 200 characters is stored as it is; of a longer answer, written as
    its first 200 characters [head] followed by a non-empty [tail], the
    record holds [head] followed by three dots, and every other tail of the
    same length leaves the same file system and identifier, so nothing of
    the tail is persisted. *)
Theorem C10_answer_preview :
  forall (dumps : json -> string) (self : logger) (fs : gmap string string)
         (now_id now_ts : Py.datetime) (user_id query answer : string)
         (sources : list dict) (confidence : Q) (risk_score : Z)
         (metadata : option dict),
    let entry :=
      query_log_entry (_generate_id now_id [query; user_id]) now_ts user_id
        query answer sources confidence risk_score metadata in
    (log_query dumps self fs now_id now_ts user_id query answer sources
       confidence risk_score metadata).1 !! query_log_file self
    = Some (default "" (fs !! query_log_file self) +:+ dumps entry +:+ Py.newline) /\
    get entry "answer_length"
    = Py.Ok (Some (JInt (Z.of_nat (String.length answer)))) /\
    ((String.length answer <= 200)%nat ->
     get entry "answer_preview" = Py.Ok (Some (JStr answer))) /\
    (forall head tail : string,
       answer = head +:+ tail -> String.length head = 200%nat -> tail <> "" ->
       get entry "answer_preview" = Py.Ok (Some (JStr (head +:+ "..."))) /\
       forall tail' : string,
         String.length tail' = String.length tail ->
         log_query dumps self fs now_id now_ts user_id query (head +:+ tail')
           sources confidence risk_score metadata
         = log_query dumps self fs now_id now_ts user_id query answer sources
             confidence risk_score metadata).
Proof.
  intros dumps self fs now_id now_ts user_id query answer sources
    confidence risk_score metadata entry.
  split; [|split; [|split]].
  - unfold log_query, _write_log. cbn [fst]. apply lookup_insert_eq.
  - reflexivity.
  - intros Hshort. subst entry. unfold query_log_entry.
    destruct (Nat.ltb_spec 200 (String.length answer)) as [H|H];
      [lia|reflexivity].
  - intros head tail -> Hhead Htail. split.
    + subst entry. unfold query_log_entry.
      rewrite (preview_of_long head tail Hhead Htail). reflexivity.
    + intros tail' Hlen.
      assert (Htail' : tail' <> "").
      { destruct tail; [congruence|]. destruct tail'; [discriminate Hlen|].
        congruence. }
      unfold log_query, query_log_entry.
      rewrite (preview_of_long head tail Hhead Htail),
        (preview_of_long head tail' Hhead Htail'), !length_append, Hlen.
      reflexivity.
Qed.

(** An answer of 208 characters: the line written to the query log holds
    the first 200 characters and the length, and an answer that differs
    after the first 200 characters leaves the same line. *)
Lemma C10_answer_preview_witness :
  let head := String.concat "" (replicate 200 "a") in
  let t := {| Py.year := 2024; Py.month := 1; Py.day := 1; Py.hour := 0;
              Py.minute := 0; Py.second := 0; Py.microsecond := 0 |} in
  let logged answer :=
    log_query RecordJson.dumps (init "./audit_logs") ∅ t t "user123"
      "What are KYC requirements?" answer [] (9 # 10) 15 None in
  (logged (head +:+ "SECRET-A")).1 !! "./audit_logs/query_log.jsonl"
  = Some
      ("{" +:+ Py.join ", "
         [RecordJson.member "query_id" (RecordJson.quoted "182bef706d7d");
          RecordJson.member "timestamp" (RecordJson.quoted "2024-01-01T00:00:00");
          RecordJson.member "user_id" (RecordJson.quoted "user123");
          RecordJson.member "query"
            (RecordJson.quoted "What are KYC requirements?");
          RecordJson.member "answer_preview"
            (RecordJson.quoted (head +:+ "..."));
          RecordJson.member "answer_length" "208";
          RecordJson.member "sources_used" "[]";
          RecordJson.member "source_count" "0";
          RecordJson.member "confidence_score" "0.9";
          RecordJson.member "risk_score" "15";
          RecordJson.member "metadata" "{}"]
       +:+ "}" +:+ Py.newline) /\
  logged (head +:+ "SECRET-B") = logged (head +:+ "SECRET-A").
Proof.
  intros head t logged.
  destruct (C10_answer_preview RecordJson.dumps (init "./audit_logs") ∅ t t
              "user123" "What are KYC requirements?" (head +:+ "SECRET-A") []
              (9 # 10) 15 None) as (Hfile & _ & _ & Hlong).
  split.
  - unfold logged. etransitivity; [exact Hfile|]. vm_compute. reflexivity.
  - refine (proj2 (Hlong head "SECRET-A" eq_refl _ _) "SECRET-B" eq_refl).
    + vm_compute. reflexivity.
    + discriminate.
Defined.

(** ** Identifiers *)

Section IdentifierFacts.

Lemma append_inj_length a b x y :
  String.length a = String.length b -> a +:+ x = b +:+ y -> a = b /\ x = y.
Proof.
  revert b. induction a as [|c a IH]; intros [|d b] Hlen H; try discriminate.
  - split; [reflexivity | exact H].
  - rewrite !append_cons in H. injection H as -> H.
    destruct (IH b) as [-> ->]; [now injection Hlen | exact H | now split].
Qed.

Lemma append_inv_tail a b t : a +:+ t = b +:+ t -> a = b.
Proof.
  intros H. apply append_inj_length in H; [tauto|].
  apply (f_equal String.length) in H. rewrite !length_append in H. lia.
Qed.

Lemma digit_inj x y :
  0 <= x < 10 -> 0 <= y < 10 -> Py.digit x = Py.digit y -> x = y.
Proof.
  intros Hx Hy H. unfold Py.digit in H.
  apply (f_equal N_of_ascii) in H.
  rewrite !N_ascii_embedding in H by lia. lia.
Qed.

Ltac divmod := Z.div_mod_to_equations; lia.

Lemma pad2_inj x y :
  0 <= x < 100 -> 0 <= y < 100 -> Py.pad2 x = Py.pad2 y -> x = y.
Proof.
  intros Hx Hy H. unfold Py.pad2 in H. injection H as H1 H2.
  apply digit_inj in H1; [|divmod..].
  apply digit_inj in H2; [|divmod..]. divmod.
Qed.

Lemma pad4_inj x y :
  0 <= x < 10000 -> 0 <= y < 10000 -> Py.pad4 x = Py.pad4 y -> x = y.
Proof.
  intros Hx Hy H. unfold Py.pad4 in H.
  apply append_inj_length in H; [|reflexivity]. destruct H as [H1 H2].
  apply pad2_inj in H1; [|divmod..].
  apply pad2_inj in H2; [|divmod..]. divmod.
Qed.

Lemma pad6_inj x y :
  0 <= x < 1000000 -> 0 <= y < 1000000 -> Py.pad6 x = Py.pad6 y -> x = y.
Proof.
  intros Hx Hy H. unfold Py.pad6 in H.
  apply append_inj_length in H; [|reflexivity]. destruct H as [H1 H2].
  apply pad2_inj in H1; [|divmod..].
  apply pad4_inj in H2; [|divmod..]. divmod.
Qed.

(** Two valid clock readings with the same rendering are the same. *)
Lemma render_datetime_inj sep d1 d2 :
  Py.valid_datetime d1 -> Py.valid_datetime d2 ->
  Py.render_datetime sep d1 = Py.render_datetime sep d2 -> d1 = d2.
Proof.
  destruct d1 as [y1 m1 a1 h1 i1 s1 u1], d2 as [y2 m2 a2 h2 i2 s2 u2].
  unfold Py.valid_datetime, Py.render_datetime.
  cbn [Py.year Py.month Py.day Py.hour Py.minute Py.second Py.microsecond].
  intros (Hy1 & Hm1 & Ha1 & Hh1 & Hi1 & Hs1 & Hu1)
         (Hy2 & Hm2 & Ha2 & Hh2 & Hi2 & Hs2 & Hu2) H.
  apply append_inj_length in H; [|reflexivity]. destruct H as [Ey H].
  apply String.app_inj in H.
  apply append_inj_length in H; [|reflexivity]. destruct H as [Em H].
  apply String.app_inj in H.
  apply append_inj_length in H; [|reflexivity]. destruct H as [Ea H].
  apply String.app_inj in H.
  apply append_inj_length in H; [|reflexivity]. destruct H as [Eh H].
  apply String.app_inj in H.
  apply append_inj_length in H; [|reflexivity]. destruct H as [Ei H].
  apply String.app_inj in H.
  apply append_inj_length in H; [|reflexivity]. destruct H as [Es H].
  apply pad4_inj in Ey; [|lia..]. apply pad2_inj in Em; [|lia..].
  apply pad2_inj in Ea; [|lia..]. apply pad2_inj in Eh; [|lia..].
  apply pad2_inj in Ei; [|lia..]. apply pad2_inj in Es; [|lia..].
  subst. f_equal.
  destruct (Z.eqb_spec u1 0), (Z.eqb_spec u2 0); try congruence;
    try discriminate H.
  apply String.app_inj in H. apply pad6_inj in H; [exact H|lia..].
Qed.

Lemma hex_digit_is_hex n :
  0 <= n < 16 -> is_hex_char (MD5.hex_digit n) = true.
Proof.
  intros H. unfold is_hex_char, MD5.hex_digit.
  destruct (Z.ltb_spec n 10) as [Hd|Hd];
    rewrite N_ascii_embedding by lia; apply orb_true_iff; [left|right];
    apply andb_true_iff; split; apply N.leb_le; lia.
Qed.

Lemma hex_byte_is_hex b rest :
  0 <= b < 256 -> all_hex rest = true -> all_hex (MD5.hex_byte b +:+ rest) = true.
Proof.
  intros Hb Hrest. unfold MD5.hex_byte. rewrite !append_cons, append_nil_l.
  cbn [all_hex]. rewrite !hex_digit_is_hex, Hrest; [reflexivity|divmod..].
Qed.

Lemma hex_word_is_hex w rest :
  all_hex rest = true -> all_hex (MD5.hex_word w +:+ rest) = true.
Proof.
  intros Hrest. unfold MD5.hex_word. rewrite !append_assoc.
  repeat (apply hex_byte_is_hex; [divmod|]).
  exact Hrest.
Qed.

Lemma take_str_hex n s : all_hex s = true -> all_hex (Py.take_str n s) = true.
Proof.
  revert n. induction s as [|c s IH]; intros [|n] H; try reflexivity.
  cbn [all_hex Py.take_str] in *. apply andb_true_iff in H.
  destruct H as [-> H]. now rewrite IH.
Qed.

(** A digest is a text of 32 hexadecimal characters. *)
Lemma hexdigest_shape msg :
  String.length (MD5.hexdigest msg) = 32%nat /\ all_hex (MD5.hexdigest msg) = true.
Proof.
  unfold MD5.hexdigest.
  destruct (MD5.process _ _ _) as [[[a b] c] d]. split.
  - reflexivity.
  - rewrite <- (append_nil_r (MD5.hex_word d)).
    repeat apply hex_word_is_hex. reflexivity.
Qed.

Lemma take_str_length n s :
  (n <= String.length s)%nat -> String.length (Py.take_str n s) = n.
Proof.
  revert n. induction s as [|c s IH]; intros [|n] H; cbn in *;
    try reflexivity; try lia.
  rewrite IH by lia. reflexivity.
Qed.

End IdentifierFacts.

(** C5, the claim as stated: two appends at the same instant with different
    content, and two appends of the same content at different instants,
    that get the same identifier. *)
Lemma C5_identifier_collisions :
  let t := {| Py.year := 2024; Py.month := 1; Py.day := 1; Py.hour := 12;
              Py.minute := 0; Py.second := 0; Py.microsecond := 1 |} in
  let t1 := {| Py.year := 2031; Py.month := 7; Py.day := 23; Py.hour := 18;
               Py.minute := 37; Py.second := 24; Py.microsecond := 796815 |} in
  let t2 := {| Py.year := 2029; Py.month := 8; Py.day := 11; Py.hour := 0;
               Py.minute := 44; Py.second := 12; Py.microsecond := 96894 |} in
  (hashed_content t ["q311cf7fc38a4"; "user123"]
   <> hashed_content t ["q51729b13eff0"; "user123"] /\
   _generate_id t ["q311cf7fc38a4"; "user123"] = "f4a23bd5c9e9" /\
   _generate_id t ["q51729b13eff0"; "user123"] = "f4a23bd5c9e9") /\
  (Py.str_of_datetime t1 = "2031-07-23 18:37:24.796815" /\
   Py.str_of_datetime t2 = "2029-08-11 00:44:12.096894" /\
   _generate_id t1 ["What are KYC requirements?"; "user123"] = "4a03398e2bdc" /\
   _generate_id t2 ["What are KYC requirements?"; "user123"] = "4a03398e2bdc").
Proof.
  intros t t1 t2. split; [split|].
  - intros H. vm_compute in H. discriminate H.
  - split; vm_compute; reflexivity.
  - repeat split; vm_compute; reflexivity.
Qed.

(** C5, amended: the identifier is the first 12 hexadecimal characters of
    the MD5 digest of the content followed by the timestamp; the hashed text
    differs whenever the content differs at one instant and whenever the
    instants differ for one content, and identifiers that differ come from
    hashed texts that differ. *)
Theorem C5_identifier_of_content_and_time :
  forall (now1 now2 : Py.datetime) (args1 args2 : list string),
    Py.valid_datetime now1 -> Py.valid_datetime now2 ->
    _generate_id now1 args1
    = Py.take_str 12 (MD5.hexdigest (Py.encode (hashed_content now1 args1))) /\
    String.length (_generate_id now1 args1) = 12%nat /\
    all_hex (_generate_id now1 args1) = true /\
    (String.concat "" args1 <> String.concat "" args2 -> now1 = now2 ->
     hashed_content now1 args1 <> hashed_content now2 args2) /\
    (String.concat "" args1 = String.concat "" args2 -> now1 <> now2 ->
     hashed_content now1 args1 <> hashed_content now2 args2) /\
    (_generate_id now1 args1 <> _generate_id now2 args2 ->
     hashed_content now1 args1 <> hashed_content now2 args2).
Proof.
  intros now1 now2 args1 args2 Hv1 Hv2.
  destruct (hexdigest_shape (Py.encode (hashed_content now1 args1)))
    as [Hlen Hhex].
  split; [reflexivity|]. split; [|split; [|split; [|split]]].
  - unfold _generate_id. fold (hashed_content now1 args1).
    apply take_str_length. rewrite Hlen. lia.
  - unfold _generate_id. fold (hashed_content now1 args1).
    apply take_str_hex, Hhex.
  - intros Hne -> H. apply Hne. unfold hashed_content in H.
    exact (append_inv_tail _ _ _ H).
  - intros He Hne H. apply Hne. unfold hashed_content in H.
    rewrite He in H. apply String.app_inj in H.
    exact (render_datetime_inj _ _ _ Hv1 Hv2 H).
  - intros Hne H. apply Hne. unfold _generate_id.
    fold (hashed_content now1 args1) (hashed_content now2 args2).
    now rewrite H.
Qed.

(** The amended statement at two appends of one query a microsecond apart. *)
Lemma C5_identifier_of_content_and_time_witness :
  let t1 := {| Py.year := 2024; Py.month := 1; Py.day := 1; Py.hour := 12;
               Py.minute := 0; Py.second := 0; Py.microsecond := 1 |} in
  let t2 := {| Py.year := 2024; Py.month := 1; Py.day := 1; Py.hour := 12;
               Py.minute := 0; Py.second := 0; Py.microsecond := 2 |} in
  String.length (_generate_id t1 ["What are KYC requirements?"; "user123"])
  = 12%nat.
Proof.
  intros t1 t2.
  refine (proj1 (proj2
    (C5_identifier_of_content_and_time t1 t2
       ["What are KYC requirements?"; "user123"]
       ["What are KYC requirements?"; "user123"] _ _)));
    unfold Py.valid_datetime; cbn; lia.
Defined.

(** ** compliance_dashboard.py *)

Section DashboardFacts.
Import ComplianceDashboard.

Lemma round_half_even_comp (x y : Q) :
  x == y -> Py.round_half_even x = Py.round_half_even y.
Proof.
  intros H. unfold Py.round_half_even.
  rewrite (Qfloor_comp _ _ H).
  assert (x - inject_Z (Qfloor y) == y - inject_Z (Qfloor y))%Q as H'
    by (rewrite H; reflexivity).
  rewrite (Qcompare_comp _ _ H' _ _ (Qeq_refl (1 # 2))). reflexivity.
Qed.

(** [round] does not depend on how a rational is written. *)
Lemma round_comp (x y : Q) (n : nat) : x == y -> Py.round x n = Py.round y n.
Proof.
  intros H. unfold Py.round. f_equal. f_equal.
  apply round_half_even_comp. rewrite H. reflexivity.
Qed.


Lemma Qgeb_false (x y : Q) : Py.Qgeb x y = false <-> (x < y)%Q.
Proof.
  rewrite Qgeb_dec. destruct (Qlt_le_dec x y) as [H|H].
  - tauto.
  - split; [discriminate|]. intros H'. exfalso. exact (Qlt_not_le _ _ H' H).
Qed.


(** The three possible contributions, unavailable ones left out. *)
Lemma score_components_sum coverage query_stats now :
  exists total : Q,
    (total == spec_overall coverage query_stats)%Q /\
    overall_score (score_reports coverage query_stats now) = Py.round total 1 /\
    status (score_reports coverage query_stats now)
    = (if Py.Qgeb total 80 then ("EXCELLENT", "green")
       else if Py.Qgeb total 60 then ("GOOD", "yellow")
       else if Py.Qgeb total 40 then ("FAIR", "orange")
       else ("NEEDS IMPROVEMENT", "red")).1.
Proof.
  unfold score_reports, spec_overall, spec_coverage_average.
  destruct (coverage_percentage coverage) as [[|p ps]|],
    (avg_confidence_score query_stats) as [c|],
    (avg_risk_score query_stats) as [k|];
    cbv zeta; cbn [overall_score status app option_map spec_weighted];
    (eexists; split; [|split; reflexivity]);
    unfold sum_Q; cbn [fold_left]; ring.
Qed.

(** With coverage percentages at hand, each name holds its own component,
    zero for the ones that are unavailable. *)
Lemma components_with_coverage coverage query_stats now p ps :
  coverage_percentage coverage = Some (p :: ps) ->
  let r := score_reports coverage query_stats now in
  (exists a, spec_coverage_average coverage = Some a /\
             document_coverage r = Py.round (a * 0.4) 1) /\
  (avg_risk_score query_stats = None \/ avg_confidence_score query_stats <> None ->
   (query_confidence r
    == Py.round (spec_weighted 0.3
         (option_map (fun c => c * 100) (avg_confidence_score query_stats))) 1)%Q /\
   (risk_management r
    == Py.round (spec_weighted 0.3
         (option_map (fun k => 100 - k) (avg_risk_score query_stats))) 1)%Q).
Proof.
  intros Hcov. unfold score_reports, spec_coverage_average. rewrite Hcov.
  destruct (avg_confidence_score query_stats) as [c|],
    (avg_risk_score query_stats) as [k|];
    (split; [eexists; split; reflexivity|]);
    intros [H|H]; try congruence;
    cbv zeta; cbn [query_confidence risk_management app component nth
                   option_map spec_weighted];
    split; try reflexivity; (erewrite round_comp; [reflexivity|ring]).
Qed.

End DashboardFacts.

Import ComplianceDashboard.

(** C8, in the states where the document index gives no coverage
    percentages while queries have been logged: the name [document_coverage]
    holds the weighted confidence component, the name [query_confidence] the
    weighted inverse-risk component, and [risk_management] holds zero. *)
Theorem C8_components_shift_without_coverage :
  forall (self : dashboard) (now_coverage now : Py.datetime)
         (query_stats : query_statistics) (c k : Q),
    get_query_statistics self = Py.Ok query_stats ->
    coverage_percentage (get_document_coverage self now_coverage) = None ->
    avg_confidence_score query_stats = Some c ->
    avg_risk_score query_stats = Some k ->
    exists r,
      get_compliance_score self now_coverage now = Py.Ok r /\
      document_coverage r = Py.round (c * 100 * 0.3) 1 /\
      query_confidence r = Py.round ((100 - k) * 0.3) 1 /\
      risk_management r = Py.round 0 1.
Proof.
  intros self now_coverage now query_stats c k Hqs Hcov Hc Hk.
  unfold get_compliance_score. rewrite Hqs. cbn [Py.bind].
  eexists. split; [reflexivity|].
  unfold score_reports. rewrite Hcov, Hc, Hk. cbv zeta.
  cbn [document_coverage query_confidence risk_management app component nth].
  repeat split; reflexivity.
Qed.

(** An empty document index and one logged query of confidence 0.9 and risk
    20: the report says document_coverage 27.0, query_confidence 24.0 and
    risk_management 0.0. *)
Lemma C8_components_shift_without_coverage_witness :
  let self :=
    {| collection_get := Py.Ok [];
       audit_logger := Some (history_api [scored_query 0.9 20]) |} in
  exists r,
    get_compliance_score self clock0 clock0 = Py.Ok r /\
    (document_coverage r == 27)%Q /\
    (query_confidence r == 24)%Q /\
    (risk_management r == 0)%Q.
Proof.
  intros self.
  destruct (C8_components_shift_without_coverage self clock0 clock0
              {| qs_error := None;
                 qs_statistics :=
                   Some {| total_queries := 1; total_access_logs := 0;
                           total_alerts := 0; total_documents_processed := 0;
                           recent_high_severity_alerts := 0;
                           last_updated := Py.isoformat clock0 |};
                 avg_confidence_score := Some (Py.round (0 + 0.9 / 1) 2);
                 avg_risk_score := Some (Py.round (0 + 20 / 1) 2);
                 high_risk_queries := Some 0;
                 recent_query_count := Some 1 |}
              (Py.round (0 + 0.9 / 1) 2) (Py.round (0 + 20 / 1) 2)
              eq_refl eq_refl eq_refl eq_refl) as (r & Hr & Hd & Hq & Hm).
  exists r. split; [exact Hr|].
  rewrite Hd, Hq, Hm. repeat split; vm_compute; reflexivity.
Defined.

(** ** performance_monitor.py *)

Section PerformanceFacts.
Import PerformanceMonitor.

Lemma insert_sorted_perm x l : Permutation (Py.insert_sorted x l) (x :: l).
Proof.
  induction l as [|y l IH]; cbn [Py.insert_sorted]; [reflexivity|].
  destruct (Qle_bool x y); [reflexivity|].
  rewrite IH. apply perm_swap.
Qed.

(** [sorted] rearranges its argument... *)
Lemma sorted_perm l : Permutation (Py.sorted l) l.
Proof.
  induction l as [|x l IH]; cbn [Py.sorted]; [reflexivity|].
  rewrite insert_sorted_perm. now apply perm_skip.
Qed.

Lemma sorted_length l : length (Py.sorted l) = length l.
Proof. apply Permutation_length, sorted_perm. Qed.

Lemma insert_sorted_Forall (P : Q -> Prop) x l :
  P x -> Forall P l -> Forall P (Py.insert_sorted x l).
Proof.
  intros Hx Hl. induction Hl as [|y l Hy Hl IH]; cbn [Py.insert_sorted].
  - repeat constructor. exact Hx.
  - destruct (Qle_bool x y); repeat constructor; assumption.
Qed.

Lemma insert_sorted_sorted x l :
  StronglySorted Qle l -> StronglySorted Qle (Py.insert_sorted x l).
Proof.
  intros H. induction H as [|y l Hl IH Hy]; cbn [Py.insert_sorted].
  - repeat constructor.
  - destruct (Qle_bool x y) eqn:E.
    + apply Qle_bool_iff in E. constructor; [now constructor|].
      constructor; [exact E|].
      eapply List.Forall_impl; [|exact Hy].
      intros z Hz. exact (Qle_trans _ _ _ E Hz).
    + constructor; [exact IH|].
      apply insert_sorted_Forall; [|exact Hy].
      destruct (Qlt_le_dec y x) as [Hlt|Hle].
      * apply Qlt_le_weak, Hlt.
      * apply Qle_bool_iff in Hle. congruence.
Qed.

(** ... in ascending order. *)
Lemma sorted_sorted l : StronglySorted Qle (Py.sorted l).
Proof.
  induction l as [|x l IH]; cbn [Py.sorted]; [constructor|].
  apply insert_sorted_sorted, IH.
Qed.

(** The index expression, evaluated exactly, is a floor. *)
Lemma int_of_Q_percent (percentile n : Z) :
  0 <= percentile -> 0 <= n ->
  Py.int_of_Q (inject_Z percentile / 100 * inject_Z n) = percentile * n / 100.
Proof.
  intros Hp Hn. unfold Py.int_of_Q.
  destruct (Qlt_le_dec _ 0) as [Hneg|_].
  - exfalso. revert Hneg. apply Qle_not_lt.
    unfold Qle. cbn. nia.
  - unfold Qfloor. cbn. f_equal. lia.
Qed.

Lemma getitem_in_range {A} (l : list A) (i : Z) (d : A) :
  0 <= i < Z.of_nat (length l) ->
  Py.getitem l i = Py.Ok (nth (Z.to_nat i) l d).
Proof.
  intros H. unfold Py.getitem.
  destruct (Z.ltb_spec i 0); [lia|].
  destruct (Z.leb_spec 0 i); [|lia].
  destruct (Z.ltb_spec i (Z.of_nat (length l))); [|lia]. cbn [andb].
  destruct (nth_error l (Z.to_nat i)) as [x|] eqn:E.
  - now rewrite (nth_error_nth _ _ d E).
  - apply nth_error_None in E. lia.
Qed.

Lemma spec_rank_range (percentile count : Z) :
  0 <= percentile -> 0 < count -> 0 <= spec_rank percentile count < count.
Proof.
  intros Hp Hc. unfold spec_rank.
  assert (0 <= percentile * count / 100) by (apply Z.div_pos; nia). lia.
Qed.

(** The value that [_percentile] picks from a non-empty window. *)
Lemma _percentile_rank (data : list Q) (percentile : Z) :
  data <> [] -> 0 <= percentile ->
  _percentile data percentile
  = Py.Ok (nth (Z.to_nat (spec_rank percentile (Z.of_nat (length data))))
             (Py.sorted data) 0%Q).
Proof.
  intros Hne Hp. unfold _percentile. destruct data as [|x data]; [congruence|].
  cbv zeta. rewrite sorted_length, int_of_Q_percent by lia.
  fold (spec_rank percentile (Z.of_nat (length (x :: data)))).
  apply getitem_in_range. rewrite sorted_length.
  apply spec_rank_range; [exact Hp|]. cbn [length]. lia.
Qed.

Lemma In_range (k : nat) (start n : Z) :
  start <= n < start + Z.of_nat k -> In n (Py.range k start).
Proof.
  revert start. induction k as [|k IH]; intros start H; [lia|].
  cbn [Py.range]. destruct (Z.eq_dec start n) as [->|Hne]; [now left|].
  right. apply IH. lia.
Qed.

(** Binary64 arithmetic evaluates the index expression to the same floor
    on every window of up to 10000 samples. *)
Lemma float_index_agrees (n : Z) :
  1 <= n <= 10000 ->
  float_index 95 n = 95 * n / 100 /\ float_index 99 n = 99 * n / 100.
Proof.
  intros H.
  assert (forallb (fun n => (float_index 95 n =? 95 * n / 100)
                            && (float_index 99 n =? 99 * n / 100))
            (Py.range (Z.to_nat 10000) 1) = true) as Hall
    by (vm_compute; reflexivity).
  rewrite forallb_forall in Hall.
  assert (In n (Py.range (Z.to_nat 10000) 1)) as Hin by (apply In_range; lia).
  specialize (Hall n Hin).
  apply andb_true_iff in Hall. destruct Hall as [H1 H2].
  split; now apply Z.eqb_eq.
Qed.

End PerformanceFacts.

Import PerformanceMonitor.

(** C9: for a non-empty window of query times, the 95th and 99th
    percentiles reported by [get_metrics] are the values of the
    ascending-sorted samples at index min(floor(p/100 x count), count - 1),
    rounded to three decimals as every reported statistic; on the window
    1, ..., 100 they are 96 and 100, the values at the sorted indices 95 and
    99. *)
Theorem C9_percentiles_nearest_rank :
  forall (self : monitor) (uptime : Q) (now : Py.datetime),
    query_times self <> [] ->
    let s := Py.sorted (query_times self) in
    let n := Z.of_nat (length (query_times self)) in
    StronglySorted Qle s /\ Permutation s (query_times self) /\
    0 <= spec_rank 95 n < n /\ 0 <= spec_rank 99 n < n /\
    (exists m qt,
        get_metrics self uptime now = Py.Ok m /\
        query_time m = Some qt /\
        p95 qt = Py.round (nth (Z.to_nat (spec_rank 95 n)) s 0%Q) 3 /\
        p99 qt = Py.round (nth (Z.to_nat (spec_rank 99 n)) s 0%Q) 3) /\
    query_times example_monitor = example_window /\
    spec_rank 95 100 = 95 /\ spec_rank 99 100 = 99 /\
    _percentile example_window 95 = Py.Ok 96%Q /\
    _percentile example_window 99 = Py.Ok 100%Q.
Proof.
  intros self uptime now Hne s n.
  assert (Hn : 0 < n).
  { subst n. destruct (query_times self); [congruence|]. cbn [length]. lia. }
  split; [apply sorted_sorted|]. split; [apply sorted_perm|].
  split; [apply spec_rank_range; lia|]. split; [apply spec_rank_range; lia|].
  split.
  - unfold get_metrics.
    rewrite !_percentile_rank by (assumption || lia). fold s n.
    destruct (query_times self) as [|x data] eqn:E; [congruence|].
    cbn [Py.bind]. eexists. eexists.
    split; [reflexivity|]. split; [reflexivity|]. split; reflexivity.
  - repeat split; vm_compute; reflexivity.
Qed.

(** The window 1, ..., 100: the reported percentiles are 96 and 100. *)
Lemma C9_percentiles_nearest_rank_witness :
  exists m qt,
    get_metrics example_monitor 60 ComplianceDashboard.clock0 = Py.Ok m /\
    query_time m = Some qt /\ (p95 qt == 96)%Q /\ (p99 qt == 100)%Q.
Proof.
  destruct (C9_percentiles_nearest_rank example_monitor 60
              ComplianceDashboard.clock0 ltac:(vm_compute; discriminate))
    as (_ & _ & _ & _ & (m & qt & Hm & Hq & H95 & H99) & _).
  exists m, qt. split; [exact Hm|]. split; [exact Hq|].
  rewrite H95, H99. split; vm_compute; reflexivity.
Defined.

(** * Further properties

    Properties of the four modules beyond the ones above: edge cases,
    invariants and the way the operations compose. *)

(** ** Rounding *)

Section RoundingFacts.

Lemma Qfloor_bounds (q : Q) :
  (inject_Z (Qfloor q) <= q)%Q /\ (q < inject_Z (Qfloor q) + 1)%Q.
Proof.
  split; [apply Qfloor_le|].
  pose proof (Qlt_floor q) as H. rewrite inject_Z_plus in H. exact H.
Qed.

(** Rounding picks the floor or the next integer. *)
Lemma round_half_even_cases (q : Q) :
  Py.round_half_even q = Qfloor q /\ (q - inject_Z (Qfloor q) <= 1 # 2)%Q \/
  Py.round_half_even q = Qfloor q + 1 /\ (1 # 2 <= q - inject_Z (Qfloor q))%Q.
Proof.
  unfold Py.round_half_even. cbv zeta.
  destruct (Qcompare_spec (q - inject_Z (Qfloor q)) (1 # 2)) as [H|H|H].
  - destruct (Z.even (Qfloor q)); [left|right]; (split; [reflexivity|]);
      rewrite H; apply Qle_refl.
  - left. split; [reflexivity | apply Qlt_le_weak, H].
  - right. split; [reflexivity | apply Qlt_le_weak, H].
Qed.

Lemma round_half_even_mono (x y : Q) :
  (x <= y)%Q -> Py.round_half_even x <= Py.round_half_even y.
Proof.
  intros Hxy.
  pose proof (Qfloor_resp_le _ _ Hxy) as Hf.
  destruct (Z.eq_dec (Qfloor x) (Qfloor y)) as [E|NE].
  - unfold Py.round_half_even. cbv zeta. rewrite E.
    destruct (Qcompare_spec (x - inject_Z (Qfloor y)) (1 # 2)) as [Hx|Hx|Hx],
             (Qcompare_spec (y - inject_Z (Qfloor y)) (1 # 2)) as [Hy|Hy|Hy];
      try lia; try (destruct (Z.even (Qfloor y)); lia); exfalso; lra.
  - destruct (round_half_even_cases x) as [[-> _]|[-> _]],
             (round_half_even_cases y) as [[-> _]|[-> _]]; lia.
Qed.

Lemma round_half_even_Z (z : Z) : Py.round_half_even (inject_Z z) = z.
Proof.
  unfold Py.round_half_even. cbv zeta. rewrite Qfloor_Z.
  destruct (Qcompare_spec (inject_Z z - inject_Z z) (1 # 2)) as [H|H|H];
    try reflexivity; exfalso; lra.
Qed.

Lemma pow10_pos (n : nat) : 0 < 10 ^ Z.of_nat n.
Proof. apply Z.pow_pos_nonneg; lia. Qed.

Lemma inject_Z_pos (z : Z) : 0 < z -> (0 < inject_Z z)%Q.
Proof. intros H. change 0%Q with (inject_Z 0). now rewrite <- Zlt_Qlt. Qed.

(** [round] is monotone... *)
Lemma round_mono (x y : Q) (n : nat) :
  (x <= y)%Q -> (Py.round x n <= Py.round y n)%Q.
Proof.
  intros H. unfold Py.round. cbv zeta.
  pose proof (inject_Z_pos _ (pow10_pos n)) as Hp.
  apply Qle_shift_div_l; [exact Hp|].
  unfold Qdiv. rewrite <- Qmult_assoc, (Qmult_comm (/ _)), Qmult_inv_r, Qmult_1_r
    by (intros E; rewrite E in Hp; exact (Qlt_irrefl _ Hp)).
  rewrite <- Zle_Qle. apply round_half_even_mono.
  apply Qmult_le_compat_r; [exact H | apply Qlt_le_weak, Hp].
Qed.

(** ... and keeps the integers. *)
Lemma round_Z (z : Z) (n : nat) : (Py.round (inject_Z z) n == inject_Z z)%Q.
Proof.
  unfold Py.round. cbv zeta.
  pose proof (inject_Z_pos _ (pow10_pos n)) as Hp.
  rewrite (round_half_even_comp _ (inject_Z (z * 10 ^ Z.of_nat n)))
    by (rewrite inject_Z_mult; reflexivity).
  rewrite round_half_even_Z, inject_Z_mult.
  field. intros E. rewrite E in Hp. exact (Qlt_irrefl _ Hp).
Qed.

Lemma round_between (a b : Z) (x : Q) (n : nat) :
  (inject_Z a <= x)%Q -> (x <= inject_Z b)%Q ->
  (inject_Z a <= Py.round x n)%Q /\ (Py.round x n <= inject_Z b)%Q.
Proof.
  intros Ha Hb. split.
  - rewrite <- (round_Z a n). now apply round_mono.
  - rewrite <- (round_Z b n). now apply round_mono.
Qed.

End RoundingFacts.

(** ** risk_scoring.py *)

Import RiskScoring.

Section RiskMore.

(** An occurrence in a text is an occurrence in every text around it. *)
Lemma contains_extend (k pre s post : string) :
  Py.contains k s = true -> Py.contains k (pre +:+ s +:+ post) = true.
Proof.
  rewrite !contains_spec. intros (a & b & ->).
  exists (pre +:+ a), (b +:+ post). now rewrite !append_assoc.
Qed.

Lemma contains_trans (k1 k2 s : string) :
  Py.contains k1 k2 = true -> Py.contains k2 s = true ->
  Py.contains k1 s = true.
Proof.
  intros H1 H2. apply contains_spec in H2. destruct H2 as (pre & post & ->).
  now apply contains_extend.
Qed.

Lemma filter_length_le {A} (f g : A -> bool) (l : list A) :
  (forall x, f x = true -> g x = true) ->
  (length (List.filter f l) <= length (List.filter g l))%nat.
Proof.
  intros H. induction l as [|x l IH]; cbn [List.filter]; [lia|].
  destruct (f x) eqn:E.
  - rewrite (H x E). cbn [length]. lia.
  - destruct (g x); cbn [length]; lia.
Qed.

Lemma filter_length_bound {A} (f : A -> bool) (l : list A) :
  (length (List.filter f l) <= length l)%nat.
Proof.
  induction l as [|x l IH]; cbn [List.filter]; [lia|].
  destruct (f x); cbn [length]; lia.
Qed.

Lemma keywords_found_length query :
  length (keywords_found (analyze_query_risk query))
  = (length (spec_matched HIGH_RISK_KEYWORDS query)
     + length (spec_matched MEDIUM_RISK_KEYWORDS query))%nat.
Proof. rewrite analyze_query_risk_found. apply length_app. Qed.

End RiskMore.

Section RuleFacts.
Variable td : transaction_data.

Lemma amount_rule :
  (spec_amount_points td = 0 /\ spec_amount_flag td = [] /\
   (default 0 (td_amount td) < 10000)%Q \/
   spec_amount_points td = 20 /\ length (spec_amount_flag td) = 1%nat /\
   (10000 <= default 0 (td_amount td))%Q /\ (default 0 (td_amount td) < 50000)%Q \/
   spec_amount_points td = 35 /\ length (spec_amount_flag td) = 1%nat /\
   (50000 <= default 0 (td_amount td))%Q).
Proof.
  unfold spec_amount_points, spec_amount_flag, spec_amount.
  destruct (Qlt_le_dec (default 0%Q (td_amount td)) 50000),
           (Qlt_le_dec (default 0%Q (td_amount td)) 10000); auto 10.
Qed.

Lemma velocity_rule :
  (spec_velocity_points td = 0 /\ spec_velocity_flag td = [] /\
   default 0 (td_count_24h td) <= 10 \/
   spec_velocity_points td = 15 /\ length (spec_velocity_flag td) = 1%nat /\
   10 < default 0 (td_count_24h td) <= 20 \/
   spec_velocity_points td = 30 /\ length (spec_velocity_flag td) = 1%nat /\
   20 < default 0 (td_count_24h td)).
Proof.
  unfold spec_velocity_points, spec_velocity_flag, spec_count.
  repeat case_decide; first [left; repeat split; (reflexivity || lia)
                            | right; left; repeat split; (reflexivity || lia)
                            | right; right; repeat split; (reflexivity || lia)].
Qed.

Lemma country_rule :
  (spec_country_points td = 0 /\ spec_country_flag td = [] /\
   default "" (td_country td) ∉ HIGH_RISK_COUNTRIES \/
   spec_country_points td = 25 /\ length (spec_country_flag td) = 1%nat /\
   default "" (td_country td) ∈ HIGH_RISK_COUNTRIES).
Proof.
  unfold spec_country_points, spec_country_flag, spec_country.
  case_decide; [right|left]; repeat split; (reflexivity || assumption).
Qed.

Lemma cash_rule :
  (spec_cash_points td = 0 /\ spec_cash_flag td = [] /\
   td_is_cash td <> Some true \/
   spec_cash_points td = 15 /\ length (spec_cash_flag td) = 1%nat /\
   td_is_cash td = Some true).
Proof.
  unfold spec_cash_points, spec_cash_flag.
  case_decide; [right|left]; repeat split; (reflexivity || assumption).
Qed.

Lemma corporate_rule :
  (spec_corporate_points td = 0 /\ spec_corporate_flag td = [] \/
   spec_corporate_points td = 10 /\ length (spec_corporate_flag td) = 1%nat /\
   (default 0 (td_amount td) < 1000)%Q).
Proof.
  unfold spec_corporate_points, spec_corporate_flag, spec_amount.
  case_decide; [|left; split; reflexivity].
  destruct (Qlt_le_dec (default 0%Q (td_amount td)) 1000); [right|left]; repeat split;
    (reflexivity || assumption).
Qed.

End RuleFacts.

(** X1: for a customer that is not corporate the transaction score never goes
    down when the amount or the 24-hour count goes up or the transaction
    becomes a cash one; for a corporate customer, an amount that goes from
    below 1,000 to between 1,000 and 10,000 takes 10 points off. *)
Theorem X1_transaction_risk_monotone :
  forall (now : Py.datetime) (td td' : transaction_data),
    td_country td' = td_country td ->
    td_customer_type td' = td_customer_type td ->
    (default 0 (td_amount td) <= default 0 (td_amount td'))%Q ->
    default 0 (td_count_24h td) <= default 0 (td_count_24h td') ->
    (td_is_cash td = Some true -> td_is_cash td' = Some true) ->
    (td_customer_type td <> Some "corporate" ->
     risk_score (calculate_transaction_risk now td)
     <= risk_score (calculate_transaction_risk now td')) /\
    (td_customer_type td = Some "corporate" ->
     (default 0 (td_amount td) < 1000)%Q ->
     (1000 <= default 0 (td_amount td'))%Q ->
     (default 0 (td_amount td') < 10000)%Q ->
     td_count_24h td' = td_count_24h td -> td_is_cash td' = td_is_cash td ->
     risk_score (calculate_transaction_risk now td')
     = risk_score (calculate_transaction_risk now td) - 10).
Proof.
  intros now td td' Hcountry Htype Hamount Hcount Hcash.
  destruct (calculate_transaction_risk_rules now td) as [-> _].
  destruct (calculate_transaction_risk_rules now td') as [-> _].
  unfold spec_transaction_score.
  assert (Hpc : spec_country_points td' = spec_country_points td).
  { unfold spec_country_points, spec_country. now rewrite Hcountry. }
  rewrite Hpc. split.
  - intros Hnc.
    assert (Hpa : spec_amount_points td <= spec_amount_points td').
    { destruct (amount_rule td) as [(-> & _ & Ha)|[(-> & _ & Ha & Ha')|(-> & _ & Ha)]];
      destruct (amount_rule td') as [(-> & _ & Hb)|[(-> & _ & Hb & Hb')|(-> & _ & Hb)]];
        try lia; exfalso; lra. }
    assert (Hpv : spec_velocity_points td <= spec_velocity_points td').
    { destruct (velocity_rule td) as [(-> & _ & Ha)|[(-> & _ & Ha)|(-> & _ & Ha)]];
      destruct (velocity_rule td') as [(-> & _ & Hb)|[(-> & _ & Hb)|(-> & _ & Hb)]];
        lia. }
    assert (Hph : spec_cash_points td <= spec_cash_points td').
    { destruct (cash_rule td) as [(-> & _ & Ha)|(-> & _ & Ha)];
      destruct (cash_rule td') as [(-> & _ & Hb)|(-> & _ & Hb)];
        try lia. exfalso. exact (Hb (Hcash Ha)). }
    assert (Hpo : spec_corporate_points td = 0 /\ spec_corporate_points td' = 0).
    { unfold spec_corporate_points. rewrite Htype.
      destruct (decide (td_customer_type td = Some "corporate")); [contradiction|].
      split; reflexivity. }
    destruct Hpo as [-> ->]. lia.
  - intros Hc Hlow Hmid Hmid' Hcount' Hcash'.
    assert (Hpv : spec_velocity_points td' = spec_velocity_points td).
    { unfold spec_velocity_points, spec_count. now rewrite Hcount'. }
    assert (Hph : spec_cash_points td' = spec_cash_points td).
    { unfold spec_cash_points. now rewrite Hcash'. }
    rewrite Hpv, Hph.
    assert (Hpa : spec_amount_points td = 0 /\ spec_amount_points td' = 0).
    { destruct (amount_rule td) as [(-> & _ & Ha)|[(-> & _ & Ha & Ha')|(-> & _ & Ha)]];
      destruct (amount_rule td') as [(-> & _ & Hb)|[(-> & _ & Hb & Hb')|(-> & _ & Hb)]];
        try (split; reflexivity); exfalso; lra. }
    assert (Hpo : spec_corporate_points td = 10 /\ spec_corporate_points td' = 0).
    { unfold spec_corporate_points, spec_amount. rewrite Htype.
      destruct (decide (td_customer_type td = Some "corporate")); [|contradiction].
      destruct (Qlt_le_dec (default 0%Q (td_amount td)) 1000);
        destruct (Qlt_le_dec (default 0%Q (td_amount td')) 1000);
        try (split; reflexivity); exfalso; lra. }
    destruct Hpa as [-> ->], Hpo as [-> ->].
    destruct (velocity_rule td) as [(-> & _)|[(-> & _)|(-> & _)]];
    destruct (cash_rule td) as [(-> & _)|(-> & _)];
    unfold spec_country_points; case_decide; lia.
Qed.

(** Monotonicity at the scenario's transaction with a 24-hour count of 25
    in place of 15. *)
Lemma X1_transaction_risk_monotone_witness :
  risk_score (calculate_transaction_risk ComplianceDashboard.clock0
                example_transaction)
  <= risk_score (calculate_transaction_risk ComplianceDashboard.clock0
                   {| td_amount := Some (55000 : Q);
                      td_currency := None;
                      td_country := Some "Iran";
                      td_count_24h := Some 25;
                      td_customer_type := Some "individual";
                      td_is_cash := Some true |}).
Proof.
  refine (proj1 (X1_transaction_risk_monotone ComplianceDashboard.clock0
                   example_transaction _ _ _ _ _ _) _).
  - reflexivity.
  - reflexivity.
  - cbn. apply Qle_refl.
  - cbn. lia.
  - intros _. reflexivity.
  - cbn. discriminate.
Defined.

(** X2: every rule that fires leaves one flag and between 10 and 35 points:
    there are no flags exactly when the score is 0, at most four rules fire
    together, and the cap of 100 is reached only by a cash transaction of at
    least 50,000 with more than 20 transactions in 24 hours in a high-risk
    country. *)
Theorem X2_transaction_flags_and_score :
  forall (now : Py.datetime) (td : transaction_data),
    let r := calculate_transaction_risk now td in
    (risk_score r = 0 <-> flags r = []) /\
    (length (flags r) <= 4)%nat /\
    10 * Z.of_nat (length (flags r)) <= risk_score r
      <= 35 * Z.of_nat (length (flags r)) /\
    (risk_score r = 100 <->
     (50000 <= default 0 (td_amount td))%Q /\
     20 < default 0 (td_count_24h td) /\
     default "" (td_country td) ∈ HIGH_RISK_COUNTRIES /\
     td_is_cash td = Some true).
Proof.
  intros now td r.
  destruct (calculate_transaction_risk_rules now td) as [Hs Hf].
  fold r in Hs, Hf. rewrite Hs.
  assert (Hnil : flags r = [] <-> length (flags r) = 0%nat).
  { destruct (flags r); cbn; split; (congruence || lia). }
  rewrite Hnil, Hf, !length_app. unfold spec_transaction_score.
  destruct (amount_rule td) as [(-> & -> & Ha)|[(-> & -> & Ha & Ha')|(-> & -> & Ha)]];
  destruct (velocity_rule td) as [(-> & -> & Hv)|[(-> & -> & Hv)|(-> & -> & Hv)]];
  destruct (country_rule td) as [(-> & -> & Hc)|(-> & -> & Hc)];
  destruct (cash_rule td) as [(-> & -> & Hh)|(-> & -> & Hh)];
  destruct (corporate_rule td) as [(-> & ->)|(-> & -> & Ho)];
  cbn [length]; try (exfalso; lra);
  (split; [lia|]); (split; [lia|]); (split; [lia|]);
  (split; [intros Hx; first [lia | repeat split; assumption]
          | intros (Hx1 & Hx2 & Hx3 & Hx4);
            first [reflexivity | lia | contradiction | exfalso; lra]]).
Qed.

Section QueryFacts.

Lemma spec_matched_extend tier pre query post :
  (length (spec_matched tier query)
   <= length (spec_matched tier (pre +:+ query +:+ post)))%nat.
Proof.
  unfold spec_matched. apply filter_length_le. intros k Hk.
  rewrite !lower_append. now apply contains_extend.
Qed.

Lemma query_score_alert query :
  requires_alert (analyze_query_risk query) = true
  <-> 50 <= 15 * Z.of_nat (length (spec_matched HIGH_RISK_KEYWORDS query))
            + 8 * Z.of_nat (length (spec_matched MEDIUM_RISK_KEYWORDS query)).
Proof.
  destruct (analyze_query_risk_level query) as (Ha & _).
  rewrite Ha, analyze_query_risk_score. unfold spec_query_score. lia.
Qed.

Lemma two_matches (f : string -> bool) (l : list string) (x y : string) :
  x <> y -> In x l -> In y l -> f x = true -> f y = true ->
  (2 <= length (List.filter f l))%nat.
Proof.
  intros Hxy Hx Hy Fx Fy.
  change 2%nat with (length [x; y]).
  apply List.NoDup_incl_length.
  - constructor; [intros [H|[]]; congruence|]. constructor; [intros []|constructor].
  - intros z [<-|[<-|[]]]; apply List.filter_In; split; assumption.
Qed.

End QueryFacts.

(** X3: text added before or after a query never lowers its risk score: every
    keyword found in the query is found in the longer one, and a query that
    requires an alert still requires it. *)
Theorem X3_query_risk_grows_with_text :
  forall pre query post : string,
    let r := analyze_query_risk query in
    let r' := analyze_query_risk (pre +:+ query +:+ post) in
    qr_risk_score r <= qr_risk_score r' /\
    (forall k, k ∈ keywords_found r -> k ∈ keywords_found r') /\
    (requires_alert r = true -> requires_alert r' = true).
Proof.
  intros pre query post r r'.
  pose proof (spec_matched_extend HIGH_RISK_KEYWORDS pre query post) as Hh.
  pose proof (spec_matched_extend MEDIUM_RISK_KEYWORDS pre query post) as Hm.
  split; [|split].
  - subst r r'. rewrite !analyze_query_risk_score. unfold spec_query_score. lia.
  - intros k. subst r r'. rewrite !analyze_query_risk_found, !spec_matched_app.
    rewrite !spec_matched_elem. intros [Hk Hc]. split; [exact Hk|].
    rewrite !lower_append. now apply contains_extend.
  - subst r r'. rewrite !query_score_alert. lia.
Qed.

(** X4: keywords are matched as substrings, so a query that mentions money
    laundering matches both "money laundering" and "laundering": it scores at
    least 30 and is never of LOW risk. *)
Theorem X4_money_laundering_counts_twice :
  forall query : string,
    let r := analyze_query_risk query in
    "money laundering" ∈ keywords_found r ->
    "laundering" ∈ keywords_found r /\
    30 <= qr_risk_score r /\ qr_risk_level r <> "LOW".
Proof.
  intros query r Hin. subst r.
  rewrite analyze_query_risk_found, spec_matched_app in Hin.
  apply spec_matched_elem in Hin. destruct Hin as [_ Hc].
  assert (Hl : Py.contains "laundering" (Py.lower query) = true).
  { apply (contains_trans _ "money laundering"); [reflexivity | exact Hc]. }
  assert (Hlen : (2 <= length (spec_matched HIGH_RISK_KEYWORDS query))%nat).
  { unfold spec_matched.
    apply (two_matches _ _ "laundering" "money laundering");
      [discriminate | cbn; tauto | cbn; tauto | exact Hl | exact Hc]. }
  assert (Hs : 30 <= qr_risk_score (analyze_query_risk query)).
  { rewrite analyze_query_risk_score. unfold spec_query_score. lia. }
  split; [|split; [exact Hs|]].
  - rewrite analyze_query_risk_found, spec_matched_app.
    apply spec_matched_elem. split; [|exact Hl].
    apply list_elem_of_In. cbn. tauto.
  - destruct (analyze_query_risk_level query) as (_ & _ & _ & Hlow).
    rewrite Hlow. lia.
Qed.

(** A query about money laundering rules. *)
Lemma X4_money_laundering_counts_twice_witness :
  "laundering" ∈ keywords_found
                   (analyze_query_risk "What are the anti money laundering rules?").
Proof.
  refine (proj1 (X4_money_laundering_counts_twice
                   "What are the anti money laundering rules?" _)).
  vm_compute. apply list_elem_of_In. cbn. tauto.
Defined.

(** X5: an alert needs at least four risk keywords in the query, seven
    keywords always raise one, and a query with at most one keyword is of LOW
    risk; there are 21 keywords in all. *)
Theorem X5_alert_needs_four_keywords :
  forall query : string,
    let r := analyze_query_risk query in
    let found := Z.of_nat (length (keywords_found r)) in
    0 <= found <= 21 /\
    (requires_alert r = true -> 4 <= found) /\
    (7 <= found -> requires_alert r = true) /\
    (found <= 1 -> qr_risk_level r = "LOW").
Proof.
  intros query r found. subst found r.
  rewrite keywords_found_length.
  pose proof (filter_length_bound (fun k => Py.contains k (Py.lower query))
                HIGH_RISK_KEYWORDS) as Hh.
  pose proof (filter_length_bound (fun k => Py.contains k (Py.lower query))
                MEDIUM_RISK_KEYWORDS) as Hm.
  fold (spec_matched HIGH_RISK_KEYWORDS query) in Hh.
  fold (spec_matched MEDIUM_RISK_KEYWORDS query) in Hm.
  change (length HIGH_RISK_KEYWORDS) with 12%nat in Hh.
  change (length MEDIUM_RISK_KEYWORDS) with 9%nat in Hm.
  destruct (analyze_query_risk_level query) as (_ & _ & _ & Hlow).
  rewrite query_score_alert, Hlow, analyze_query_risk_score.
  unfold spec_query_score. lia.
Qed.

(** ** audit_logger.py *)

Import AuditLogger.

Section AuditMore.
Variable dumps : json -> string.
Variable loads : string -> option json.

Lemma fold_read_line_raise user_id (ls : list string) (e : Py.exn) :
  fold_left (read_line loads user_id) ls (Py.Raise e) = Py.Raise e.
Proof. induction ls as [|l ls IH]; [reflexivity | exact IH]. Qed.

(** Reading with a user filter is filtering the records by [user_id]. *)
Lemma read_items_filtered (its : list item) (u : string) (acc : list json) :
  Forall (valid_item dumps loads) its ->
  fold_left (read_line loads (Some u)) (Py.readlines (text_of dumps its))
    (Py.Ok acc)
  = Py.bind (filter_eq "user_id" u (records its)) (fun l => Py.Ok (acc ++ l)).
Proof.
  intros H. revert acc. induction H as [|it its Hit _ IH]; intros acc.
  - cbn. now rewrite app_nil_r.
  - destruct it as [entry|line]; cbn [text_of records].
    + destruct Hit as (Hrt & Hstrip & Hnl).
      rewrite (readlines_line _ _ Hnl). cbn [fold_left].
      unfold read_line at 2. cbn [Py.bind].
      rewrite strip_newline, Hstrip, Hrt. cbn [filter_eq].
      destruct entry as [| | | | | |d]; cbn [get Py.bind];
        try apply fold_read_line_raise.
      destruct (eq_str (dict_get d "user_id") u); rewrite IH;
        destruct (filter_eq "user_id" u (records its)); cbn [Py.bind];
        rewrite <- ?app_assoc; reflexivity.
    + destruct Hit as (Hnl & Hbad).
      rewrite (readlines_line _ _ Hnl). cbn [fold_left].
      unfold read_line at 2. cbn [Py.bind].
      rewrite strip_newline, Hbad, IH. reflexivity.
Qed.

Lemma filter_eq_objects key value (l : list json) :
  Forall (fun e => is_object e = true) l ->
  filter_eq key value l = Py.Ok (List.filter (field_is key value) l).
Proof.
  induction 1 as [|e l He _ IH]; [reflexivity|].
  destruct e; try discriminate He. cbn [filter_eq get Py.bind List.filter field_is].
  rewrite IH. reflexivity.
Qed.

Lemma filter_eq_non_object key value (l : list json) (e : json) :
  In e l -> is_object e = false ->
  filter_eq key value l = Py.Raise Py.AttributeError.
Proof.
  intros Hin He. induction l as [|a l IH]; [destruct Hin|].
  cbn [filter_eq]. destruct a as [| | | | | |d]; try reflexivity.
  cbn [get Py.bind]. destruct Hin as [Ha|Hin]; [subst e; cbn in He; discriminate He|].
  rewrite (IH Hin). reflexivity.
Qed.

(** Reading a partition back with a user filter. *)
Lemma read_back_filtered dir (fs : gmap string string)
    (ops : list (kind * item)) k u limit :
  (forall k', default "" (fs !! partition (init dir) k') = "") ->
  Forall (fun op => valid_item dumps loads op.2) ops ->
  _read_log loads (fold_left (append_item dumps (init dir)) ops fs)
    (partition (init dir) k) (Some u) limit
  = Py.bind (filter_eq "user_id" u (written_to k ops))
      (fun l => Py.Ok (Py.slice_from (- limit) l)).
Proof.
  intros Hempty Hops.
  rewrite _read_log_content, append_items_content, Hempty, append_nil_l.
  rewrite read_items_filtered.
  - unfold written_to. destruct (filter_eq _ _ _); reflexivity.
  - unfold items_of. apply List.Forall_forall. intros it Hit.
    apply in_map_iff in Hit. destruct Hit as (op & <- & Hop).
    apply List.filter_In in Hop. destruct Hop as [Hop _].
    rewrite List.Forall_forall in Hops. apply Hops. exact Hop.
Qed.

Lemma valid_items_of k (ops : list (kind * item)) :
  Forall (fun op => valid_item dumps loads op.2) ops ->
  Forall (valid_item dumps loads) (items_of k ops).
Proof.
  intros Hops. unfold items_of. apply List.Forall_forall. intros it Hit.
  apply in_map_iff in Hit. destruct Hit as (op & <- & Hop).
  apply List.filter_In in Hop. destruct Hop as [Hop _].
  rewrite List.Forall_forall in Hops. apply Hops. exact Hop.
Qed.

Lemma item_no_linebreak (it : item) :
  valid_item dumps loads it ->
  exists s, Py.no_linebreak s = true /\
            forall its, text_of dumps (it :: its)
                        = s +:+ Py.newline +:+ text_of dumps its.
Proof.
  destruct it as [entry|line]; cbn [valid_item text_of].
  - intros (_ & _ & H). now exists (dumps entry).
  - intros (H & _). now exists line.
Qed.

(** Every appended item is one line of the file. *)
Lemma readlines_text_of (its : list item) :
  Forall (valid_item dumps loads) its ->
  length (Py.readlines (text_of dumps its)) = length its.
Proof.
  induction 1 as [|it its Hit _ IH]; [reflexivity|].
  destruct (item_no_linebreak it Hit) as (s & Hs & ->).
  rewrite (readlines_line _ _ Hs). cbn [length]. now rewrite IH.
Qed.

Lemma _count_lines_content (fs : gmap string string) log_file :
  _count_lines fs log_file
  = Z.of_nat (length (Py.readlines (default "" (fs !! log_file)))).
Proof. unfold _count_lines. destruct (fs !! log_file); reflexivity. Qed.

Lemma count_lines_items dir (fs : gmap string string)
    (ops : list (kind * item)) k :
  (forall k', default "" (fs !! partition (init dir) k') = "") ->
  Forall (fun op => valid_item dumps loads op.2) ops ->
  _count_lines (fold_left (append_item dumps (init dir)) ops fs)
    (partition (init dir) k)
  = Z.of_nat (length (items_of k ops)).
Proof.
  intros Hempty Hops.
  rewrite _count_lines_content, append_items_content, Hempty, append_nil_l.
  rewrite readlines_text_of; [reflexivity | now apply valid_items_of].
Qed.

Lemma records_length (its : list item) :
  (length (records its) <= length its)%nat.
Proof.
  induction its as [|[e|l] its IH]; cbn [records length]; lia.
Qed.

Lemma slice_from_length {A} (l : list A) (limit : Z) :
  0 < limit ->
  length (Py.slice_from (- limit) l) = Nat.min (Z.to_nat limit) (length l).
Proof.
  intros H. unfold Py.slice_from.
  destruct (Z.ltb_spec (- limit) 0); [|lia].
  rewrite length_drop. lia.
Qed.

Lemma slice_from_Forall {A} (P : A -> Prop) (l : list A) (start : Z) :
  Forall P l -> Forall P (Py.slice_from start l).
Proof. intros H. unfold Py.slice_from. now apply Forall_drop. Qed.

End AuditMore.

(** X6: [get_query_history] with a user keeps the records of that user and
    then the last [limit] of them: the limit counts the user's records, not
    the lines of the log. *)
Theorem X6_history_filters_user_before_limit :
  forall (dumps : json -> string) (loads : string -> option json)
         (dir : string) (fs : gmap string string)
         (ops : list (kind * item)) (user_id : string) (limit : Z),
    (forall k', default "" (fs !! partition (init dir) k') = "") ->
    Forall (fun op => valid_item dumps loads op.2) ops ->
    Forall (fun e => is_object e = true) (written_to Query ops) ->
    get_query_history loads (init dir)
      (fold_left (append_item dumps (init dir)) ops fs) (Some user_id) limit
    = Py.Ok (Py.slice_from (- limit)
               (List.filter (field_is "user_id" user_id) (written_to Query ops))).
Proof.
  intros dumps loads dir fs ops user_id limit Hempty Hops Hobj.
  unfold get_query_history.
  change (query_log_file (init dir)) with (partition (init dir) Query).
  rewrite (read_back_filtered dumps loads) by assumption.
  rewrite filter_eq_objects by exact Hobj. reflexivity.
Qed.

(** Two users writing to one log: the last record of user123 is found
    behind a later record of another user. *)
Lemma X6_history_filters_user_before_limit_witness :
  let ops :=
    [(Query, Written (MiniJson.record_of "user123"));
     (Query, Written (MiniJson.record_of "user123"));
     (Query, Injected "{not json");
     (Query, Written (MiniJson.record_of "user7"))] in
  get_query_history MiniJson.loads (init "./audit_logs")
    (fold_left (append_item MiniJson.dumps (init "./audit_logs")) ops ∅)
    (Some "user123") 1
  = Py.Ok [MiniJson.record_of "user123"].
Proof.
  intros ops.
  refine (X6_history_filters_user_before_limit MiniJson.dumps MiniJson.loads
            "./audit_logs" ∅ ops "user123" 1 _ _ _).
  - intros k'. rewrite lookup_empty. reflexivity.
  - repeat constructor; vm_compute; reflexivity.
  - repeat constructor.
Defined.

(** X7: a line that holds JSON which is not an object (such as [null]) is
    returned by an unfiltered read, but makes every read with a user filter
    raise AttributeError: only JSONDecodeError is caught. *)
Theorem X7_user_filter_raises_on_non_object :
  forall (dumps : json -> string) (loads : string -> option json)
         (dir : string) (fs : gmap string string)
         (ops : list (kind * item)) (entry : json) (user_id : string)
         (limit : Z),
    (forall k', default "" (fs !! partition (init dir) k') = "") ->
    Forall (fun op => valid_item dumps loads op.2) ops ->
    In entry (written_to Query ops) -> is_object entry = false ->
    let fs' := fold_left (append_item dumps (init dir)) ops fs in
    get_query_history loads (init dir) fs' (Some user_id) limit
    = Py.Raise Py.AttributeError /\
    get_query_history loads (init dir) fs' None limit
    = Py.Ok (Py.slice_from (- limit) (written_to Query ops)).
Proof.
  intros dumps loads dir fs ops entry user_id limit Hempty Hops Hin Hobj fs'.
  subst fs'. unfold get_query_history.
  change (query_log_file (init dir)) with (partition (init dir) Query).
  split.
  - rewrite (read_back_filtered dumps loads) by assumption.
    now rewrite (filter_eq_non_object _ _ _ entry).
  - now apply read_back_slice.
Qed.

(** A log with a record and a line [null]. *)
Lemma X7_user_filter_raises_on_non_object_witness :
  let ops :=
    [(Query, Written (MiniJson.record_of "user123")); (Query, Written JNull)] in
  get_query_history MiniJson.loads (init "./audit_logs")
    (fold_left (append_item MiniJson.dumps (init "./audit_logs")) ops ∅)
    (Some "user123") 100
  = Py.Raise Py.AttributeError.
Proof.
  intros ops.
  refine (proj1 (X7_user_filter_raises_on_non_object MiniJson.dumps MiniJson.loads
                   "./audit_logs" ∅ ops JNull "user123" 100 _ _ _ _)).
  - intros k'. rewrite lookup_empty. reflexivity.
  - repeat constructor; vm_compute; reflexivity.
  - right. now left.
  - reflexivity.
Defined.

(** X8: the limit of a read is applied as the slice [entries[-limit:]]: a
    positive limit keeps the last [limit] records, the limit 0 keeps all of
    them (not none), and a negative limit drops that many of the oldest. *)
Theorem X8_read_limit_is_a_slice :
  forall (dumps : json -> string) (loads : string -> option json)
         (dir : string) (fs : gmap string string)
         (ops : list (kind * item)) (k : kind) (limit : Z),
    (forall k', default "" (fs !! partition (init dir) k') = "") ->
    Forall (fun op => valid_item dumps loads op.2) ops ->
    let entries := written_to k ops in
    exists result,
      _read_log loads (fold_left (append_item dumps (init dir)) ops fs)
        (partition (init dir) k) None limit = Py.Ok result /\
      (0 < limit ->
       result = drop (length entries - Z.to_nat limit) entries /\
       length result = Nat.min (Z.to_nat limit) (length entries)) /\
      (limit = 0 -> result = entries) /\
      (limit < 0 -> result = drop (Z.to_nat (- limit)) entries).
Proof.
  intros dumps loads dir fs ops k limit Hempty Hops entries.
  eexists. split; [now apply read_back_slice|]. fold entries.
  split; [|split].
  - intros Hpos. split; [|now apply slice_from_length].
    unfold Py.slice_from. destruct (Z.ltb_spec (- limit) 0); [|lia].
    f_equal. lia.
  - intros ->. unfold Py.slice_from.
    destruct (Z.ltb_spec (- 0) 0); [lia|].
    replace (Z.to_nat _) with 0%nat by lia. reflexivity.
  - intros Hneg. unfold Py.slice_from.
    destruct (Z.ltb_spec (- limit) 0); [lia|].
    destruct (Z.le_gt_cases (- limit) (Z.of_nat (length entries))).
    + f_equal. lia.
    + rewrite !drop_ge by lia. reflexivity.
Qed.

(** Three records read with the limit 0. *)
Lemma X8_read_limit_is_a_slice_witness :
  let ops :=
    [(Query, Written (MiniJson.record_of "a"));
     (Query, Written (MiniJson.record_of "b"));
     (Query, Written (MiniJson.record_of "c"))] in
  exists result,
    _read_log MiniJson.loads
      (fold_left (append_item MiniJson.dumps (init "./audit_logs")) ops ∅)
      (partition (init "./audit_logs") Query) None 0 = Py.Ok result /\
    result = [MiniJson.record_of "a"; MiniJson.record_of "b";
              MiniJson.record_of "c"].
Proof.
  intros ops.
  destruct (X8_read_limit_is_a_slice MiniJson.dumps MiniJson.loads
              "./audit_logs" ∅ ops Query 0) as (result & Hr & _ & H0 & _).
  - intros k'. rewrite lookup_empty. reflexivity.
  - repeat constructor; vm_compute; reflexivity.
  - exists result. split; [exact Hr | exact (H0 eq_refl)].
Defined.

Section AlertFacts.
Variable dumps : json -> string.
Variable loads : string -> option json.

(** [get_alerts] on a log of alert records that are objects. *)
Lemma get_alerts_recent dir (fs : gmap string string)
    (ops : list (kind * item)) (severity : option string) (limit : Z) :
  (forall k', default "" (fs !! partition (init dir) k') = "") ->
  Forall (fun op => valid_item dumps loads op.2) ops ->
  Forall (fun e => is_object e = true) (written_to Alert ops) ->
  get_alerts loads (init dir)
    (fold_left (append_item dumps (init dir)) ops fs) severity limit
  = Py.Ok (match severity with
           | Some s =>
               if String.eqb s "" then Py.slice_from (- limit) (written_to Alert ops)
               else List.filter (field_is "severity" s)
                      (Py.slice_from (- limit) (written_to Alert ops))
           | None => Py.slice_from (- limit) (written_to Alert ops)
           end).
Proof.
  intros Hempty Hops Hobj. unfold get_alerts.
  change (alert_log_file (init dir)) with (partition (init dir) Alert).
  rewrite (read_back_slice dumps loads) by assumption. cbn [Py.bind].
  destruct severity as [s|]; [|reflexivity].
  destruct (String.eqb s ""); [reflexivity|].
  apply filter_eq_objects. now apply slice_from_Forall.
Qed.

End AlertFacts.

(** X9: [get_alerts] applies the limit first and the severity filter second:
    it returns the alerts of that severity among the last [limit] alerts, not
    the last [limit] alerts of that severity; an empty severity does not
    filter. *)
Theorem X9_alerts_filter_after_limit :
  forall (dumps : json -> string) (loads : string -> option json)
         (dir : string) (fs : gmap string string)
         (ops : list (kind * item)) (severity : string) (limit : Z),
    (forall k', default "" (fs !! partition (init dir) k') = "") ->
    Forall (fun op => valid_item dumps loads op.2) ops ->
    Forall (fun e => is_object e = true) (written_to Alert ops) ->
    let fs' := fold_left (append_item dumps (init dir)) ops fs in
    let recent := Py.slice_from (- limit) (written_to Alert ops) in
    get_alerts loads (init dir) fs' None limit = Py.Ok recent /\
    get_alerts loads (init dir) fs' (Some "") limit = Py.Ok recent /\
    (severity <> "" ->
     get_alerts loads (init dir) fs' (Some severity) limit
     = Py.Ok (List.filter (field_is "severity" severity) recent)).
Proof.
  intros dumps loads dir fs ops severity limit Hempty Hops Hobj fs' recent.
  subst fs' recent.
  rewrite !(get_alerts_recent dumps loads) by assumption.
  split; [reflexivity|]. split; [reflexivity|].
  intros Hne. destruct (String.eqb_spec severity ""); [contradiction|].
  reflexivity.
Qed.

(** A HIGH alert followed by two LOW ones: with the limit 2 no HIGH alert
    is returned. *)
Lemma X9_alerts_filter_after_limit_witness :
  let ops :=
    [(Alert, Written (SeverityJson.alert_of "HIGH"));
     (Alert, Written (SeverityJson.alert_of "LOW"));
     (Alert, Written (SeverityJson.alert_of "LOW"))] in
  get_alerts SeverityJson.loads (init "./audit_logs")
    (fold_left (append_item SeverityJson.dumps (init "./audit_logs")) ops ∅)
    (Some "HIGH") 2
  = Py.Ok [].
Proof.
  intros ops.
  refine (proj2 (proj2
    (X9_alerts_filter_after_limit SeverityJson.dumps SeverityJson.loads
       "./audit_logs" ∅ ops "HIGH" 2 _ _ _)) _).
  - intros k'. rewrite lookup_empty. reflexivity.
  - repeat constructor; vm_compute; reflexivity.
  - repeat constructor.
  - discriminate.
Defined.

(** X10: [get_statistics] counts the lines of the four log files, corrupt
    lines included, so a total can exceed the number of records that can be
    read back; the high-severity count looks at the last 10 alerts only. *)
Theorem X10_statistics_count_lines :
  forall (dumps : json -> string) (loads : string -> option json)
         (dir : string) (fs : gmap string string)
         (ops : list (kind * item)) (now : Py.datetime),
    (forall k', default "" (fs !! partition (init dir) k') = "") ->
    Forall (fun op => valid_item dumps loads op.2) ops ->
    Forall (fun e => is_object e = true) (written_to Alert ops) ->
    exists st,
      get_statistics loads (init dir)
        (fold_left (append_item dumps (init dir)) ops fs) now = Py.Ok st /\
      total_queries st = Z.of_nat (length (items_of Query ops)) /\
      total_access_logs st = Z.of_nat (length (items_of Access ops)) /\
      total_alerts st = Z.of_nat (length (items_of Alert ops)) /\
      total_documents_processed st = Z.of_nat (length (items_of Document ops)) /\
      Z.of_nat (length (written_to Query ops)) <= total_queries st /\
      recent_high_severity_alerts st
      = Z.of_nat (length (List.filter (field_is "severity" "HIGH")
                            (Py.slice_from (-10) (written_to Alert ops)))) /\
      0 <= recent_high_severity_alerts st <= 10 /\
      last_updated st = Py.isoformat now.
Proof.
  intros dumps loads dir fs ops now Hempty Hops Hobj.
  unfold get_statistics.
  rewrite (get_alerts_recent dumps loads) by assumption. cbn [Py.bind].
  rewrite filter_eq_objects by now apply slice_from_Forall.
  cbn [Py.bind]. eexists. split; [reflexivity|].
  cbn [total_queries total_access_logs total_alerts total_documents_processed
       recent_high_severity_alerts last_updated].
  change (query_log_file (init dir)) with (partition (init dir) Query).
  change (access_log_file (init dir)) with (partition (init dir) Access).
  change (alert_log_file (init dir)) with (partition (init dir) Alert).
  change (document_log_file (init dir)) with (partition (init dir) Document).
  rewrite !(count_lines_items dumps loads) by assumption.
  repeat split; try lia.
  - unfold written_to. pose proof (records_length (items_of Query ops)). lia.
  - pose proof (filter_length_bound (field_is "severity" "HIGH")
                  (Py.slice_from (-10) (written_to Alert ops))) as H1.
    pose proof (slice_from_length (written_to Alert ops) 10 ltac:(lia)) as H2.
    change (Z.opp 10) with (-10) in *. lia.
Qed.

(** A query log of one record and one corrupt line, and one HIGH alert. *)
Lemma X10_statistics_count_lines_witness :
  let ops :=
    [(Query, Written (SeverityJson.alert_of "none"));
     (Query, Injected "{not json");
     (Alert, Written (SeverityJson.alert_of "HIGH"))] in
  exists st,
    get_statistics SeverityJson.loads (init "./audit_logs")
      (fold_left (append_item SeverityJson.dumps (init "./audit_logs")) ops ∅)
      ComplianceDashboard.clock0 = Py.Ok st /\
    total_queries st = 2 /\ recent_high_severity_alerts st = 1.
Proof.
  intros ops.
  destruct (X10_statistics_count_lines SeverityJson.dumps SeverityJson.loads
              "./audit_logs" ∅ ops ComplianceDashboard.clock0)
    as (st & Hst & Hq & _ & _ & _ & _ & Hh & _).
  - intros k'. rewrite lookup_empty. reflexivity.
  - repeat constructor; vm_compute; reflexivity.
  - repeat constructor.
  - exists st. split; [exact Hst|]. split; [exact Hq | exact Hh].
Defined.

Section ExportMore.

(** The default export file is none of the four log files. *)
Lemma export_name_not_a_log dir (stamp : string) (k : kind) :
  path_join dir ("audit_export_" +:+ stamp +:+ ".json")
  <> partition (init dir) k.
Proof.
  intros H.
  destruct k; cbn [partition init query_log_file access_log_file
    alert_log_file document_log_file] in H;
    apply path_join_inj in H; try reflexivity;
    change ("audit_export_" +:+ stamp +:+ ".json")
      with (String "a" (String "u" ("dit_export_" +:+ stamp +:+ ".json"))) in H;
    discriminate H.
Qed.

Lemma _read_log_same (loads : string -> option json)
    (fs fs' : gmap string string) log_file user_id limit :
  fs' !! log_file = fs !! log_file ->
  _read_log loads fs' log_file user_id limit
  = _read_log loads fs log_file user_id limit.
Proof. intros H. unfold _read_log. now rewrite H. Qed.

End ExportMore.

(** X11: an export without an output file writes
    [<log_dir>/audit_export_<YYYYMMDD_HHMMSS>.json], which is none of the four
    log files: the logs are left as they were and read as before.  A given
    output file is used as it is, and its previous content is replaced, also
    when it is one of the log files.  No other file changes. *)
Theorem X11_export_writes_one_file :
  forall (loads : string -> option json) (dumps_indent : json -> string)
         (dir : string) (fs fs' : gmap string string)
         (now_name now_ts : Py.datetime)
         (start_date end_date output_file : option string) (out : string),
    export_audit_trail loads dumps_indent (init dir) fs now_name now_ts
      start_date end_date output_file = Py.Ok (fs', out) ->
    (exists data,
        export_data loads (init dir) fs now_ts start_date end_date = Py.Ok data /\
        fs' !! out = Some (dumps_indent data)) /\
    (forall path, path <> out -> fs' !! path = fs !! path) /\
    (output_file = None \/ output_file = Some "" ->
     out = path_join dir
             ("audit_export_" +:+ Py.strftime_compact now_name +:+ ".json") /\
     forall k user_id limit,
       fs' !! partition (init dir) k = fs !! partition (init dir) k /\
       _read_log loads fs' (partition (init dir) k) user_id limit
       = _read_log loads fs (partition (init dir) k) user_id limit) /\
    (forall f, output_file = Some f -> f <> "" -> out = f).
Proof.
  intros loads dumps_indent dir fs fs' now_name now_ts start_date end_date
    output_file out H.
  unfold export_audit_trail in H.
  destruct (export_data loads (init dir) fs now_ts start_date end_date)
    as [data|e] eqn:E; [|discriminate H].
  cbn [Py.bind] in H. injection H as Hfs Hout.
  split; [|split; [|split]].
  - exists data. split; [reflexivity|]. rewrite <- Hfs, Hout.
    apply lookup_insert_eq.
  - intros path Hne. rewrite <- Hfs. apply lookup_insert_ne. congruence.
  - intros Hdefault.
    assert (out = path_join dir
              ("audit_export_" +:+ Py.strftime_compact now_name +:+ ".json"))
      as Hname.
    { rewrite <- Hout. destruct Hdefault as [->| ->]; reflexivity. }
    split; [exact Hname|]. intros k user_id limit.
    assert (fs' !! partition (init dir) k = fs !! partition (init dir) k) as Hk.
    { rewrite <- Hfs, Hout, Hname. apply lookup_insert_ne.
      apply export_name_not_a_log. }
    split; [exact Hk | now apply _read_log_same].
  - intros f -> Hf. rewrite <- Hout.
    destruct (String.eqb_spec f ""); [contradiction | reflexivity].
Qed.

(** A default export at 2024-01-01 12:00:00 from a log directory without
    log files. *)
Lemma X11_export_writes_one_file_witness :
  exists (fs' : gmap string string) (out : string),
    export_audit_trail MiniJson.loads MiniJson.dumps (init "./audit_logs") ∅
      ComplianceDashboard.clock0 ComplianceDashboard.clock0 None None None
    = Py.Ok (fs', out) /\
    out = "./audit_logs/audit_export_20240101_120000.json" /\
    fs' !! "./audit_logs/query_log.jsonl"
    = (∅ : gmap string string) !! "./audit_logs/query_log.jsonl".
Proof.
  assert (E : exists fs' out,
             export_audit_trail MiniJson.loads MiniJson.dumps
               (init "./audit_logs") ∅ ComplianceDashboard.clock0
               ComplianceDashboard.clock0 None None None
             = Py.Ok (fs', out)).
  { unfold export_audit_trail, export_data, _read_log.
    rewrite !lookup_empty. cbn [Py.bind]. eexists. eexists. reflexivity. }
  destruct E as (fs' & out & E). exists fs', out.
  split; [exact E|].
  destruct (X11_export_writes_one_file _ _ _ _ _ _ _ _ _ _ _ E)
    as (_ & _ & Hdefault & _).
  destruct (Hdefault (or_introl eq_refl)) as [Hname Hlogs].
  split; [exact Hname|]. exact (proj1 (Hlogs Query None 100)).
Defined.

(** X12: the identifier is computed from the arguments glued together, so it
    does not tell where one argument ends and the next begins: at one
    instant, the query "ab" of user "c" and the query "a" of user "bc" get the
    same query id. *)
Theorem X12_identifier_ignores_argument_boundaries :
  forall (dumps : json -> string) (self : logger) (fs : gmap string string)
         (now_id now_ts : Py.datetime)
         (user_id1 query1 answer1 user_id2 query2 answer2 : string)
         (sources1 sources2 : list dict) (confidence1 confidence2 : Q)
         (risk_score1 risk_score2 : Z) (metadata1 metadata2 : option dict)
         (args1 args2 : list string),
    (query1 +:+ user_id1 = query2 +:+ user_id2 ->
     (log_query dumps self fs now_id now_ts user_id1 query1 answer1 sources1
        confidence1 risk_score1 metadata1).2
     = (log_query dumps self fs now_id now_ts user_id2 query2 answer2 sources2
          confidence2 risk_score2 metadata2).2) /\
    (String.concat "" args1 = String.concat "" args2 ->
     _generate_id now_id args1 = _generate_id now_id args2) /\
    _generate_id now_id ["ab"; "c"] = _generate_id now_id ["a"; "bc"].
Proof.
  intros. split; [|split].
  - intros H. unfold log_query. cbn [snd]. unfold _generate_id.
    cbn [String.concat]. rewrite !append_nil_l. now rewrite H.
  - intros H. unfold _generate_id. now rewrite H.
  - reflexivity.
Qed.

Section IsolationFacts.
Variable dumps : json -> string.
Variable loads : string -> option json.

(** Writing to one partition leaves what is read from another. *)
Lemma write_other_partition dir (fs : gmap string string) (k k' : kind)
    (entry : json) (user_id : option string) (limit : Z) :
  k <> k' ->
  _read_log loads (_write_log dumps fs (partition (init dir) k') entry)
    (partition (init dir) k) user_id limit
  = _read_log loads fs (partition (init dir) k) user_id limit.
Proof.
  intros Hne. apply _read_log_same. unfold _write_log.
  apply lookup_insert_ne. intros H. apply Hne. symmetry.
  exact (partition_inj _ _ _ H).
Qed.

End IsolationFacts.

(** X13: the four logs of a logger are four different files in its directory,
    so a write to one log leaves the others: [log_access],
    [log_document_upload] and [log_alert] do not change the query history,
    and [log_query], [log_access] and [log_document_upload] do not change
    the alerts. *)
Theorem X13_writers_leave_other_logs :
  forall (dumps : json -> string) (loads : string -> option json)
         (dir : string) (fs : gmap string string)
         (now_id now : Py.datetime)
         (user_id action resource status filename file_type : string)
         (file_size chunks_created : Z)
         (alert_type severity message query answer : string)
         (alert_query_id alert_user_id : option string)
         (sources : list dict) (confidence : Q) (risk_score : Z)
         (metadata : option dict) (reader wanted : option string) (limit : Z),
    let self := init dir in
    (forall k k', partition self k = partition self k' -> k = k') /\
    get_query_history loads self
      (log_access dumps self fs now user_id action resource status metadata)
      reader limit
    = get_query_history loads self fs reader limit /\
    get_query_history loads self
      (log_document_upload dumps self fs now user_id filename file_size
         file_type chunks_created status) reader limit
    = get_query_history loads self fs reader limit /\
    get_query_history loads self
      (log_alert dumps self fs now_id now alert_type severity message
         alert_query_id alert_user_id metadata).1 reader limit
    = get_query_history loads self fs reader limit /\
    get_alerts loads self
      (log_access dumps self fs now user_id action resource status metadata)
      wanted limit
    = get_alerts loads self fs wanted limit /\
    get_alerts loads self
      (log_document_upload dumps self fs now user_id filename file_size
         file_type chunks_created status) wanted limit
    = get_alerts loads self fs wanted limit /\
    get_alerts loads self
      (log_query dumps self fs now_id now user_id query answer sources
         confidence risk_score metadata).1 wanted limit
    = get_alerts loads self fs wanted limit.
Proof.
  intros. subst self.
  split; [intros k k'; apply partition_inj|].
  unfold get_query_history, get_alerts, log_access, log_document_upload,
    log_alert, log_query. cbn [fst].
  change (query_log_file (init dir)) with (partition (init dir) Query).
  change (access_log_file (init dir)) with (partition (init dir) Access).
  change (alert_log_file (init dir)) with (partition (init dir) Alert).
  change (document_log_file (init dir)) with (partition (init dir) Document).
  rewrite !(write_other_partition dumps loads) by discriminate.
  repeat split; reflexivity.
Qed.

(** ** performance_monitor.py *)

Import PerformanceMonitor.


Lemma deque_append_last_n h (l : list Q) x :
  deque_append h (last_n h l) x = last_n h (l ++ [x]).
Proof.
  unfold deque_append, last_n.
  rewrite !length_app, length_drop. cbn [length].
  destruct (le_lt_dec h (length l)) as [Hle|Hlt].
  - destruct h as [|h].
    + rewrite !drop_ge; [reflexivity| |]; rewrite ?length_app, ?length_drop; cbn [length]; lia.
    + rewrite !drop_app_le by (rewrite ?length_drop; lia).
      rewrite drop_drop. f_equal. f_equal. lia.
  - replace (length l - h)%nat with 0%nat by lia. cbn [drop].
    replace (length l - 0 + 1 - h)%nat with 0%nat by lia.
    replace (length l + 1 - h)%nat with 0%nat by lia. reflexivity.
Qed.

Lemma omap_snoc {A B} (f : A -> option B) l x :
  omap f (l ++ [x]) = omap f l ++ match f x with Some y => [y] | None => [] end.
Proof.
  rewrite omap_app. f_equal.
Qed.

Lemma filter_snoc {A} (f : A -> bool) l x :
  List.filter f (l ++ [x]) = List.filter f l ++ (if f x then [x] else []).
Proof. rewrite List.filter_app. cbn [List.filter]. destruct (f x); reflexivity. Qed.

(** The state of a monitor after any sequence of recordings. *)
Lemma events_state (h : nat) (now : Py.datetime) (es : list event) :
  let m := fold_left apply_event es (init h now) in
  query_times m = last_n h (omap query_duration es) /\
  embedding_times m = last_n h (omap embedding_duration es) /\
  search_times m = last_n h (omap search_duration es) /\
  llm_times m = last_n h (omap llm_duration es) /\
  total_queries m = Z.of_nat (length (omap query_duration es)) /\
  cache_hits m = Z.of_nat (length (List.filter is_hit es)) /\
  cache_misses m = Z.of_nat (length (List.filter is_miss es)) /\
  history_size m = h /\ start_time m = now.
Proof.
  induction es as [|e es IH] using rev_ind.
  - cbn. repeat split; lia.
  - cbv zeta in *. rewrite fold_left_app. cbn [fold_left].
    destruct IH as (Hq & He & Hs & Hl & Ht & Hh & Hm & Hz & Hst).
    rewrite !omap_snoc, !filter_snoc.
    destruct e as [d|d|d|d| | |name start stop];
      cbn [apply_event query_duration embedding_duration
           search_duration llm_duration is_hit is_miss];
      [| | | | | |
       unfold __exit__, timed; cbn [__enter__ metric_name tc_start_time];
       destruct (String.eqb_spec name "query") as [->|_];
         [|destruct (String.eqb_spec name "embedding") as [->|_];
           [|destruct (String.eqb_spec name "search") as [->|_];
             [|destruct (String.eqb_spec name "llm") as [->|_]]]];
       cbn [String.eqb Ascii.eqb Bool.eqb andb]];
      cbn [record_query_time record_embedding_time record_search_time
           record_llm_time record_cache_hit record_cache_miss
           query_times embedding_times search_times llm_times total_queries
           cache_hits cache_misses history_size start_time];
      rewrite ?app_nil_r, ?Hz, ?Hq, ?He, ?Hs, ?Hl, ?deque_append_last_n,
        ?length_app; cbn [length];
      repeat split; try assumption; try reflexivity; try lia.
Qed.

Lemma last_n_length {A} (n : nat) (l : list A) :
  length (last_n n l) = Nat.min n (length l).
Proof. unfold last_n. rewrite length_drop. lia. Qed.

Section PerformanceMore.

(** [get_metrics] has a result whatever the state of the monitor. *)
Lemma _percentile_ok (data : list Q) (percentile : Z) :
  0 <= percentile -> exists v, _percentile data percentile = Py.Ok v.
Proof.
  intros Hp. destruct data as [|x data].
  - exists 0%Q. reflexivity.
  - eexists. apply _percentile_rank; [discriminate | exact Hp].
Qed.

Lemma minimum_fold_le (data : list Q) (x : Q) :
  let m := fold_left (fun m y => if Py.Qltb y m then y else m) data x in
  (m <= x)%Q /\ Forall (Qle m) data /\ In m (x :: data).
Proof.
  revert x. induction data as [|y data IH]; intros x; cbn [fold_left].
  - split; [apply Qle_refl|]. split; [constructor | now left].
  - cbv zeta in *.
    rewrite Qltb_dec. destruct (Qlt_le_dec y x) as [Hlt|Hle].
    + destruct (IH y) as (H1 & H2 & H3).
      split; [lra|]. split; [constructor; assumption|].
      destruct H3 as [H3|H3]; [right; left; exact H3 | right; right; exact H3].
    + destruct (IH x) as (H1 & H2 & H3).
      split; [exact H1|]. split; [constructor; [lra | assumption]|].
      destruct H3 as [H3|H3]; [left; exact H3 | right; right; exact H3].
Qed.

Lemma maximum_fold_ge (data : list Q) (x : Q) :
  let m := fold_left (fun m y => if Py.Qltb m y then y else m) data x in
  (x <= m)%Q /\ Forall (fun y => (y <= m)%Q) data /\ In m (x :: data).
Proof.
  revert x. induction data as [|y data IH]; intros x; cbn [fold_left].
  - split; [apply Qle_refl|]. split; [constructor | now left].
  - cbv zeta in *.
    rewrite Qltb_dec. destruct (Qlt_le_dec x y) as [Hlt|Hle].
    + destruct (IH y) as (H1 & H2 & H3).
      split; [lra|]. split; [constructor; assumption|].
      destruct H3 as [H3|H3]; [right; left; exact H3 | right; right; exact H3].
    + destruct (IH x) as (H1 & H2 & H3).
      split; [exact H1|]. split; [constructor; [lra | assumption]|].
      destruct H3 as [H3|H3]; [left; exact H3 | right; right; exact H3].
Qed.

(** [min] and [max] are samples of the window and bound every sample. *)
Lemma minimum_spec (data : list Q) :
  data <> [] -> In (minimum data) data /\ Forall (Qle (minimum data)) data.
Proof.
  destruct data as [|x data]; [congruence|]. intros _. unfold minimum.
  destruct (minimum_fold_le data x) as (H1 & H2 & H3).
  split; [exact H3 | constructor; assumption].
Qed.

Lemma maximum_spec (data : list Q) :
  data <> [] ->
  In (maximum data) data /\ Forall (fun y => (y <= maximum data)%Q) data.
Proof.
  destruct data as [|x data]; [congruence|]. intros _. unfold maximum.
  destruct (maximum_fold_ge data x) as (H1 & H2 & H3).
  split; [exact H3 | constructor; assumption].
Qed.

Lemma sorted_nth_In (data : list Q) (i : nat) :
  (i < length data)%nat -> In (nth i (Py.sorted data) 0%Q) data.
Proof.
  intros H. apply (Permutation_in _ (sorted_perm data)).
  apply nth_In. now rewrite sorted_length.
Qed.

Lemma StronglySorted_nth (s : list Q) (i j : nat) :
  StronglySorted Qle s -> (i <= j < length s)%nat ->
  (nth i s 0 <= nth j s 0)%Q.
Proof.
  intros Hs. revert i j. induction Hs as [|x s Hs IH Hx]; intros i j Hij.
  - cbn in Hij. lia.
  - destruct i as [|i], j as [|j]; cbn [nth]; cbn [length] in Hij.
    + apply Qle_refl.
    + rewrite List.Forall_forall in Hx. apply Hx, nth_In. lia.
    + lia.
    + apply IH. lia.
Qed.

Lemma sum_Q_acc (l : list Q) (acc : Q) :
  (fold_left Qplus l acc == acc + fold_left Qplus l 0)%Q.
Proof.
  revert acc. induction l as [|x l IH]; intros acc; cbn [fold_left].
  - ring.
  - rewrite (IH (acc + x)%Q), (IH (0 + x)%Q). ring.
Qed.

Lemma sum_Q_cons (x : Q) (l : list Q) :
  (sum_Q (x :: l) == x + sum_Q l)%Q.
Proof. unfold sum_Q. cbn [fold_left]. rewrite sum_Q_acc. ring. Qed.

Lemma sum_Q_bounds (a b : Q) (l : list Q) :
  Forall (fun x => (a <= x)%Q /\ (x <= b)%Q) l ->
  (a * inject_Z (Z.of_nat (length l)) <= sum_Q l)%Q /\
  (sum_Q l <= b * inject_Z (Z.of_nat (length l)))%Q.
Proof.
  induction 1 as [|x l [Hax Hxb] _ [IH1 IH2]].
  - unfold sum_Q. cbn [fold_left length Z.of_nat].
    change (inject_Z (Z.of_nat 0)) with 0%Q. split; lra.
  - rewrite sum_Q_cons. cbn [length]. rewrite Nat2Z.inj_succ.
    unfold Z.succ. rewrite inject_Z_plus. change (inject_Z 1) with 1%Q.
    split; lra.
Qed.

Lemma mean_bounds (a b : Q) (l : list Q) :
  l <> [] -> Forall (fun x => (a <= x)%Q /\ (x <= b)%Q) l ->
  (a <= mean l)%Q /\ (mean l <= b)%Q.
Proof.
  intros Hne Hl. destruct (sum_Q_bounds a b l Hl) as [H1 H2].
  assert (0 < inject_Z (Z.of_nat (length l)))%Q as Hn.
  { apply inject_Z_pos. destruct l; [congruence|]. cbn [length]. lia. }
  unfold mean. split.
  - apply Qle_shift_div_l; [exact Hn | exact H1].
  - apply Qle_shift_div_r; [exact Hn | exact H2].
Qed.

Lemma median_bounds (a b : Q) (l : list Q) :
  l <> [] -> Forall (fun x => (a <= x)%Q /\ (x <= b)%Q) l ->
  (a <= median l)%Q /\ (median l <= b)%Q.
Proof.
  intros Hne Hl.
  assert (Hn : (0 < length l)%nat).
  { destruct l; [congruence|]. cbn [length]. lia. }
  assert (Hnth : forall i, (i < length l)%nat ->
            (a <= nth i (Py.sorted l) 0)%Q /\ (nth i (Py.sorted l) 0 <= b)%Q).
  { intros i Hi. rewrite List.Forall_forall in Hl.
    apply Hl, sorted_nth_In, Hi. }
  unfold median. cbv zeta. rewrite sorted_length.
  pose proof (Nat.div_lt (length l) 2 Hn ltac:(lia)) as Hhalf.
  destruct (Nat.even (length l)).
  - destruct (Hnth (length l / 2 - 1)%nat ltac:(lia)) as [H1 H2].
    destruct (Hnth (length l / 2)%nat Hhalf) as [H3 H4].
    split.
    + apply Qle_shift_div_l; lra.
    + apply Qle_shift_div_r; lra.
  - exact (Hnth _ Hhalf).
Qed.

Lemma spec_rank_mono (p q n : Z) :
  0 <= p <= q -> 0 <= n -> spec_rank p n <= spec_rank q n.
Proof.
  intros Hpq Hn. unfold spec_rank.
  assert (p * n / 100 <= q * n / 100) by (apply Z.div_le_mono; nia). lia.
Qed.

End PerformanceMore.

(** X14: [get_metrics] returns for every state of the monitor and every
    uptime: no percentile index is out of range, and the two quotients are
    guarded; each statistics block is present exactly when its window holds
    a sample. *)
Theorem X14_get_metrics_always_returns :
  forall (self : monitor) (uptime : Q) (now : Py.datetime),
    exists m,
      get_metrics self uptime now = Py.Ok m /\
      m_total_queries m = total_queries self /\
      (query_time m = None <-> query_times self = []) /\
      (embedding_time m = None <-> embedding_times self = []) /\
      (search_time m = None <-> search_times self = []) /\
      (llm_time m = None <-> llm_times self = []) /\
      ((uptime <= 0)%Q -> queries_per_minute m = 0%Q) /\
      (cache_hits self + cache_misses self <= 0 -> cache_hit_rate m = 0%Q).
Proof.
  intros self uptime now. unfold get_metrics.
  destruct (_percentile_ok (query_times self) 95 ltac:(lia)) as [v95 H95].
  destruct (_percentile_ok (query_times self) 99 ltac:(lia)) as [v99 H99].
  rewrite H95, H99.
  assert (Ht : forall data, timing_of data = None <-> data = []).
  { intros [|x data]; cbn; split; congruence. }
  destruct (query_times self) as [|x data] eqn:E; cbn [Py.bind];
    (eexists; split; [reflexivity|]);
    cbn [m_total_queries query_time embedding_time search_time llm_time
         queries_per_minute cache_hit_rate];
    (split; [reflexivity|]); (split; [split; congruence|]);
    rewrite !Ht; (split; [reflexivity|]); (split; [reflexivity|]);
    (split; [reflexivity|]); split.
  all: try (intros Hu; rewrite Qltb_dec;
            destruct (Qlt_le_dec 0 uptime) as [Hlt|_]; [exfalso; lra|reflexivity]).
  all: intros Hc; destruct (Z.ltb_spec 0 (cache_hits self + cache_misses self));
    [lia|reflexivity].
Qed.

(** X15: each window of a monitor holds the most recent [history_size] samples
    recorded for it, by its recording method or by a timing context of its
    name, oldest first, while [total_queries] counts every query time ever
    recorded; a timing context of any other name records nothing. *)
Theorem X15_windows_keep_most_recent :
  forall (h : nat) (now : Py.datetime) (es : list event),
    let m := fold_left apply_event es (init h now) in
    let recorded := omap query_duration es in
    query_times m = drop (length recorded - h) recorded /\
    length (query_times m) = Nat.min h (length recorded) /\
    total_queries m = Z.of_nat (length recorded) /\
    embedding_times m = last_n h (omap embedding_duration es) /\
    search_times m = last_n h (omap search_duration es) /\
    llm_times m = last_n h (omap llm_duration es) /\
    history_size m = h /\ start_time m = now /\
    (forall (name : string) (start stop : Q) (self : monitor),
        name <> "query" -> name <> "embedding" -> name <> "search" ->
        name <> "llm" ->
        __exit__ (__enter__ name start) stop self = self).
Proof.
  intros h now es m recorded.
  destruct (events_state h now es) as (Hq & He & Hs & Hl & Ht & _ & _ & Hz & Hst).
  fold m in Hq, He, Hs, Hl, Ht, Hz, Hst. fold recorded in Hq, Ht.
  split; [exact Hq|]. split; [rewrite Hq; apply last_n_length|].
  repeat (split; [assumption|]).
  intros name start stop self H1 H2 H3 H4.
  unfold __exit__. cbn [__enter__ metric_name].
  destruct (String.eqb_spec name "query"); [contradiction|].
  destruct (String.eqb_spec name "embedding"); [contradiction|].
  destruct (String.eqb_spec name "search"); [contradiction|].
  destruct (String.eqb_spec name "llm"); [contradiction|]. reflexivity.
Qed.

Lemma quotient_of_part (a b : Z) :
  0 <= a -> 0 <= b -> 0 < a + b ->
  (0 <= inject_Z a / inject_Z (a + b) * 100)%Q /\
  (inject_Z a / inject_Z (a + b) * 100 <= 100)%Q.
Proof.
  intros Ha Hb Hab.
  pose proof (inject_Z_pos _ Hab) as Hp.
  assert (0 <= inject_Z a / inject_Z (a + b))%Q as H0.
  { apply Qle_shift_div_l; [exact Hp|]. rewrite Qmult_0_l.
    change 0%Q with (inject_Z 0). rewrite <- Zle_Qle. exact Ha. }
  assert (inject_Z a / inject_Z (a + b) <= 1)%Q as H1.
  { apply Qle_shift_div_r; [exact Hp|]. rewrite Qmult_1_l.
    rewrite <- Zle_Qle. lia. }
  split; lra.
Qed.

(** X16: the cache hit rate reported for a monitor lies between 0 and 100: it
    is 0 before any cache event and when every event is a miss, and 100
    when every event is a hit. *)
Theorem X16_cache_hit_rate_range :
  forall (h : nat) (start now : Py.datetime) (es : list event) (uptime : Q),
    let self := fold_left apply_event es (init h start) in
    exists m,
      get_metrics self uptime now = Py.Ok m /\
      (0 <= cache_hit_rate m)%Q /\ (cache_hit_rate m <= 100)%Q /\
      (List.filter is_hit es = [] -> (cache_hit_rate m == 0)%Q) /\
      (List.filter is_hit es <> [] -> List.filter is_miss es = [] ->
       (cache_hit_rate m == 100)%Q).
Proof.
  intros h start now es uptime self.
  destruct (events_state h start es) as (_ & _ & _ & _ & _ & Hh & Hm & _).
  fold self in Hh, Hm.
  unfold get_metrics.
  destruct (_percentile_ok (query_times self) 95 ltac:(lia)) as [v95 H95].
  destruct (_percentile_ok (query_times self) 99 ltac:(lia)) as [v99 H99].
  rewrite H95, H99.
  assert (exists qt,
    match query_times self with
    | [] => Py.Ok None
    | _ :: _ =>
        Py.bind (Py.Ok v95) (fun v95 => Py.bind (Py.Ok v99) (fun v99 =>
          Py.Ok (Some
            {| qt_avg := Py.round (mean (query_times self)) 3;
               qt_median := Py.round (median (query_times self)) 3;
               qt_min := Py.round (minimum (query_times self)) 3;
               qt_max := Py.round (maximum (query_times self)) 3;
               p95 := Py.round v95 3;
               p99 := Py.round v99 3 |})))
    end = Py.Ok qt) as [qt ->].
  { destruct (query_times self); eexists; reflexivity. }
  cbn [Py.bind]. eexists. split; [reflexivity|]. cbn [cache_hit_rate].
  rewrite Hh, Hm.
  set (a := Z.of_nat (length (List.filter is_hit es))).
  set (b := Z.of_nat (length (List.filter is_miss es))).
  assert (0 <= a) as Ha by (subst a; lia).
  assert (0 <= b) as Hb by (subst b; lia).
  destruct (Z.ltb_spec 0 (a + b)) as [Hab|Hab].
  - destruct (quotient_of_part a b Ha Hb Hab) as [H0 H1].
    destruct (round_between 0 100 _ 2 H0 H1) as [R0 R1].
    split; [exact R0|]. split; [exact R1|]. split.
    + intros E. assert (a = 0) as -> by (subst a; rewrite E; reflexivity).
      erewrite round_comp; [apply (round_Z 0 2)|].
      unfold Qdiv. rewrite !Qmult_0_l. reflexivity.
    + intros _ E. assert (b = 0) as -> by (subst b; rewrite E; reflexivity).
      rewrite Z.add_0_r in *.
      erewrite round_comp; [apply (round_Z 100 2)|].
      pose proof (inject_Z_pos _ Hab) as Hp.
      field. intros E'. rewrite E' in Hp. exact (Qlt_irrefl _ Hp).
  - split; [apply Qle_refl|]. split; [discriminate|]. split; [reflexivity|].
    intros Hne E. exfalso.
    destruct (List.filter is_hit es); [congruence|]. subst a. cbn [length] in Hab. lia.
Qed.

(** X17: the statistics reported for a non-empty window of query times are
    ordered: the minimum is at most the average, the median and the 95th
    percentile, the 95th percentile is at most the 99th, and none exceeds the
    maximum. *)
Theorem X17_query_time_statistics_ordered :
  forall (self : monitor) (uptime : Q) (now : Py.datetime),
    query_times self <> [] ->
    exists m qt,
      get_metrics self uptime now = Py.Ok m /\ query_time m = Some qt /\
      (qt_min qt <= qt_avg qt)%Q /\ (qt_avg qt <= qt_max qt)%Q /\
      (qt_min qt <= qt_median qt)%Q /\ (qt_median qt <= qt_max qt)%Q /\
      (qt_min qt <= p95 qt)%Q /\ (p95 qt <= p99 qt)%Q /\
      (p99 qt <= qt_max qt)%Q.
Proof.
  intros self uptime now Hne. unfold get_metrics.
  rewrite !_percentile_rank by (assumption || lia).
  set (data := query_times self) in *.
  set (n := Z.of_nat (length data)).
  assert (Hn : 0 < n).
  { subst n. destruct data; [congruence|]. cbn [length]. lia. }
  destruct (minimum_spec data Hne) as [_ Hmin].
  destruct (maximum_spec data Hne) as [_ Hmax].
  assert (Hall : Forall (fun x => (minimum data <= x)%Q /\ (x <= maximum data)%Q)
                   data).
  { rewrite List.Forall_forall in *. intros x Hx. split; [apply Hmin|apply Hmax]; exact Hx. }
  destruct (mean_bounds _ _ data Hne Hall) as [Ha1 Ha2].
  destruct (median_bounds _ _ data Hne Hall) as [Hm1 Hm2].
  pose proof (spec_rank_range 95 n ltac:(lia) Hn) as H95.
  pose proof (spec_rank_range 99 n ltac:(lia) Hn) as H99.
  pose proof (spec_rank_mono 95 99 n ltac:(lia) ltac:(lia)) as Hmono.
  assert (Hp : forall i, (i < length data)%nat ->
            (minimum data <= nth i (Py.sorted data) 0)%Q /\
            (nth i (Py.sorted data) 0 <= maximum data)%Q).
  { intros i Hi. rewrite List.Forall_forall in Hall.
    apply Hall, sorted_nth_In, Hi. }
  destruct (Hp (Z.to_nat (spec_rank 95 n)) ltac:(subst n; lia)) as [L95 _].
  destruct (Hp (Z.to_nat (spec_rank 99 n)) ltac:(subst n; lia)) as [_ U99].
  assert (nth (Z.to_nat (spec_rank 95 n)) (Py.sorted data) 0
          <= nth (Z.to_nat (spec_rank 99 n)) (Py.sorted data) 0)%Q as Hpp.
  { apply StronglySorted_nth; [apply sorted_sorted|].
    rewrite sorted_length. subst n. lia. }
  destruct data as [|x data'] eqn:E; [congruence|]. rewrite <- E in *.
  cbn [Py.bind]. eexists. eexists. split; [reflexivity|].
  cbn [query_time]. split; [reflexivity|].
  cbn [qt_min qt_avg qt_max qt_median p95 p99].
  repeat split; apply round_mono; assumption.
Qed.

(** The ordering on the window 1, ..., 100. *)
Lemma X17_query_time_statistics_ordered_witness :
  exists m qt,
    get_metrics example_monitor 60 ComplianceDashboard.clock0 = Py.Ok m /\
    query_time m = Some qt /\
    (qt_min qt <= p95 qt)%Q /\ (p95 qt <= p99 qt)%Q /\ (p99 qt <= qt_max qt)%Q.
Proof.
  destruct (X17_query_time_statistics_ordered example_monitor 60
              ComplianceDashboard.clock0 ltac:(vm_compute; discriminate))
    as (m & qt & Hm & Hq & _ & _ & _ & _ & H1 & H2 & H3).
  exists m, qt. repeat split; assumption.
Defined.

Section UptimeFacts.

Lemma Qfloor_unique (z : Z) (q : Q) :
  (inject_Z z <= q)%Q -> (q < inject_Z z + 1)%Q -> Qfloor q = z.
Proof.
  intros H1 H2. apply Z.le_antisymm.
  - destruct (Qfloor_bounds q) as [Hf _].
    assert (inject_Z (Qfloor q) < inject_Z (z + 1))%Q as H
      by (rewrite inject_Z_plus; change (inject_Z 1) with 1%Q; lra).
    rewrite <- Zlt_Qlt in H. lia.
  - rewrite <- (Qfloor_Z z). now apply Qfloor_resp_le.
Qed.

Lemma Qfloor_minus_Z (q : Q) (k : Z) :
  Qfloor (q - inject_Z k) = Qfloor q - k.
Proof.
  destruct (Qfloor_bounds q) as [H1 H2].
  apply Qfloor_unique; unfold Z.sub; rewrite inject_Z_plus, inject_Z_opp; lra.
Qed.

(** Flooring before or after a division by a positive integer. *)
Lemma Qfloor_div_pos (q : Q) (n : positive) :
  Qfloor (q / inject_Z (Z.pos n)) = Qfloor q / Z.pos n.
Proof.
  destruct q as [a b]. unfold Qdiv, Qinv, Qmult, inject_Z, Qfloor.
  cbn [Qnum Qden]. rewrite Z.mul_1_r, Pos2Z.inj_mul.
  rewrite Z.div_div by lia. reflexivity.
Qed.

Lemma int_of_Q_Z (z : Z) : Py.int_of_Q (inject_Z z) = z.
Proof.
  unfold Py.int_of_Q. destruct (Qlt_le_dec _ _).
  - unfold Qceiling. rewrite <- inject_Z_opp, Qfloor_Z. lia.
  - apply Qfloor_Z.
Qed.

Lemma floordiv_pos (q : Q) (n : positive) :
  Py.int_of_Q (Py.floordiv q (inject_Z (Z.pos n))) = Qfloor q / Z.pos n.
Proof. unfold Py.floordiv. now rewrite int_of_Q_Z, Qfloor_div_pos. Qed.

Lemma Qfloor_modulo (q : Q) (n : positive) :
  Qfloor (Py.modulo q (inject_Z (Z.pos n))) = Qfloor q mod Z.pos n.
Proof.
  unfold Py.modulo. rewrite Qfloor_div_pos, <- inject_Z_mult, Qfloor_minus_Z.
  rewrite Z.mod_eq by lia. reflexivity.
Qed.

Lemma modulo_nonneg (q : Q) (n : positive) :
  (0 <= Py.modulo q (inject_Z (Z.pos n)))%Q.
Proof.
  destruct (Qfloor_bounds (Py.modulo q (inject_Z (Z.pos n)))) as [H _].
  rewrite Qfloor_modulo in H.
  assert (inject_Z 0 <= inject_Z (Qfloor q mod Z.pos n))%Q as H0.
  { rewrite <- Zle_Qle. apply Z.mod_pos_bound. lia. }
  change (inject_Z 0) with 0%Q in H0. lra.
Qed.

Lemma int_of_Q_nonneg (q : Q) : (0 <= q)%Q -> Py.int_of_Q q = Qfloor q.
Proof.
  intros H. unfold Py.int_of_Q. destruct (Qlt_le_dec q 0); [exfalso; lra|reflexivity].
Qed.

End UptimeFacts.

(** X18: [_format_uptime] shows the whole seconds of an uptime that is not
    negative, split into days, hours below 24, minutes below 60 and seconds
    below 60; a zero count of days, hours or minutes is left out and the
    seconds are always shown, so one hour reads "1h 0s". *)
Theorem X18_format_uptime_parts :
  forall seconds : Q,
    (0 <= seconds)%Q ->
    exists d h m s : Z,
      0 <= d /\ 0 <= h < 24 /\ 0 <= m < 60 /\ 0 <= s < 60 /\
      86400 * d + 3600 * h + 60 * m + s = Qfloor seconds /\
      _format_uptime seconds
      = Py.join " "
          ((if 0 <? d then [Py.str_of_int d +:+ "d"] else [])
           ++ (if 0 <? h then [Py.str_of_int h +:+ "h"] else [])
           ++ (if 0 <? m then [Py.str_of_int m +:+ "m"] else [])
           ++ [Py.str_of_int s +:+ "s"]) /\
      _format_uptime 0 = "0s" /\
      _format_uptime 3600 = "1h 0s" /\
      _format_uptime (93784 + (1 # 2)) = "1d 2h 3m 4s".
Proof.
  intros seconds Hpos. set (t := Qfloor seconds).
  assert (0 <= t) as Ht.
  { subst t. rewrite <- (Qfloor_Z 0). now apply Qfloor_resp_le. }
  exists (t / 86400), (t mod 86400 / 3600), (t mod 3600 / 60), (t mod 60).
  split; [Z.div_mod_to_equations; lia|].
  split; [Z.div_mod_to_equations; lia|].
  split; [Z.div_mod_to_equations; lia|].
  split; [Z.div_mod_to_equations; lia|].
  split; [Z.div_mod_to_equations; lia|].
  split; [|repeat split; vm_compute; reflexivity].
  unfold _format_uptime. cbv zeta.
  change (86400%Q) with (inject_Z (Z.pos 86400)).
  change (3600%Q) with (inject_Z (Z.pos 3600)).
  change (60%Q) with (inject_Z (Z.pos 60)).
  rewrite !floordiv_pos, !Qfloor_modulo.
  rewrite (int_of_Q_nonneg _ (modulo_nonneg seconds 60)), Qfloor_modulo.
  fold t. rewrite app_nil_l.
  destruct (0 <? t / 86400), (0 <? t mod 86400 / 3600), (0 <? t mod 3600 / 60);
    reflexivity.
Qed.

(** An uptime of one day, two hours, three minutes and four and a half
    seconds. *)
Lemma X18_format_uptime_parts_witness :
  exists d h m s : Z,
    86400 * d + 3600 * h + 60 * m + s = 93784 /\
    _format_uptime (93784 + (1 # 2))
    = Py.join " "
        ((if 0 <? d then [Py.str_of_int d +:+ "d"] else [])
         ++ (if 0 <? h then [Py.str_of_int h +:+ "h"] else [])
         ++ (if 0 <? m then [Py.str_of_int m +:+ "m"] else [])
         ++ [Py.str_of_int s +:+ "s"]).
Proof.
  destruct (X18_format_uptime_parts (93784 + (1 # 2)) ltac:(cbv; discriminate))
    as (d & h & m & s & _ & _ & _ & _ & Hsum & Hfmt & _).
  exists d, h, m, s. split; [exact Hsum | exact Hfmt].
Defined.

Section PercentileFacts.

Lemma sorted_last_is_maximum (data : list Q) :
  data <> [] ->
  (nth (length data - 1) (Py.sorted data) 0 == maximum data)%Q.
Proof.
  intros Hne.
  assert (Hn : (0 < length data)%nat).
  { destruct data; [congruence|]. cbn [length]. lia. }
  destruct (maximum_spec data Hne) as [Hin Hmax].
  apply Qle_antisym.
  - rewrite List.Forall_forall in Hmax. apply Hmax, sorted_nth_In. lia.
  - apply (Permutation_in _ (Permutation_sym (sorted_perm data))) in Hin.
    destruct (In_nth _ _ 0%Q Hin) as (i & Hi & <-).
    rewrite sorted_length in Hi.
    apply StronglySorted_nth; [apply sorted_sorted|].
    rewrite sorted_length. lia.
Qed.

Lemma sorted_first_is_minimum (data : list Q) :
  data <> [] -> (nth 0 (Py.sorted data) 0 == minimum data)%Q.
Proof.
  intros Hne.
  assert (Hn : (0 < length data)%nat).
  { destruct data; [congruence|]. cbn [length]. lia. }
  destruct (minimum_spec data Hne) as [Hin Hmin].
  apply Qle_antisym.
  - apply (Permutation_in _ (Permutation_sym (sorted_perm data))) in Hin.
    destruct (In_nth _ _ 0%Q Hin) as (i & Hi & <-).
    rewrite sorted_length in Hi.
    apply StronglySorted_nth; [apply sorted_sorted|].
    rewrite sorted_length. lia.
  - rewrite List.Forall_forall in Hmin. apply Hmin, sorted_nth_In. lia.
Qed.

(** The index expression on a negative percentile: truncation towards
    zero. *)
Lemma int_of_Q_percent_neg (percentile n : Z) :
  percentile < 0 -> 0 < n ->
  Py.int_of_Q (inject_Z percentile / 100 * inject_Z n)
  = - ((- percentile) * n / 100).
Proof.
  intros Hp Hn. unfold Py.int_of_Q.
  destruct (Qlt_le_dec _ 0) as [_|Hpos].
  - unfold Qceiling, Qfloor. cbn. f_equal. f_equal. lia.
  - exfalso. revert Hpos. apply Qlt_not_le. unfold Qlt. cbn. nia.
Qed.

End PercentileFacts.

(** X19: [_percentile] at the ends of its range: an empty window gives 0; on a
    non-empty window a percentile of 100 or more gives the maximum and the
    percentile 0 the minimum; a negative percentile down to -100 is not
    refused but returns one of the samples, and a percentile of -200 or less
    raises IndexError. *)
Theorem X19_percentile_edges :
  forall (data : list Q) (percentile : Z),
    _percentile [] percentile = Py.Ok 0%Q /\
    (data <> [] ->
     let n := Z.of_nat (length data) in
     (100 <= percentile ->
      exists v, _percentile data percentile = Py.Ok v /\ (v == maximum data)%Q) /\
     (percentile = 0 ->
      exists v, _percentile data percentile = Py.Ok v /\ (v == minimum data)%Q) /\
     (-100 <= percentile < 0 ->
      exists v, _percentile data percentile = Py.Ok v /\ In v data) /\
     (percentile <= -200 ->
      _percentile data percentile = Py.Raise Py.IndexError)).
Proof.
  intros data percentile. split; [reflexivity|].
  intros Hne n.
  assert (Hn : 0 < n).
  { subst n. destruct data; [congruence|]. cbn [length]. lia. }
  split; [|split; [|split]].
  - intros Hp. eexists. split.
    + apply _percentile_rank; [exact Hne | lia].
    + fold n. unfold spec_rank.
      assert (n <= percentile * n / 100) by (apply Z.div_le_lower_bound; nia).
      replace (Z.to_nat (Z.min (percentile * n / 100) (n - 1)))
        with (length data - 1)%nat by (subst n; lia).
      apply sorted_last_is_maximum, Hne.
  - intros ->. eexists. split.
    + apply _percentile_rank; [exact Hne | lia].
    + fold n. unfold spec_rank. rewrite Z.mul_0_l, Z.div_0_l by lia.
      replace (Z.to_nat (Z.min 0 (n - 1))) with 0%nat by lia.
      apply sorted_first_is_minimum, Hne.
  - intros Hp. unfold _percentile.
    destruct data as [|x data']; [congruence|]. cbv zeta.
    rewrite sorted_length. fold n. rewrite int_of_Q_percent_neg by lia.
    set (k := - percentile * n / 100).
    assert (0 <= k <= n) as Hk.
    { subst k. split; [apply Z.div_pos; nia|].
      apply Z.div_le_upper_bound; nia. }
    replace (Z.min (- k) (n - 1)) with (- k) by lia.
    unfold Py.getitem. rewrite sorted_length. fold n.
    destruct (Z.eq_dec k 0) as [->|Hk0].
    + change (- 0) with 0.
      destruct (Z.ltb_spec 0 0); [lia|].
      destruct (Z.leb_spec 0 0); [|lia].
      destruct (Z.ltb_spec 0 n); [|lia]. cbn [andb].
      destruct (nth_error _ _) as [v|] eqn:E.
      * exists v. split; [reflexivity|].
        apply (Permutation_in _ (sorted_perm (x :: data'))).
        exact (nth_error_In _ _ E).
      * apply nth_error_None in E. rewrite sorted_length in E. lia.
    + destruct (Z.ltb_spec (- k) 0); [|lia].
      destruct (Z.leb_spec 0 (n + - k)); [|lia].
      destruct (Z.ltb_spec (n + - k) n); [|lia]. cbn [andb].
      destruct (nth_error _ _) as [v|] eqn:E.
      * exists v. split; [reflexivity|].
        apply (Permutation_in _ (sorted_perm (x :: data'))).
        exact (nth_error_In _ _ E).
      * apply nth_error_None in E. rewrite sorted_length in E. lia.
  - intros Hp. unfold _percentile.
    destruct data as [|x data']; [congruence|]. cbv zeta.
    rewrite sorted_length. fold n. rewrite int_of_Q_percent_neg by lia.
    set (k := - percentile * n / 100).
    assert (2 * n <= k) as Hk by (subst k; apply Z.div_le_lower_bound; nia).
    replace (Z.min (- k) (n - 1)) with (- k) by lia.
    unfold Py.getitem. rewrite sorted_length. fold n.
    destruct (Z.ltb_spec (- k) 0); [|lia].
    destruct (Z.leb_spec 0 (n + - k)); [lia|]. reflexivity.
Qed.

(** The edges on the window 3, 1, 2. *)
Lemma X19_percentile_edges_witness :
  (exists v, _percentile [3; 1; 2]%Q 100 = Py.Ok v /\
             (v == maximum [3; 1; 2])%Q) /\
  _percentile [3; 1; 2]%Q (-200) = Py.Raise Py.IndexError.
Proof.
  destruct (X19_percentile_edges [3; 1; 2]%Q 100) as [_ H].
  destruct (H ltac:(discriminate)) as (H100 & _).
  destruct (X19_percentile_edges [3; 1; 2]%Q (-200)) as [_ H'].
  destruct (H' ltac:(discriminate)) as (_ & _ & _ & H200).
  split; [apply H100; lia | apply H200; lia].
Defined.

(** X20: on a non-empty window a higher percentile never gives a smaller value,
    and every percentile from 0 upwards lies between the minimum and the
    maximum of the window. *)
Theorem X20_percentile_monotone :
  forall (data : list Q) (p q : Z),
    data <> [] -> 0 <= p <= q ->
    exists v w,
      _percentile data p = Py.Ok v /\ _percentile data q = Py.Ok w /\
      (minimum data <= v)%Q /\ (v <= w)%Q /\ (w <= maximum data)%Q.
Proof.
  intros data p q Hne Hpq.
  rewrite !_percentile_rank by (assumption || lia).
  set (n := Z.of_nat (length data)).
  assert (Hn : 0 < n).
  { subst n. destruct data; [congruence|]. cbn [length]. lia. }
  destruct (minimum_spec data Hne) as [_ Hmin].
  destruct (maximum_spec data Hne) as [_ Hmax].
  pose proof (spec_rank_range p n ltac:(lia) Hn) as Hp.
  pose proof (spec_rank_range q n ltac:(lia) Hn) as Hq.
  pose proof (spec_rank_mono p q n ltac:(lia) ltac:(lia)) as Hmono.
  eexists. eexists. split; [reflexivity|]. split; [reflexivity|].
  rewrite List.Forall_forall in Hmin, Hmax. split; [|split].
  - apply Hmin, sorted_nth_In. subst n. lia.
  - apply StronglySorted_nth; [apply sorted_sorted|].
    rewrite sorted_length. subst n. lia.
  - apply Hmax, sorted_nth_In. subst n. lia.
Qed.

(** The median and the 90th percentile of the window 3, 1, 2. *)
Lemma X20_percentile_monotone_witness :
  exists v w,
    _percentile [3; 1; 2]%Q 50 = Py.Ok v /\
    _percentile [3; 1; 2]%Q 90 = Py.Ok w /\ (v <= w)%Q.
Proof.
  destruct (X20_percentile_monotone [3; 1; 2]%Q 50 90 ltac:(discriminate)
              ltac:(lia)) as (v & w & Hv & Hw & _ & Hvw & _).
  exists v, w. repeat split; assumption.
Defined.

(** ** compliance_dashboard.py *)

Import AuditLogger.
Import ComplianceDashboard.

Section CoverageFacts.

Lemma sum_Z_acc (l : list Z) (acc : Z) :
  fold_left Z.add l acc = acc + fold_left Z.add l 0.
Proof.
  revert acc. induction l as [|x l IH]; intros acc; cbn [fold_left]; [lia|].
  rewrite (IH (acc + x)), (IH (0 + x)). lia.
Qed.

Lemma sum_Z_cons (x : Z) (l : list Z) : sum_Z (x :: l) = x + sum_Z l.
Proof. unfold sum_Z. cbn [fold_left]. rewrite sum_Z_acc. lia. Qed.

Lemma add_count_count_of (k k' : string) (n : Z) (d : counts) :
  count_of k (add_count k' n d)
  = count_of k d + (if String.eqb k' k then n else 0).
Proof.
  induction d as [|[k0 c] d IH]; cbn [add_count count_of].
  - destruct (String.eqb k' k); lia.
  - destruct (String.eqb_spec k0 k') as [->|Hne]; cbn [count_of].
    + destruct (String.eqb k' k); lia.
    + destruct (String.eqb_spec k0 k) as [->|Hne'].
      * destruct (String.eqb_spec k' k); [congruence | lia].
      * exact IH.
Qed.

Lemma add_count_keys (k : string) (n : Z) (d : counts) :
  keys (add_count k n d) = if Py.in_list k (keys d) then keys d else keys d ++ [k].
Proof.
  unfold Py.in_list.
  induction d as [|[k0 c] d IH]; cbn [add_count keys map fst existsb]; [reflexivity|].
  rewrite (String.eqb_sym k k0).
  destruct (String.eqb_spec k0 k) as [->|Hne]; cbn [keys map fst orb]; [reflexivity|].
  fold (keys (add_count k n d)). rewrite IH. fold (keys d).
  destruct (existsb (String.eqb k) (keys d)); reflexivity.
Qed.


Lemma add_count_weight (P : string -> bool) (k : string) (n : Z) (d : counts) :
  weight P (add_count k n d) = weight P d + (if P k then n else 0).
Proof.
  induction d as [|[k0 c] d IH]; cbn [add_count weight].
  - destruct (P k); lia.
  - destruct (String.eqb_spec k0 k) as [->|Hne]; cbn [weight].
    + destruct (P k); lia.
    + rewrite IH. lia.
Qed.

(** Counting the chunks by source... *)
Lemma sources_weight (P : string -> bool) (metadatas : list (option string))
    (d : counts) :
  weight P (fold_left (fun sources metadata =>
                         add_count (default "Unknown" metadata) 1 sources)
              metadatas d)
  = weight P d
    + Z.of_nat (length (List.filter (fun m => P (source_of m)) metadatas)).
Proof.
  revert d. induction metadatas as [|m ms IH]; intros d; cbn [fold_left List.filter].
  - cbn [length]. lia.
  - rewrite IH, add_count_weight. fold (source_of m).
    destruct (P (source_of m)); cbn [length]; lia.
Qed.

(** ... and the sources by regulation. *)
Lemma coverage_count_of (reg : string) (sources coverage : counts) :
  count_of reg (fold_left (fun coverage '(source, count) =>
                             add_count (regulation_of source) count coverage)
                  sources coverage)
  = count_of reg coverage
    + weight (fun s => String.eqb (regulation_of s) reg) sources.
Proof.
  revert coverage. induction sources as [|[s c] sources IH]; intros coverage;
    cbn [fold_left weight]; [lia|].
  rewrite IH, add_count_count_of. lia.
Qed.

Lemma regulation_of_cases (source : string) :
  In (regulation_of source) regulations.
Proof.
  unfold regulation_of, regulations. cbv zeta.
  repeat destruct (Py.contains _ _); cbn; tauto.
Qed.

Lemma coverage_keys (sources coverage : counts) :
  keys coverage = regulations ->
  keys (fold_left (fun coverage '(source, count) =>
                     add_count (regulation_of source) count coverage)
          sources coverage) = regulations.
Proof.
  revert coverage. induction sources as [|[s c] sources IH]; intros coverage H;
    cbn [fold_left]; [exact H|].
  apply IH. rewrite add_count_keys, H.
  pose proof (regulation_of_cases s) as Hin. unfold regulations in *.
  destruct Hin as [<-|[<-|[<-|[<-|[<-|[]]]]]]; reflexivity.
Qed.



End CoverageFacts.



Section PercentageFacts.

Lemma count_of_map (f : Z -> Z) (reg : string) (d : counts) :
  f 0 = 0 ->
  count_of reg (map (fun '(k, c) => (k, f c)) d) = f (count_of reg d).
Proof.
  intros H0. induction d as [|[k c] d IH]; cbn [map count_of]; [now rewrite H0|].
  destruct (String.eqb k reg); [reflexivity | exact IH].
Qed.

Lemma keys_map (f : Z -> Z) (d : counts) :
  keys (map (fun '(k, c) => (k, f c)) d) = keys d.
Proof.
  unfold keys. rewrite map_map. apply map_ext. now intros [k c].
Qed.



End PercentageFacts.

(** The coverage records of a non-empty index after its two loops. *)
Lemma coverage_of_index (self : dashboard) (now : Py.datetime)
    (metadatas : list (option string)) :
  collection_get self = Py.Ok metadatas -> metadatas <> [] ->
  exists sources coverage : counts,
    sources = fold_left (fun sources metadata =>
                           add_count (default "Unknown" metadata) 1 sources)
                metadatas [] /\
    coverage = fold_left (fun coverage '(source, count) =>
                            add_count (regulation_of source) count coverage)
                 sources
                 [("RBI", 0); ("SEBI", 0); ("FATF", 0); ("GDPR", 0); ("Other", 0)] /\
    coverage_by_regulation (get_document_coverage self now) = coverage /\
    coverage_percentage (get_document_coverage self now)
    = Some (map (fun '(reg, count) =>
                   (reg, if 0 <? count then Z.min count 100 else 0)) coverage) /\
    document_list (get_document_coverage self now) = Some (keys sources) /\
    total_documents (get_document_coverage self now)
    = Z.of_nat (length sources).
Proof.
  intros Hget Hne. unfold get_document_coverage. rewrite Hget.
  destruct metadatas as [|m ms] eqn:E; [congruence|]. rewrite <- E.
  eexists. eexists. repeat split; reflexivity.
Qed.

Lemma regulation_count (reg : string) (metadatas : list (option string)) :
  count_of reg
    (fold_left (fun coverage '(source, count) =>
                  add_count (regulation_of source) count coverage)
       (fold_left (fun sources metadata =>
                     add_count (default "Unknown" metadata) 1 sources)
          metadatas [])
       [("RBI", 0); ("SEBI", 0); ("FATF", 0); ("GDPR", 0); ("Other", 0)])
  = Z.of_nat (length (List.filter
                        (fun m => String.eqb (regulation_of (source_of m)) reg)
                        metadatas)).
Proof.
  rewrite coverage_count_of, sources_weight. cbn [weight].
  assert (count_of reg [("RBI", 0); ("SEBI", 0); ("FATF", 0); ("GDPR", 0);
                        ("Other", 0)] = 0) as ->.
  { cbn [count_of]. repeat destruct (String.eqb _ reg); reflexivity. }
  lia.
Qed.

(** X22: the coverage percentage of a category is its number of chunks capped
    at 100: it lies between 0 and 100, and 100 chunks or more of one category
    count as full coverage of it. *)
Theorem X22_coverage_percentage_capped :
  forall (self : dashboard) (now : Py.datetime)
         (metadatas : list (option string)),
    collection_get self = Py.Ok metadatas -> metadatas <> [] ->
    exists percentages,
      coverage_percentage (get_document_coverage self now) = Some percentages /\
      keys percentages = ["RBI"; "SEBI"; "FATF"; "GDPR"; "Other"] /\
      (forall reg,
          count_of reg percentages
          = Z.min (Z.of_nat (length (List.filter
                     (fun m => String.eqb (regulation_of (source_of m)) reg)
                     metadatas))) 100) /\
      (forall reg, 0 <= count_of reg percentages <= 100).
Proof.
  intros self now metadatas Hget Hne.
  destruct (coverage_of_index self now metadatas Hget Hne)
    as (sources & coverage & -> & -> & _ & Hp & _).
  eexists. split; [exact Hp|].
  assert (Hcount : forall reg,
    count_of reg
      (map (fun '(reg, count) => (reg, if 0 <? count then Z.min count 100 else 0))
         (fold_left (fun coverage '(source, count) =>
                       add_count (regulation_of source) count coverage)
            (fold_left (fun sources metadata =>
                          add_count (default "Unknown" metadata) 1 sources)
               metadatas [])
            [("RBI", 0); ("SEBI", 0); ("FATF", 0); ("GDPR", 0); ("Other", 0)]))
    = Z.min (Z.of_nat (length (List.filter
               (fun m => String.eqb (regulation_of (source_of m)) reg)
               metadatas))) 100).
  { intros reg.
    rewrite (count_of_map (fun count => if 0 <? count then Z.min count 100 else 0))
      by reflexivity.
    rewrite regulation_count.
    destruct (Z.ltb_spec 0 (Z.of_nat (length (List.filter
               (fun m => String.eqb (regulation_of (source_of m)) reg)
               metadatas)))); lia. }
  split; [|split].
  - rewrite keys_map. now apply coverage_keys.
  - exact Hcount.
  - intros reg. rewrite Hcount. lia.
Qed.

(** 150 chunks of an RBI circular: full coverage of RBI, none of SEBI. *)
Lemma X22_coverage_percentage_capped_witness :
  let self :=
    {| collection_get := Py.Ok (replicate 150 (Some "rbi_master_direction.pdf"));
       audit_logger := None |} in
  exists percentages,
    coverage_percentage (get_document_coverage self clock0) = Some percentages /\
    count_of "RBI" percentages = 100 /\ count_of "SEBI" percentages = 0.
Proof.
  intros self.
  destruct (X22_coverage_percentage_capped self clock0 _ eq_refl
              ltac:(discriminate)) as (p & Hp & _ & Hc & _).
  exists p. split; [exact Hp|]. split; [exact (Hc "RBI") | exact (Hc "SEBI")].
Defined.

Section DocumentListFacts.

Lemma add_count_NoDup (k : string) (n : Z) (d : counts) :
  NoDup (keys d) -> NoDup (keys (add_count k n d)).
Proof.
  intros H. rewrite add_count_keys, in_list_dec.
  destruct (decide (k ∈ keys d)) as [Hin|Hnin]; [exact H|].
  apply NoDup_app. split; [exact H|]. split.
  - intros x Hx Hx'. apply list_elem_of_singleton in Hx'. congruence.
  - apply NoDup_singleton.
Qed.

Lemma add_count_elem (s k : string) (n : Z) (d : counts) :
  s ∈ keys (add_count k n d) <-> s ∈ keys d \/ s = k.
Proof.
  rewrite add_count_keys, in_list_dec.
  destruct (decide (k ∈ keys d)) as [Hin|Hnin].
  - split; [auto | intros [H| ->]; assumption].
  - rewrite elem_of_app, list_elem_of_singleton. reflexivity.
Qed.

Lemma sources_NoDup (metadatas : list (option string)) (d : counts) :
  NoDup (keys d) ->
  NoDup (keys (fold_left (fun sources metadata =>
                            add_count (default "Unknown" metadata) 1 sources)
                 metadatas d)).
Proof.
  revert d. induction metadatas as [|m ms IH]; intros d H; cbn [fold_left];
    [exact H|].
  apply IH, add_count_NoDup, H.
Qed.

Lemma sources_elem (s : string) (metadatas : list (option string)) (d : counts) :
  s ∈ keys (fold_left (fun sources metadata =>
                         add_count (default "Unknown" metadata) 1 sources)
              metadatas d)
  <-> s ∈ keys d \/ exists m, m ∈ metadatas /\ source_of m = s.
Proof.
  revert d. induction metadatas as [|m ms IH]; intros d; cbn [fold_left].
  - split; [auto|]. intros [H|(m & Hm & _)]; [exact H|].
    now apply elem_of_nil in Hm.
  - rewrite IH, add_count_elem. fold (source_of m). split.
    + intros [[H| ->]|(m' & Hm' & Hs)].
      * now left.
      * right. exists m. split; [apply elem_of_cons; now left | reflexivity].
      * right. exists m'. split; [apply elem_of_cons; now right | exact Hs].
    + intros [H|(m' & Hm' & Hs)]; [left; now left|].
      apply elem_of_cons in Hm'. destruct Hm' as [->|Hm'].
      * left. right. now symmetry.
      * right. exists m'. now split.
Qed.

End DocumentListFacts.

(** X23: [document_list] names every source of the index once, a chunk without
    a source under "Unknown", and [total_documents] is the number of these
    names, not the number of chunks. *)
Theorem X23_document_list_distinct_sources :
  forall (self : dashboard) (now : Py.datetime)
         (metadatas : list (option string)),
    collection_get self = Py.Ok metadatas -> metadatas <> [] ->
    exists names,
      document_list (get_document_coverage self now) = Some names /\
      NoDup names /\
      (forall s, s ∈ names <-> exists m, m ∈ metadatas /\ source_of m = s) /\
      total_documents (get_document_coverage self now)
      = Z.of_nat (length names) /\
      (length names <= length metadatas)%nat.
Proof.
  intros self now metadatas Hget Hne.
  destruct (coverage_of_index self now metadatas Hget Hne)
    as (sources & coverage & Hs & _ & _ & _ & Hd & Ht).
  exists (keys sources). split; [exact Hd|].
  assert (Hnd : NoDup (keys sources)).
  { rewrite Hs. apply sources_NoDup. constructor. }
  assert (Hel : forall s, s ∈ keys sources
                          <-> exists m, m ∈ metadatas /\ source_of m = s).
  { intros s. rewrite Hs, sources_elem. split; [|auto].
    intros [H|H]; [now apply elem_of_nil in H | exact H]. }
  split; [exact Hnd|]. split; [exact Hel|]. split.
  - rewrite Ht. unfold keys. now rewrite length_map.
  - rewrite <- (length_map source_of metadatas).
    apply NoDup_ListNoDup in Hnd. apply List.NoDup_incl_length; [exact Hnd|].
    intros s Hin. apply list_elem_of_In, Hel in Hin.
    destruct Hin as (m & Hm & <-). apply in_map, list_elem_of_In, Hm.
Qed.

(** Four chunks from two sources. *)
Lemma X23_document_list_distinct_sources_witness :
  let self :=
    {| collection_get :=
         Py.Ok [Some "rbi_kyc.pdf"; Some "fatf.pdf"; Some "rbi_kyc.pdf"; Some "fatf.pdf"];
       audit_logger := None |} in
  exists names,
    document_list (get_document_coverage self clock0) = Some names /\
    total_documents (get_document_coverage self clock0) = Z.of_nat (length names).
Proof.
  intros self.
  destruct (X23_document_list_distinct_sources self clock0 _ eq_refl
              ltac:(discriminate)) as (names & Hn & _ & _ & Ht & _).
  exists names. split; [exact Hn | exact Ht].
Defined.

Section StatisticsFacts.

Lemma get_all_objects (key : string) (queries : list json) :
  Forall (fun q => is_object q = true) queries ->
  get_all key queries = Py.Ok (map (value_of key) queries).
Proof.
  induction 1 as [|q queries Hq _ IH]; [reflexivity|].
  destruct q; try discriminate Hq.
  cbn [get_all get Py.bind map value_of]. rewrite IH. reflexivity.
Qed.

Lemma number_raises (v : json) (e : Py.exn) :
  number v = Py.Raise e -> e = Py.TypeError.
Proof. destruct v; cbn; congruence. Qed.

Lemma numbers_raise (l : list json) (v : json) :
  In v l -> number v = Py.Raise Py.TypeError ->
  numbers l = Py.Raise Py.TypeError.
Proof.
  intros Hin Hv. induction l as [|a l IH]; [destruct Hin|].
  cbn [numbers]. destruct (number a) as [x|e] eqn:E.
  - cbn [Py.bind]. destruct Hin as [->|Hin]; [congruence|].
    rewrite (IH Hin). reflexivity.
  - cbn [Py.bind]. now rewrite (number_raises _ _ E).
Qed.

Lemma numbers_in_range (key : string) (a b : Q) (queries : list json) :
  Forall (fun q => exists x, number (value_of key q) = Py.Ok x /\
                             (a <= x)%Q /\ (x <= b)%Q) queries ->
  exists xs,
    numbers (map (value_of key) queries) = Py.Ok xs /\
    length xs = length queries /\
    Forall (fun x => (a <= x)%Q /\ (x <= b)%Q) xs.
Proof.
  induction 1 as [|q queries (x & Hx & Hr) _ (xs & Hxs & Hlen & Hall)].
  - exists []. repeat split; constructor.
  - exists (x :: xs). cbn [map numbers]. rewrite Hx, Hxs. cbn [Py.bind length].
    split; [reflexivity|]. split; [now rewrite Hlen|]. now constructor.
Qed.

Lemma fold_sum_bounds (a b : Q) (l : list Q) :
  Forall (fun x => (a <= x)%Q /\ (x <= b)%Q) l ->
  (a * inject_Z (Z.of_nat (length l)) <= fold_left Qplus l 0)%Q /\
  (fold_left Qplus l 0 <= b * inject_Z (Z.of_nat (length l)))%Q.
Proof. exact (sum_Q_bounds a b l). Qed.

Lemma average_bounds (a b : Q) (l : list Q) (n : nat) :
  length l = n -> (0 < n)%nat ->
  Forall (fun x => (a <= x)%Q /\ (x <= b)%Q) l ->
  (a <= ComplianceDashboard.sum_Q l / inject_Z (Z.of_nat n))%Q /\
  (ComplianceDashboard.sum_Q l / inject_Z (Z.of_nat n) <= b)%Q.
Proof.
  intros Hlen Hn Hl. destruct (fold_sum_bounds a b l Hl) as [H1 H2].
  rewrite Hlen in H1, H2.
  assert (0 < inject_Z (Z.of_nat n))%Q as Hp by (apply inject_Z_pos; lia).
  unfold ComplianceDashboard.sum_Q. split.
  - apply Qle_shift_div_l; [exact Hp | exact H1].
  - apply Qle_shift_div_r; [exact Hp | exact H2].
Qed.

(** The statistics of a non-empty history of records in range. *)
Lemma statistics_of_history (self : dashboard) (api : audit_api)
    (stats : statistics) (queries : list json) :
  audit_logger self = Some api ->
  api_get_statistics api = Py.Ok stats ->
  api_get_query_history api 100 = Py.Ok queries ->
  queries <> [] -> Forall scored_in_range queries ->
  exists (qs : query_statistics) (c k : Q) (h : Z),
    get_query_statistics self = Py.Ok qs /\
    qs_error qs = None /\ qs_statistics qs = Some stats /\
    avg_confidence_score qs = Some c /\ (0 <= c)%Q /\ (c <= 1)%Q /\
    avg_risk_score qs = Some k /\ (0 <= k)%Q /\ (k <= 100)%Q /\
    high_risk_queries qs = Some h /\ 0 <= h <= Z.of_nat (length queries) /\
    recent_query_count qs = Some (Z.of_nat (length queries)).
Proof.
  intros Hlog Hstats Hhist Hne Hall.
  assert (Hobj : Forall (fun q => is_object q = true) queries).
  { eapply List.Forall_impl; [|exact Hall]. intros q (c & k & H & _). exact H. }
  destruct (numbers_in_range "confidence_score" 0 1 queries) as (cs & Hcs & Lcs & Rcs).
  { eapply List.Forall_impl; [|exact Hall].
    intros q (c & k & _ & Hc & H0 & H1 & _). now exists c. }
  destruct (numbers_in_range "risk_score" 0 100 queries) as (ks & Hks & Lks & Rks).
  { eapply List.Forall_impl; [|exact Hall].
    intros q (c & k & _ & _ & _ & _ & Hk & H0 & H1). now exists k. }
  assert (Hn : (0 < length queries)%nat).
  { destruct queries; [congruence|]. cbn [length]. lia. }
  destruct (average_bounds 0 1 cs (length queries) Lcs Hn Rcs) as [C0 C1].
  destruct (average_bounds 0 100 ks (length queries) Lks Hn Rks) as [K0 K1].
  destruct (round_between 0 1 _ 2 C0 C1) as [RC0 RC1].
  destruct (round_between 0 100 _ 2 K0 K1) as [RK0 RK1].
  unfold get_query_statistics. rewrite Hlog, Hstats, Hhist. cbn [Py.bind].
  destruct queries as [|q queries'] eqn:E; [congruence|]. rewrite <- E in *.
  rewrite !get_all_objects by exact Hobj. cbn [Py.bind].
  rewrite Hcs, Hks. cbn [Py.bind].
  eexists. eexists. eexists. eexists.
  split; [reflexivity|].
  cbn [qs_error qs_statistics avg_confidence_score avg_risk_score
       high_risk_queries recent_query_count].
  split; [reflexivity|]. split; [reflexivity|].
  split; [reflexivity|]. split; [exact RC0|]. split; [exact RC1|].
  split; [reflexivity|]. split; [exact RK0|]. split; [exact RK1|].
  split; [reflexivity|]. split; [|reflexivity].
  pose proof (filter_length_bound (fun r => Py.Qgeb r 70) ks). lia.
Qed.

End StatisticsFacts.

(** X24: for a recent history of records whose confidence lies in [0,1] and
    whose risk score lies in [0,100], the two averages reported lie in the
    same ranges, and the number of high-risk queries is at most the number of
    recent queries. *)
Theorem X24_query_statistics_in_range :
  forall (self : dashboard) (api : audit_api) (stats : statistics)
         (queries : list json),
    audit_logger self = Some api ->
    api_get_statistics api = Py.Ok stats ->
    api_get_query_history api 100 = Py.Ok queries ->
    queries <> [] -> Forall scored_in_range queries ->
    exists (qs : query_statistics) (c k : Q) (h : Z),
      get_query_statistics self = Py.Ok qs /\
      avg_confidence_score qs = Some c /\ (0 <= c)%Q /\ (c <= 1)%Q /\
      avg_risk_score qs = Some k /\ (0 <= k)%Q /\ (k <= 100)%Q /\
      high_risk_queries qs = Some h /\ 0 <= h <= Z.of_nat (length queries) /\
      recent_query_count qs = Some (Z.of_nat (length queries)).
Proof.
  intros self api stats queries Hlog Hstats Hhist Hne Hall.
  destruct (statistics_of_history self api stats queries Hlog Hstats Hhist
              Hne Hall)
    as (qs & c & k & h & Hq & _ & _ & Hc & C0 & C1 & Hk & K0 & K1 & Hh & Hr & Hn).
  exists qs, c, k, h. repeat split; try assumption; lia.
Qed.

(** Two logged queries, one of them of high risk. *)
Lemma X24_query_statistics_in_range_witness :
  let queries := [scored_query 0.9 20; scored_query 0.7 80] in
  let self :=
    {| collection_get := Py.Ok [];
       audit_logger := Some (history_api queries) |} in
  exists (qs : query_statistics) (c k : Q) (h : Z),
    get_query_statistics self = Py.Ok qs /\
    avg_confidence_score qs = Some c /\ (0 <= c)%Q /\ (c <= 1)%Q /\
    avg_risk_score qs = Some k /\ (0 <= k)%Q /\ (k <= 100)%Q /\
    high_risk_queries qs = Some h /\ 0 <= h <= 2.
Proof.
  intros queries self.
  destruct (X24_query_statistics_in_range self (history_api queries)
              {| total_queries := 2; total_access_logs := 0; total_alerts := 0;
                 total_documents_processed := 0;
                 recent_high_severity_alerts := 0;
                 last_updated := Py.isoformat clock0 |} queries
              eq_refl eq_refl eq_refl ltac:(discriminate))
    as (qs & c & k & h & Hq & Hc & C0 & C1 & Hk & K0 & K1 & Hh & Hr & _).
  - repeat constructor.
    + exists 0.9%Q, 20%Q. repeat split; (reflexivity || (cbv; discriminate)).
    + exists 0.7%Q, 80%Q. repeat split; (reflexivity || (cbv; discriminate)).
  - exists qs, c, k, h. repeat split; try assumption; apply Hr.
Defined.

(** X25: one record of the recent history whose confidence is not a number
    (such as [null]) makes [get_query_statistics] raise TypeError, and with
    it [get_compliance_score], which does not catch it. *)
Theorem X25_non_numeric_confidence_raises :
  forall (self : dashboard) (api : audit_api) (stats : statistics)
         (queries : list json) (q : json)
         (now_coverage now : Py.datetime),
    audit_logger self = Some api ->
    api_get_statistics api = Py.Ok stats ->
    api_get_query_history api 100 = Py.Ok queries ->
    Forall (fun q => is_object q = true) queries ->
    In q queries ->
    number (value_of "confidence_score" q) = Py.Raise Py.TypeError ->
    get_query_statistics self = Py.Raise Py.TypeError /\
    get_compliance_score self now_coverage now = Py.Raise Py.TypeError.
Proof.
  intros self api stats queries q now_coverage now Hlog Hstats Hhist Hobj Hin Hq.
  assert (H : get_query_statistics self = Py.Raise Py.TypeError).
  { unfold get_query_statistics. rewrite Hlog, Hstats, Hhist. cbn [Py.bind].
    destruct queries as [|q0 queries'] eqn:E; [destruct Hin|]. rewrite <- E in *.
    rewrite get_all_objects by exact Hobj. cbn [Py.bind].
    rewrite (numbers_raise _ (value_of "confidence_score" q));
      [reflexivity | now apply in_map | exact Hq]. }
  split; [exact H|]. unfold get_compliance_score. now rewrite H.
Qed.

(** A history with one query logged without a confidence. *)
Lemma X25_non_numeric_confidence_raises_witness :
  let q := JDict [("confidence_score", JNull); ("risk_score", JInt 20)] in
  let self :=
    {| collection_get := Py.Ok (five_documents 80);
       audit_logger := Some (history_api [scored_query 0.9 20; q]) |} in
  get_compliance_score self clock0 clock0 = Py.Raise Py.TypeError.
Proof.
  intros q self.
  refine (proj2 (X25_non_numeric_confidence_raises self
                   (history_api [scored_query 0.9 20; q])
                   {| total_queries := 2; total_access_logs := 0;
                      total_alerts := 0; total_documents_processed := 0;
                      recent_high_severity_alerts := 0;
                      last_updated := Py.isoformat clock0 |}
                   [scored_query 0.9 20; q] q clock0 clock0
                   eq_refl eq_refl eq_refl _ _ eq_refl)).
  - repeat constructor.
  - right. now left.
Defined.

Section ScoreFacts.

Lemma capped_values (d : counts) :
  Forall (fun v => 0 <= v <= 100)
    (values (map (fun '(reg, count) =>
                    (reg, if 0 <? count then Z.min count 100 else 0)) d)).
Proof.
  induction d as [|[k c] d IH]; cbn [map values snd]; constructor.
  - cbn [snd]. destruct (Z.ltb_spec 0 c); lia.
  - exact IH.
Qed.

(** Whatever the index holds, the coverage percentages, when present, are
    five numbers between 0 and 100. *)
Lemma coverage_percentage_range (self : dashboard) (now : Py.datetime)
    (percentages : counts) :
  coverage_percentage (get_document_coverage self now) = Some percentages ->
  length percentages = 5%nat /\
  Forall (fun v => 0 <= v <= 100) (values percentages).
Proof.
  unfold get_document_coverage.
  destruct (collection_get self) as [[|m ms]|e]; cbn [coverage_percentage];
    try discriminate.
  cbv zeta. cbn [coverage_percentage]. intros H. injection H as <-. split.
  - rewrite length_map.
    rewrite <- (length_map fst). change (map fst ?d) with (keys d).
    now rewrite coverage_keys.
  - apply capped_values.
Qed.

Lemma sum_Z_bounds (a b : Z) (l : list Z) :
  Forall (fun v => a <= v <= b) l ->
  a * Z.of_nat (length l) <= sum_Z l <= b * Z.of_nat (length l).
Proof.
  induction 1 as [|x l Hx _ IH].
  - unfold sum_Z. cbn. lia.
  - rewrite sum_Z_cons. cbn [length]. lia.
Qed.

Lemma coverage_average_range (coverage : coverage_report) (a : Q) :
  (forall p, coverage_percentage coverage = Some p ->
             Forall (fun v => 0 <= v <= 100) (values p)) ->
  spec_coverage_average coverage = Some a -> (0 <= a)%Q /\ (a <= 100)%Q.
Proof.
  intros Hp. unfold spec_coverage_average.
  destruct (coverage_percentage coverage) as [[|p ps]|] eqn:E; try discriminate.
  intros H. injection H as <-.
  pose proof (sum_Z_bounds 0 100 _ (Hp _ eq_refl)) as Hs.
  assert (length (values (p :: ps)) = length (p :: ps)) as Hlen
    by (unfold values; apply length_map).
  rewrite Hlen in Hs.
  set (n := Z.of_nat (length (p :: ps))) in *.
  assert (0 < n) as Hn by (subst n; cbn [length]; lia).
  pose proof (inject_Z_pos _ Hn) as Hq. split.
  - apply Qle_shift_div_l; [exact Hq|]. rewrite Qmult_0_l.
    change 0%Q with (inject_Z 0). rewrite <- Zle_Qle.
    change (p.2 :: values ps) with (values (p :: ps)). lia.
  - apply Qle_shift_div_r; [exact Hq|].
    change 100%Q with (inject_Z 100). rewrite <- inject_Z_mult, <- Zle_Qle.
    change (p.2 :: values ps) with (values (p :: ps)). subst n.
    cbn [length] in *. lia.
Qed.

Lemma overall_in_range (coverage : coverage_report)
    (query_stats : query_statistics) (now : Py.datetime) :
  (forall p, coverage_percentage coverage = Some p ->
             Forall (fun v => 0 <= v <= 100) (values p)) ->
  (forall c, avg_confidence_score query_stats = Some c ->
             (0 <= c)%Q /\ (c <= 1)%Q) ->
  (forall k, avg_risk_score query_stats = Some k ->
             (0 <= k)%Q /\ (k <= 100)%Q) ->
  (0 <= overall_score (score_reports coverage query_stats now))%Q /\
  (overall_score (score_reports coverage query_stats now) <= 100)%Q.
Proof.
  intros Hp Hc Hk.
  destruct (score_components_sum coverage query_stats now)
    as (total & Ht & -> & _).
  assert ((0 <= spec_overall coverage query_stats)%Q /\
          (spec_overall coverage query_stats <= 100)%Q) as [H0 H1].
  { unfold spec_overall.
    assert (forall a, spec_coverage_average coverage = Some a ->
                      (0 <= a)%Q /\ (a <= 100)%Q) as Ha
      by (intros a; now apply coverage_average_range).
    destruct (spec_coverage_average coverage) as [a|];
    destruct (avg_confidence_score query_stats) as [c|];
    destruct (avg_risk_score query_stats) as [k|];
    cbn [option_map spec_weighted];
    try (destruct (Ha _ eq_refl)); try (destruct (Hc _ eq_refl));
    try (destruct (Hk _ eq_refl)); split; lra. }
  rewrite (round_comp _ _ 1 Ht).
  apply (round_between 0 100); assumption.
Qed.

(** The averages of the statistics, when present, are in range. *)
Lemma statistics_within_ranges (self : dashboard) :
  match audit_logger self with
  | None => True
  | Some api =>
      exists stats queries,
        api_get_statistics api = Py.Ok stats /\
        api_get_query_history api 100 = Py.Ok queries /\
        Forall scored_in_range queries
  end ->
  exists qs,
    get_query_statistics self = Py.Ok qs /\
    (forall c, avg_confidence_score qs = Some c -> (0 <= c)%Q /\ (c <= 1)%Q) /\
    (forall k, avg_risk_score qs = Some k -> (0 <= k)%Q /\ (k <= 100)%Q).
Proof.
  intros Hlog. destruct (audit_logger self) as [api|] eqn:E.
  - destruct Hlog as (stats & queries & Hstats & Hhist & Hall).
    destruct queries as [|q queries'] eqn:Eq.
    + unfold get_query_statistics. rewrite E, Hstats, Hhist. cbn [Py.bind].
      eexists. split; [reflexivity|]. split; intros x Hx; discriminate Hx.
    + rewrite <- Eq in *.
      destruct (statistics_of_history self api stats queries E Hstats Hhist
                  ltac:(rewrite Eq; discriminate) Hall)
        as (qs & c & k & h & Hq & _ & _ & Hc & C0 & C1 & Hk & K0 & K1 & _).
      exists qs. split; [exact Hq|].
      split; intros x Hx; [rewrite Hc in Hx | rewrite Hk in Hx];
        injection Hx as <-; now split.
  - unfold get_query_statistics. rewrite E.
    eexists. split; [reflexivity|]. split; intros x Hx; discriminate Hx.
Qed.

End ScoreFacts.

(** X26: the overall compliance score lies between 0 and 100 whenever the
    recent query records, if any, carry a confidence in [0,1] and a risk score
    in [0,100]: with no audit logger, with no query logged yet and with an
    empty or failing document index as well. *)
Theorem X26_compliance_score_in_range :
  forall (self : dashboard) (now_coverage now : Py.datetime),
    match audit_logger self with
    | None => True
    | Some api =>
        exists stats queries,
          api_get_statistics api = Py.Ok stats /\
          api_get_query_history api 100 = Py.Ok queries /\
          Forall scored_in_range queries
    end ->
    exists r,
      get_compliance_score self now_coverage now = Py.Ok r /\
      (0 <= overall_score r)%Q /\ (overall_score r <= 100)%Q.
Proof.
  intros self now_coverage now Hlog.
  destruct (statistics_within_ranges self Hlog) as (qs & Hqs & Hc & Hk).
  unfold get_compliance_score. rewrite Hqs. cbn [Py.bind].
  eexists. split; [reflexivity|].
  apply overall_in_range; [|exact Hc|exact Hk].
  intros p Hp. exact (proj2 (coverage_percentage_range _ _ _ Hp)).
Qed.

(** A dashboard over 80 chunks per category and two logged queries. *)
Lemma X26_compliance_score_in_range_witness :
  let self :=
    {| collection_get := Py.Ok (five_documents 80);
       audit_logger :=
         Some (history_api [scored_query 0.9 20; scored_query 0.7 80]) |} in
  exists r,
    get_compliance_score self clock0 clock0 = Py.Ok r /\
    (0 <= overall_score r)%Q /\ (overall_score r <= 100)%Q.
Proof.
  intros self.
  apply (X26_compliance_score_in_range self clock0 clock0).
  cbn [audit_logger self]. eexists. eexists.
  split; [reflexivity|]. split; [reflexivity|].
  repeat constructor.
  - exists 0.9%Q, 20%Q. repeat split; (reflexivity || (cbv; discriminate)).
  - exists 0.7%Q, 80%Q. repeat split; (reflexivity || (cbv; discriminate)).
Defined.

Section CapFacts.

Lemma status_of_total (total : Q) :
  ((total < 60)%Q ->
   (if Py.Qgeb total 80 then ("EXCELLENT", "green")
    else if Py.Qgeb total 60 then ("GOOD", "yellow")
    else if Py.Qgeb total 40 then ("FAIR", "orange")
    else ("NEEDS IMPROVEMENT", "red")).1 = "FAIR" \/
   (if Py.Qgeb total 80 then ("EXCELLENT", "green")
    else if Py.Qgeb total 60 then ("GOOD", "yellow")
    else if Py.Qgeb total 40 then ("FAIR", "orange")
    else ("NEEDS IMPROVEMENT", "red")).1 = "NEEDS IMPROVEMENT") /\
  ((total < 80)%Q ->
   (if Py.Qgeb total 80 then ("EXCELLENT", "green")
    else if Py.Qgeb total 60 then ("GOOD", "yellow")
    else if Py.Qgeb total 40 then ("FAIR", "orange")
    else ("NEEDS IMPROVEMENT", "red")).1 <> "EXCELLENT").
Proof.
  split; intros H.
  - assert (Py.Qgeb total 80 = false) as -> by (apply Qgeb_false; lra).
    assert (Py.Qgeb total 60 = false) as -> by (apply Qgeb_false; lra).
    destruct (Py.Qgeb total 40); [left|right]; reflexivity.
  - assert (Py.Qgeb total 80 = false) as -> by (apply Qgeb_false; lra).
    destruct (Py.Qgeb total 60); [discriminate|].
    destruct (Py.Qgeb total 40); discriminate.
Qed.

End CapFacts.

(** X27: a missing component caps the score.  Without an audit logger, or
    before any query is logged, the overall score is the coverage component
    alone: it is at most 40 and the status is FAIR or NEEDS IMPROVEMENT.
    With an empty or failing document index and recent queries in range, the
    overall score is at most 60 and the status is never EXCELLENT. *)
Theorem X27_missing_component_caps_score :
  forall (self : dashboard) (now_coverage now : Py.datetime),
    (match audit_logger self with
     | None => True
     | Some api =>
         exists stats, api_get_statistics api = Py.Ok stats /\
                       api_get_query_history api 100 = Py.Ok []
     end ->
     exists r,
       get_compliance_score self now_coverage now = Py.Ok r /\
       (0 <= overall_score r)%Q /\ (overall_score r <= 40)%Q /\
       (status r = "FAIR" \/ status r = "NEEDS IMPROVEMENT")) /\
    (forall api stats queries,
        audit_logger self = Some api ->
        api_get_statistics api = Py.Ok stats ->
        api_get_query_history api 100 = Py.Ok queries ->
        Forall scored_in_range queries ->
        coverage_percentage (get_document_coverage self now_coverage) = None ->
        exists r,
          get_compliance_score self now_coverage now = Py.Ok r /\
          (0 <= overall_score r)%Q /\ (overall_score r <= 60)%Q /\
          status r <> "EXCELLENT").
Proof.
  intros self now_coverage now. split.
  - intros Hlog.
    assert (exists qs,
      get_query_statistics self = Py.Ok qs /\
      avg_confidence_score qs = None /\ avg_risk_score qs = None)
      as (qs & Hqs & Hc & Hk).
    { unfold get_query_statistics.
      destruct (audit_logger self) as [api|].
      - destruct Hlog as (stats & -> & ->). cbn [Py.bind].
        eexists. repeat split; reflexivity.
      - eexists. repeat split; reflexivity. }
    unfold get_compliance_score. rewrite Hqs. cbn [Py.bind].
    eexists. split; [reflexivity|].
    set (coverage := get_document_coverage self now_coverage).
    destruct (score_components_sum coverage qs now) as (total & Ht & -> & ->).
    assert ((0 <= total)%Q /\ (total <= 40)%Q) as [H0 H40].
    { rewrite Ht. unfold spec_overall. rewrite Hc, Hk.
      cbn [option_map spec_weighted].
      assert (forall a, spec_coverage_average coverage = Some a ->
                        (0 <= a)%Q /\ (a <= 100)%Q) as Ha.
      { intros a. apply coverage_average_range. intros p Hp.
        exact (proj2 (coverage_percentage_range _ _ _ Hp)). }
      destruct (spec_coverage_average coverage) as [a|];
        cbn [spec_weighted]; [destruct (Ha _ eq_refl)|]; split; lra. }
    destruct (round_between 0 40 total 1 H0 H40) as [R0 R40].
    split; [exact R0|]. split; [exact R40|].
    apply (proj1 (status_of_total total)). lra.
  - intros api stats queries Hlog Hstats Hhist Hall Hcov.
    destruct (statistics_within_ranges self) as (qs & Hqs & Hc & Hk).
    { rewrite Hlog. exists stats, queries. repeat split; assumption. }
    unfold get_compliance_score. rewrite Hqs. cbn [Py.bind].
    eexists. split; [reflexivity|].
    set (coverage := get_document_coverage self now_coverage) in *.
    destruct (score_components_sum coverage qs now) as (total & Ht & -> & ->).
    assert ((0 <= total)%Q /\ (total <= 60)%Q) as [H0 H60].
    { rewrite Ht. unfold spec_overall, spec_coverage_average. rewrite Hcov.
      destruct (avg_confidence_score qs) as [c|];
      destruct (avg_risk_score qs) as [k|];
      cbn [option_map spec_weighted];
      try (destruct (Hc _ eq_refl)); try (destruct (Hk _ eq_refl)); split; lra. }
    destruct (round_between 0 60 total 1 H0 H60) as [R0 R60].
    split; [exact R0|]. split; [exact R60|].
    apply (proj2 (status_of_total total)). lra.
Qed.

(** A dashboard over a full index without an audit logger: the score is 40
    at most. *)
Lemma X27_missing_component_caps_score_witness :
  let self :=
    {| collection_get := Py.Ok (five_documents 100); audit_logger := None |} in
  exists r,
    get_compliance_score self clock0 clock0 = Py.Ok r /\
    (0 <= overall_score r)%Q /\ (overall_score r <= 40)%Q /\
    (status r = "FAIR" \/ status r = "NEEDS IMPROVEMENT").
Proof.
  intros self.
  exact (proj1 (X27_missing_component_caps_score self clock0 clock0) I).
Defined.

(** X28: a dashboard over the audit logger of [audit_logger.py]: when one of
    the last 10 entries read from the alert log is JSON that is not an object,
    the statistics of the logger raise AttributeError, and with them the
    query statistics and the compliance score of the dashboard. *)
Theorem X28_alert_log_line_breaks_dashboard :
  forall (dumps : json -> string) (loads : string -> option json)
         (dir : string) (fs : gmap string string)
         (ops : list (kind * item)) (entry : json)
         (collection : Py.result (list (option string)))
         (now now_coverage now_score : Py.datetime),
    (forall k', default "" (fs !! partition (init dir) k') = "") ->
    Forall (fun op => valid_item dumps loads op.2) ops ->
    In entry (Py.slice_from (-10) (written_to Alert ops)) ->
    is_object entry = false ->
    let fs' := fold_left (append_item dumps (init dir)) ops fs in
    let self :=
      {| collection_get := collection;
         audit_logger := Some (logger_api loads (init dir) fs' now) |} in
    get_statistics loads (init dir) fs' now = Py.Raise Py.AttributeError /\
    get_query_statistics self = Py.Raise Py.AttributeError /\
    get_compliance_score self now_coverage now_score
    = Py.Raise Py.AttributeError.
Proof.
  intros dumps loads dir fs ops entry collection now now_coverage now_score
    Hempty Hops Hin Hobj fs' self.
  assert (H : get_statistics loads (init dir) fs' now
              = Py.Raise Py.AttributeError).
  { subst fs'. unfold get_statistics, get_alerts.
    change (alert_log_file (init dir)) with (partition (init dir) Alert).
    rewrite (read_back_slice dumps loads) by assumption. cbn [Py.bind].
    change (Z.opp 10) with (-10).
    now rewrite (filter_eq_non_object _ _ _ entry). }
  assert (H' : get_query_statistics self = Py.Raise Py.AttributeError).
  { unfold get_query_statistics.
    cbn [audit_logger self logger_api api_get_statistics].
    now rewrite H. }
  split; [exact H|]. split; [exact H'|].
  unfold get_compliance_score. now rewrite H'.
Qed.

(** An alert log with a HIGH alert and a line [null]. *)
Lemma X28_alert_log_line_breaks_dashboard_witness :
  let ops :=
    [(Alert, Written (SeverityJson.alert_of "HIGH")); (Alert, Written JNull)] in
  let fs' :=
    fold_left (append_item SeverityJson.dumps (init "./audit_logs")) ops ∅ in
  get_statistics SeverityJson.loads (init "./audit_logs") fs' clock0
  = Py.Raise Py.AttributeError.
Proof.
  intros ops fs'.
  refine (proj1 (X28_alert_log_line_breaks_dashboard SeverityJson.dumps
                   SeverityJson.loads "./audit_logs" ∅ ops JNull (Py.Ok [])
                   clock0 clock0 clock0 _ _ _ _)).
  - intros k'. rewrite lookup_empty. reflexivity.
  - repeat constructor; vm_compute; reflexivity.
  - right. now left.
  - reflexivity.
Defined.

(** * The compliance score in double precision

    The rounding of binary64 arithmetic, its error on the numbers of the
    compliance score, and the score and status that [get_compliance_score]
    returns. *)

(** ** Rounding to the nearest double *)

Section DoubleFacts.











End DoubleFacts.

(** On the doubles [n / 10] and [m / 7] with [n] up to 40 and [m] from 1 to
    25, rounding the exact sum, difference, product and quotient to the
    nearest double gives the results of binary64 arithmetic. *)
Lemma fl_agrees_with_binary64 :
  forallb (fun n => forallb (Py.operations_agree n) (Py.range 25 1))
    (Py.range 41 0) = true.
Proof. vm_compute. reflexivity. Qed.

(** ** Sums and weighted components *)



Section SumFacts.


End SumFacts.

Section ScoreDoubleFacts.






End ScoreDoubleFacts.

(** ** compliance_dashboard.py *)

Section ScoreNear.




End ScoreNear.

Section StatusFacts.



End StatusFacts.



